(** * Text2Art_SDXL: the session store and the conversation controller

    A shallow embedding of [src/main.py]: the [SessionManager] class (the
    session store), [ImageGenerator.generate] seen as an opaque capability,
    and the three Flask handlers [generate_image], [regenerate] and
    [update_status].

    Conventions of the embedding.
    - A Python [str] is a Rocq [string], one character per code point.  The
      fixed acknowledgement text holds one code point above 255; it is
      written by its UTF-8 bytes and no operation looks inside it.
    - An [Optional[str]] value, and any JSON value the handlers read, is a
      [value]: [VNone] or [VStr s].
    - A Python [dict] is an association list in insertion order ([dict V]).
      Iteration order matters: the scans of [update_message_status] and
      [find_message_prompt] stop at the first match.
    - [uuid.uuid4()], the two diffusion pipelines, [image.save] and the
      write of the sessions file are inputs of the model ([Env]).
    - The handlers run in a state-and-exception monad over [World]; a state
      change made before an exception is raised stays made, as in Python. *)

From Stdlib Require Import String Ascii List NArith Bool Arith Lia Permutation.
Import ListNotations.
Local Open Scope string_scope.
Local Open Scope list_scope.

(** String concatenation, Python's [+] on [str]. *)
Notation "s1 ^^ s2" := (String.append s1 s2) (at level 60, right associativity).

(* ================================================================== *)
(** ** Python primitives *)
(* ================================================================== *)
Module Py.

Inductive value : Type :=
| VNone
| VStr (s : string).

Definition value_eqb (a b : value) : bool :=
  match a, b with
  | VNone, VNone => true
  | VStr x, VStr y => String.eqb x y
  | _, _ => false
  end.

(** Truth value of an object: [None] and [""] are false. *)
Definition truthy (v : value) : bool :=
  match v with
  | VNone => false
  | VStr s => negb (String.eqb s "")
  end.

Definition nonempty (s : string) : bool := negb (String.eqb s "").

(** Exceptions that the modelled code can raise. *)
Inductive exn : Type :=
| KeyError (key : string)
| IndexError
| AttributeError (msg : string)
| UnicodeEncodeError (msg : string)
| CapabilityError (msg : string).

(** [str(e)] *)
Definition str_of_exn (e : exn) : string :=
  match e with
  | KeyError k => "'" ^^ k ^^ "'"
  | IndexError => "list index out of range"
  | AttributeError m => m
  | UnicodeEncodeError m => m
  | CapabilityError m => m
  end.

Inductive Result (A : Type) : Type :=
| Ok (a : A)
| Raise (e : exn).
Arguments Ok {A} a.
Arguments Raise {A} e.

(** *** dict *)
Definition dict (V : Type) : Type := list (string * V).

(** [k in d], [d.get(k)] as an option *)
Fixpoint dict_get {V : Type} (k : string) (d : dict V) : option V :=
  match d with
  | [] => None
  | (k', v) :: d' => if String.eqb k k' then Some v else dict_get k d'
  end.

(** [d[k] = v]: an existing key keeps its place, a new key goes last. *)
Fixpoint dict_set {V : Type} (k : string) (v : V) (d : dict V) : dict V :=
  match d with
  | [] => [(k, v)]
  | (k', v') :: d' =>
      if String.eqb k k' then (k', v) :: d' else (k', v') :: dict_set k v d'
  end.

(** [d.get(k)] on a dict of values: a missing key reads as [None]. *)
Definition get (k : string) (d : dict value) : value :=
  match dict_get k d with
  | Some v => v
  | None => VNone
  end.

(** [d.get(k, default)] *)
Definition get_default (k : string) (default : value) (d : dict value) : value :=
  match dict_get k d with
  | Some v => v
  | None => default
  end.

(** [d[k]] *)
Definition index (k : string) (d : dict value) : Result value :=
  match dict_get k d with
  | Some v => Ok v
  | None => Raise (KeyError k)
  end.

(** *** str *)

(** [s[:n]] *)
Fixpoint take (n : nat) (s : string) : string :=
  match n, s with
  | S n', String c s' => String c (take n' s')
  | _, _ => ""
  end.

(** [c.isspace()] for a code point below 256. *)
Definition isspace (c : ascii) : bool :=
  let n := nat_of_ascii c in
  (((9 <=? n) && (n <=? 13)) || ((28 <=? n) && (n <=? 32))
   || (n =? 133) || (n =? 160))%nat.

Fixpoint lstrip (s : string) : string :=
  match s with
  | EmptyString => ""
  | String c s' => if isspace c then lstrip s' else s
  end.

Fixpoint rstrip (s : string) : string :=
  match s with
  | EmptyString => ""
  | String c s' =>
      match rstrip s' with
      | EmptyString => if isspace c then "" else String c ""
      | r => String c r
      end
  end.

(** [s.strip()] *)
Definition strip (s : string) : string := rstrip (lstrip s).

(** [v.strip()] on an object: [None] has no such attribute. *)
Definition value_strip (v : value) : Result string :=
  match v with
  | VStr s => Ok (strip s)
  | VNone => Raise (AttributeError "'NoneType' object has no attribute 'strip'")
  end.

(** [sep.join(items)] *)
Fixpoint join (sep : string) (items : list string) : string :=
  match items with
  | [] => ""
  | [x] => x
  | x :: rest => x ^^ sep ^^ join sep rest
  end.

(** *** uuid *)

Definition hex_digit (d : N) : ascii :=
  match d with
  | 0 => "0" | 1 => "1" | 2 => "2" | 3 => "3" | 4 => "4" | 5 => "5"
  | 6 => "6" | 7 => "7" | 8 => "8" | 9 => "9" | 10 => "a" | 11 => "b"
  | 12 => "c" | 13 => "d" | 14 => "e" | _ => "f"
  end%N%char.

(** [n] written on [w] lower-case hexadecimal digits, ['%0wx' % n]. *)
Fixpoint hex_fixed (w : nat) (n : N) : string :=
  match w with
  | O => ""
  | S w' => hex_fixed w' (n / 16)%N ^^ String (hex_digit (n mod 16)%N) ""
  end.

(** [u.hex] for a UUID given by its 128-bit integer. *)
Definition uuid_hex (u : N) : string := hex_fixed 32 (u mod 2 ^ 128)%N.

(** [u.hex[:8]] *)
Definition hex8 (u : N) : string := take 8 (uuid_hex u).

Definition is_hex_char (c : ascii) : bool :=
  existsb (Ascii.eqb c) (list_ascii_of_string "0123456789abcdef").

End Py.
Import Py.

(* ================================================================== *)
(** ** Data model *)
(* ================================================================== *)

(** A message is a dict with the keys ["id"], ["sender"], ["text"],
    ["image_url"], ["status"], not all of them present in every message. *)
Definition Message : Type := dict value.

(** [{"title": ..., "messages": [...]}] *)
Record Session : Type := mkSession {
  title : string;
  messages : list Message
}.

(** [self.sessions]: session id to session, in insertion order. *)
Definition Sessions : Type := dict Session.

(* ================================================================== *)
(** ** SessionManager *)
(* ================================================================== *)
Module SessionManager.

(** [get_all] *)
Definition get_all (sessions : Sessions) : list (string * string) :=
  map (fun '(sid, session) => (sid, title session)) sessions.

(** [get] *)
Definition get (session_id : value) (sessions : Sessions) : option Session :=
  match session_id with
  | VStr sid => dict_get sid sessions
  | VNone => None
  end.

Definition make_title (prompt : string) : string :=
  take 30 prompt ^^ (if (30 <? String.length prompt)%nat then "..." else "").

(** [create], with [u] the value drawn by [uuid.uuid4()]. *)
Definition create (u : N) (prompt : string) (sessions : Sessions)
  : string * Sessions :=
  let session_id := hex8 u in
  (session_id,
   dict_set session_id
     {| title := make_title prompt; messages := [] |} sessions).

(** [add_message] *)
Definition add_message (session_id : string) (message : Message)
    (sessions : Sessions) : Sessions :=
  match dict_get session_id sessions with
  | Some session =>
      dict_set session_id
        {| title := title session;
           messages := messages session ++ [message] |} sessions
  | None => sessions
  end.

(** [msg.get("id") == message_id] *)
Definition has_id (message_id : string) (msg : Message) : bool :=
  value_eqb (Py.get "id" msg) (VStr message_id).

(** The inner loop of [update_message_status]; [None] when the loop ends
    without a match. *)
Fixpoint update_in_messages (message_id status : string) (msgs : list Message)
  : option (list Message) :=
  match msgs with
  | [] => None
  | msg :: rest =>
      if has_id message_id msg
      then Some (dict_set "status" (VStr status) msg :: rest)
      else option_map (cons msg) (update_in_messages message_id status rest)
  end.

(** [update_message_status]: the outer loop.  [None] stands for the
    [return False] after the loops, [Some sessions'] for [return True]. *)
Fixpoint update_in_sessions (message_id status : string) (sessions : Sessions)
  : option Sessions :=
  match sessions with
  | [] => None
  | (sid, session) :: rest =>
      match update_in_messages message_id status (messages session) with
      | Some msgs' =>
          Some ((sid, {| title := title session; messages := msgs' |}) :: rest)
      | None =>
          option_map (cons (sid, session))
            (update_in_sessions message_id status rest)
      end
  end.

Definition update_message_status (message_id status : string)
    (sessions : Sessions) : bool * Sessions :=
  match update_in_sessions message_id status sessions with
  | Some sessions' => (true, sessions')
  | None => (false, sessions)
  end.

(** The body of the inner loop of [find_message_prompt] at a matching
    message [msg] of index [i] in [all]. *)
Definition prompt_at (sid : string) (all : list Message) (i : nat)
    (msg : Message) : Result (option (string * value)) :=
  match i with
  | S j =>
      match nth_error all j with
      | Some prev =>
          match index "sender" prev with
          | Ok sender =>
              if value_eqb sender (VStr "user")
              then match index "text" prev with
                   | Ok text => Ok (Some (sid, text))
                   | Raise e => Raise e
                   end
              else Ok (Some (sid, get_default "text" (VStr "") msg))
          | Raise e => Raise e
          end
      | None => Raise IndexError
      end
  | O => Ok (Some (sid, get_default "text" (VStr "") msg))
  end.

(** The inner loop of [find_message_prompt] from index [i] on; [Ok None]
    when the loop ends without a match. *)
Fixpoint find_in_messages (sid : string) (all : list Message)
    (message_id : string) (i : nat) (rest : list Message)
  : Result (option (string * value)) :=
  match rest with
  | [] => Ok None
  | msg :: rest' =>
      if has_id message_id msg
      then prompt_at sid all i msg
      else find_in_messages sid all message_id (S i) rest'
  end.

(** [find_message_prompt] *)
Fixpoint find_message_prompt (message_id : string) (sessions : Sessions)
  : Result (option (string * value)) :=
  match sessions with
  | [] => Ok None
  | (sid, session) :: rest =>
      match find_in_messages sid (messages session) message_id 0
              (messages session) with
      | Ok None => find_message_prompt message_id rest
      | r => r
      end
  end.

(** The comprehension of [get_all_prompts]. *)
Fixpoint user_prompts (msgs : list Message) : list string :=
  match msgs with
  | [] => []
  | msg :: rest =>
      if value_eqb (Py.get "sender" msg) (VStr "user")
         && truthy (Py.get "text" msg)
      then match get_default "text" (VStr "") msg with
           | VStr t => t :: user_prompts rest
           | VNone => user_prompts rest
           end
      else user_prompts rest
  end.

(** [get_all_prompts] *)
Definition get_all_prompts (session_id : string) (sessions : Sessions)
  : string :=
  match dict_get session_id sessions with
  | None => ""
  | Some session => join ". " (user_prompts (messages session))
  end.

End SessionManager.

(* ================================================================== *)
(** ** The world around the handlers *)
(* ================================================================== *)

(** How [save] can fail. *)
Inductive WriteFailure : Type :=
(** [open(self.filepath, "w")] raises an [IOError]: the file is not
    touched and [save] prints the error *)
| OpenFails
(** [open] has emptied the file and the dump raises an [IOError]: the
    file is left without a complete document and [save] prints the
    error *)
| DumpFails
(** [open] has emptied the file and [json.dump] raises an exception that
    is not an [IOError], as [UnicodeEncodeError] on a string with a lone
    surrogate: the file is left without a complete document and the
    exception leaves [save].  Strings of this model have no surrogates,
    so the environment decides whether this happens. *)
| EncodeFails (msg : string).

(** What the process does not decide itself. *)
Record Env : Type := mkEnv {
  (** the 128-bit integer of the [n]-th UUID drawn by [uuid.uuid4()] *)
  uuid4 : nat -> N;
  (** the base and refiner pipelines on a prompt: [None] when both return,
      [Some msg] when an exception with [str(e) = msg] is raised *)
  pipelines : string -> option string;
  (** [image.save(filepath)], same convention *)
  image_save : string -> option string;
  (** whether [open(self.filepath, "w")] and the dump go through *)
  sessions_file_write : bool;
  (** how they fail when they do not *)
  sessions_file_failure : WriteFailure
}.

Record World : Type := mkWorld {
  (** [session_manager.sessions] *)
  sessions : Sessions;
  (** the document at [Config.SESSIONS_FILE], as the dict that
      [json.dump] wrote; [None] when there is no readable document *)
  sessions_file : option Sessions;
  (** how many UUIDs have been drawn *)
  uuid_calls : nat;
  (** the prompts [image_generator.generate] was called with, oldest first *)
  invocations : list string
}.

Definition set_sessions (s : Sessions) (w : World) : World :=
  {| sessions := s; sessions_file := sessions_file w;
     uuid_calls := uuid_calls w; invocations := invocations w |}.

Definition set_sessions_file (f : option Sessions) (w : World) : World :=
  {| sessions := sessions w; sessions_file := f;
     uuid_calls := uuid_calls w; invocations := invocations w |}.

Definition set_uuid_calls (n : nat) (w : World) : World :=
  {| sessions := sessions w; sessions_file := sessions_file w;
     uuid_calls := n; invocations := invocations w |}.

Definition set_invocations (l : list string) (w : World) : World :=
  {| sessions := sessions w; sessions_file := sessions_file w;
     uuid_calls := uuid_calls w; invocations := l |}.

(** State and exceptions. *)
Definition M (A : Type) : Type := World -> Result A * World.

Definition ret {A : Type} (a : A) : M A := fun w => (Ok a, w).

Definition bind {A B : Type} (m : M A) (k : A -> M B) : M B :=
  fun w =>
    match m w with
    | (Ok a, w') => k a w'
    | (Raise e, w') => (Raise e, w')
    end.

Notation "x <- m ;; k" := (bind m (fun x => k))
  (at level 61, m at next level, right associativity).
Notation "m ;; k" := (bind m (fun _ => k))
  (at level 61, right associativity).

(** [try: m except Exception as e: handler(e)] *)
Definition try_except {A : Type} (m : M A) (handler : exn -> M A) : M A :=
  fun w =>
    match m w with
    | (Ok a, w') => (Ok a, w')
    | (Raise e, w') => handler e w'
    end.

Definition lift {A : Type} (r : Result A) : M A := fun w => (r, w).

(** A method of [session_manager] that only reads [self.sessions]. *)
Definition query {A : Type} (f : Sessions -> A) : M A :=
  fun w => (Ok (f (sessions w)), w).

(** A method of [session_manager] that updates [self.sessions]. *)
Definition update {A : Type} (f : Sessions -> A * Sessions) : M A :=
  fun w => let '(a, s) := f (sessions w) in (Ok a, set_sessions s w).

(** [uuid.uuid4()] *)
Definition uuid4_call (E : Env) : M N :=
  fun w => (Ok (uuid4 E (uuid_calls w)), set_uuid_calls (S (uuid_calls w)) w).

(** [uuid.uuid4().hex[:8]] *)
Definition fresh_hex8 (E : Env) : M string :=
  u <- uuid4_call E ;; ret (hex8 u).

(** A call that the environment lets through or makes raise. *)
Definition external (outcome : option string) : M unit :=
  match outcome with
  | None => ret tt
  | Some msg => lift (Raise (CapabilityError msg))
  end.

(** [session_manager.save()]: [open(self.filepath, "w")] empties the
    file, [json.dump] writes the store, and only an [IOError] is caught. *)
Definition save (E : Env) : M unit :=
  fun w =>
    if sessions_file_write E
    then (Ok tt, set_sessions_file (Some (sessions w)) w)
    else match sessions_file_failure E with
         | OpenFails => (Ok tt, w)
         | DumpFails => (Ok tt, set_sessions_file None w)
         | EncodeFails msg =>
             (Raise (UnicodeEncodeError msg), set_sessions_file None w)
         end.

Module Config.
Definition STATIC_DIR : string := "/root/Project/static".
Definition GENERATED_DIR : string := STATIC_DIR ^^ "/" ^^ "generated".
End Config.

(* ================================================================== *)
(** ** ImageGenerator *)
(* ================================================================== *)
Module ImageGenerator.

(** [generate]: the call is recorded in [invocations] on entry. *)
Definition generate (E : Env) (prompt : string) : M string :=
  (fun w => (Ok tt, set_invocations (invocations w ++ [prompt]) w)) ;;
  external (pipelines E prompt) ;;
  filename <- (h <- fresh_hex8 E ;; ret (h ^^ ".png")) ;;
  let filepath := Config.GENERATED_DIR ^^ "/" ^^ filename in
  external (image_save E filepath) ;;
  ret ("generated/" ^^ filename).

End ImageGenerator.

(* ================================================================== *)
(** ** Routes *)
(* ================================================================== *)

(** What a handler hands to [jsonify], with the status code. *)
Inductive Response : Type :=
| ErrorResponse (code : nat) (error : string)
| Generated (session_id image_url message_id : string)
| Regenerated (session_id prompt image_url message_id : string)
| Success.

(** [if v:] on an object that is then used as a [str]. *)
Definition as_truthy (v : value) : option string :=
  match v with
  | VStr s => if String.eqb s "" then None else Some s
  | VNone => None
  end.

(** [session_id and session_manager.get(session_id)]; a session dict has
    two keys and so is true. *)
Definition existing_session (session_id : value) (s : Sessions)
  : option string :=
  match as_truthy session_id with
  | Some sid =>
      match SessionManager.get session_id s with
      | Some _ => Some sid
      | None => None
      end
  | None => None
  end.

Definition newline : string := String (ascii_of_nat 10) "".

Definition boom_text : string :=
  "💥 Boom! Image is generated, do you want H&C to help you with anything else?".

Definition user_message (id text : string) : Message :=
  [("id", VStr id); ("sender", VStr "user"); ("text", VStr text)].

Definition bot_message (id image_url text : string) : Message :=
  [("id", VStr id); ("sender", VStr "bot"); ("image_url", VStr image_url);
   ("text", VStr text); ("status", VNone)].

Definition boom_message (id : string) : Message :=
  [("id", VStr id); ("sender", VStr "bot"); ("text", VStr boom_text)].

Definition add_message (session_id : string) (message : Message) : M unit :=
  update (fun s => (tt, SessionManager.add_message session_id message s)).

(** [generate_image], the handler of [POST /generate], on the request's
    JSON object [data]. *)
Definition generate_image (E : Env) (data : dict value) : M Response :=
  try_except
    (prompt_new <- lift (value_strip (get_default "prompt" (VStr "") data)) ;;
     let session_id := Py.get "session_id" data in
     if negb (nonempty prompt_new)
     then ret (ErrorResponse 400 "Prompt is empty")
     else
       found <- query (existing_session session_id) ;;
       target <-
         match found with
         | Some sid =>
             old_prompts <- query (SessionManager.get_all_prompts sid) ;;
             ret (sid,
                  if nonempty old_prompts
                  then old_prompts ^^ ". " ^^ prompt_new
                  else prompt_new)
         | None =>
             u <- uuid4_call E ;;
             sid <- update (SessionManager.create u prompt_new) ;;
             ret (sid, prompt_new)
         end ;;
       let '(session_id, prompt) := target in
       image_path <- ImageGenerator.generate E prompt ;;
       user_id <- fresh_hex8 E ;;
       bot_id <- fresh_hex8 E ;;
       boom_id <- fresh_hex8 E ;;
       add_message session_id (user_message user_id prompt_new) ;;
       add_message session_id
         (bot_message bot_id ("/static/" ^^ image_path)
            ("Image is generated from prompt:" ^^ newline ^^ prompt)) ;;
       add_message session_id (boom_message boom_id) ;;
       save E ;;
       ret (Generated session_id ("/static/" ^^ image_path) bot_id))
    (fun e =>
       ret (ErrorResponse 500 ("Image generation failed: " ^^ str_of_exn e))).

(** [regenerate], the handler of [POST /regenerate].  An exception of
    [find_message_prompt] is outside the [try] and leaves the handler. *)
Definition regenerate (E : Env) (data : dict value) : M Response :=
  match as_truthy (Py.get "message_id" data) with
  | None => ret (ErrorResponse 400 "Missing message_id")
  | Some message_id =>
      result <- (fun w =>
                   (SessionManager.find_message_prompt message_id (sessions w),
                    w)) ;;
      match result with
      | None => ret (ErrorResponse 404 "Message not found")
      | Some (session_id, prompt_value) =>
          match as_truthy prompt_value with
          | None => ret (ErrorResponse 400 "No valid prompt found")
          | Some prompt =>
              attempt <-
                try_except
                  (image_path <- ImageGenerator.generate E prompt ;;
                   ret (inl image_path))
                  (fun e =>
                     ret (inr (ErrorResponse 500
                                 ("Image generation failed: "
                                  ^^ str_of_exn e)))) ;;
              match attempt with
              | inr response => ret response
              | inl image_path =>
                  new_user_id <- fresh_hex8 E ;;
                  new_bot_id <- fresh_hex8 E ;;
                  boom_id <- fresh_hex8 E ;;
                  add_message session_id (user_message new_user_id prompt) ;;
                  add_message session_id
                    (bot_message new_bot_id ("/static/" ^^ image_path)
                       prompt) ;;
                  add_message session_id (boom_message boom_id) ;;
                  save E ;;
                  ret (Regenerated session_id prompt
                         ("/static/" ^^ image_path) new_bot_id)
              end
          end
      end
  end.

(** [update_status], the handler of [POST /update_status]. *)
Definition update_status (E : Env) (data : dict value) : M Response :=
  match as_truthy (Py.get "message_id" data), as_truthy (Py.get "status" data) with
  | Some message_id, Some status =>
      ok <- update (SessionManager.update_message_status message_id status) ;;
      if (ok : bool)
      then save E ;; ret Success
      else ret (ErrorResponse 404 "Message not found")
  | _, _ => ret (ErrorResponse 400 "Missing message_id or status")
  end.

(* ================================================================== *)
(** ** A worked example *)
(* ================================================================== *)
Module Example.

(** The [n]-th UUID starts with the hexadecimal digits of [n + 1]; every
    external call goes through. *)
Definition env : Env :=
  {| uuid4 := fun n => (N.of_nat (S n) * 2 ^ 96)%N;
     pipelines := fun _ => None;
     image_save := fun _ => None;
     sessions_file_write := true;
     sessions_file_failure := OpenFails |}.

(** The same, with pipelines that run out of memory. *)
Definition failing_env : Env :=
  {| uuid4 := fun n => (N.of_nat (S n) * 2 ^ 96)%N;
     pipelines := fun _ => Some "CUDA out of memory";
     image_save := fun _ => None;
     sessions_file_write := true;
     sessions_file_failure := OpenFails |}.

Definition empty_world : World :=
  {| sessions := []; sessions_file := Some []; uuid_calls := 0;
     invocations := [] |}.

(** The session that [POST /generate] with the prompt ["a cat"] leaves in
    an empty store under [env]. *)
Definition cat_user : Message := user_message "00000003" "a cat".

Definition cat_bot : Message :=
  bot_message "00000004" "/static/generated/00000002.png"
    ("Image is generated from prompt:" ^^ newline ^^ "a cat").

Definition cat_boom : Message := boom_message "00000005".

Definition cat_session : Session :=
  {| title := "a cat"; messages := [cat_user; cat_bot; cat_boom] |}.

Definition cat_sessions : Sessions := [("00000001", cat_session)].

Definition cat_world : World :=
  {| sessions := cat_sessions; sessions_file := Some cat_sessions;
     uuid_calls := 5; invocations := ["a cat"] |}.

End Example.

(* ================================================================== *)
(** ** Vocabulary of the properties *)
(* ================================================================== *)

(** Some message of the list has id [message_id]. *)
Definition mentions (message_id : string) (msgs : list Message) : bool :=
  existsb (SessionManager.has_id message_id) msgs.

(** Some message of some session has id [message_id]. *)
Definition sessions_mention (message_id : string) (s : Sessions) : bool :=
  existsb (fun kv => mentions message_id (messages (snd kv))) s.

(** [msg], at index [i] of the session [sid] that sits between [before]
    and [after] in the store, is the first message with id [message_id]
    that an iteration over the sessions meets. *)
Definition first_occurrence (message_id : string) (s : Sessions)
    (before : Sessions) (sid : string) (session : Session) (after : Sessions)
    (i : nat) (msg : Message) : Prop :=
  s = before ++ (sid, session) :: after
  /\ sessions_mention message_id before = false
  /\ nth_error (messages session) i = Some msg
  /\ SessionManager.has_id message_id msg = true
  /\ mentions message_id (firstn i (messages session)) = false.

(** How many messages of the store have id [message_id]. *)
Definition id_count (message_id : string) (s : Sessions) : nat :=
  list_sum
    (map (fun kv =>
            length (filter (SessionManager.has_id message_id)
                      (messages (snd kv)))) s).

(** The messages of a session, none for an unknown id. *)
Definition messages_of (sid : string) (s : Sessions) : list Message :=
  match dict_get sid s with
  | Some session => messages session
  | None => []
  end.

(** The history in the spec's words: the texts of the user-sent messages
    whose text is not empty, in order, joined with [". "]. *)
Definition user_sent (msg : Message) : bool :=
  match dict_get "sender" msg with
  | Some (VStr sender) => String.eqb sender "user"
  | _ => false
  end.

Definition text_of (msg : Message) : string :=
  match dict_get "text" msg with
  | Some (VStr t) => t
  | _ => ""
  end.

Definition concatenated_prompt_history_spec (msgs : list Message) : string :=
  String.concat ". "
    (map text_of
       (filter (fun m => user_sent m && negb (String.eqb (text_of m) ""))
          msgs)).

(** Every character is a lower-case hexadecimal digit. *)
Fixpoint all_hex (s : string) : bool :=
  match s with
  | EmptyString => true
  | String c s' => is_hex_char c && all_hex s'
  end.

(** The effective prompt of a generation in an existing session. *)
Definition cumulative_prompt (history prompt_new : string) : string :=
  if nonempty history then history ^^ ". " ^^ prompt_new else prompt_new.

(** The session a generation request works in, the prompt it hands to the
    capability, and the world at the time of that call. *)
Definition generation_target (E : Env) (session_id : value)
    (prompt_new : string) (w : World) : string * string * World :=
  match existing_session session_id (sessions w) with
  | Some sid =>
      (sid,
       cumulative_prompt (SessionManager.get_all_prompts sid (sessions w))
         prompt_new,
       w)
  | None =>
      let u := uuid4 E (uuid_calls w) in
      (hex8 u, prompt_new,
       set_sessions (snd (SessionManager.create u prompt_new (sessions w)))
         (set_uuid_calls (S (uuid_calls w)) w))
  end.

(** The three messages that a handler appends after a generation, with
    ids from the next three UUIDs of world [w]. *)
Definition exchange (E : Env) (user_text image_url caption : string)
    (w : World) : list Message :=
  [user_message (hex8 (uuid4 E (uuid_calls w))) user_text;
   bot_message (hex8 (uuid4 E (S (uuid_calls w)))) image_url caption;
   boom_message (hex8 (uuid4 E (S (S (uuid_calls w)))))].

(** The store once the messages of [msgs] are appended, in order, to
    session [sid]. *)
Definition add_messages (sid : string) (msgs : list Message) (s : Sessions)
  : Sessions :=
  fold_left (fun acc msg => SessionManager.add_message sid msg acc) msgs s.

(** The exception that leaves [save], if any. *)
Definition save_raises (E : Env) : option exn :=
  if sessions_file_write E then None
  else match sessions_file_failure E with
       | EncodeFails msg => Some (UnicodeEncodeError msg)
       | _ => None
       end.

(** The document that [save] leaves in the file, for the store [s] and
    the former document [old]. *)
Definition file_after_save (E : Env) (s : Sessions) (old : option Sessions)
  : option Sessions :=
  if sessions_file_write E then Some s
  else match sessions_file_failure E with
       | OpenFails => old
       | _ => None
       end.

(** The world after the three appends and the save. *)
Definition record_exchange (E : Env) (sid : string)
    (user_text image_url caption : string) (w : World) : World :=
  let s' := add_messages sid (exchange E user_text image_url caption w)
              (sessions w) in
  {| sessions := s';
     sessions_file := file_after_save E s' (sessions_file w);
     uuid_calls := S (S (S (uuid_calls w)));
     invocations := invocations w |}.

(* ================================================================== *)
(** ** The rest of the application *)
(* ================================================================== *)

(** [SessionManager._load_sessions] on the document of the sessions file:
    a missing file and a document that does not decode both give [{}]. *)
Definition load_sessions (file : option Sessions) : Sessions :=
  match file with
  | Some s => s
  | None => []
  end.

(** A new process: [session_manager = SessionManager(Config.SESSIONS_FILE)]
    on the file as the previous process left it. *)
Definition restart (w : World) : World :=
  set_sessions (load_sessions (sessions_file w)) w.

(** [get_sessions], the handler of [GET /sessions]. *)
Definition get_sessions : M (list (string * string)) :=
  query SessionManager.get_all.

(** What [get_session] hands to [jsonify]: the session, or
    [{"messages": []}] with status 404. *)
Inductive SessionReply : Type :=
| SessionFound (session : Session)
| SessionNotFound.

(** [get_session], the handler of [GET /session/<session_id>]. *)
Definition get_session (session_id : string) : M SessionReply :=
  query (fun s =>
           match SessionManager.get (VStr session_id) s with
           | Some session => SessionFound session
           | None => SessionNotFound
           end).

(** The three [POST] routes. *)
Inductive Request : Type :=
| PostGenerate (data : dict value)
| PostRegenerate (data : dict value)
| PostUpdateStatus (data : dict value).

Definition handle (E : Env) (r : Request) : M Response :=
  match r with
  | PostGenerate data => generate_image E data
  | PostRegenerate data => regenerate E data
  | PostUpdateStatus data => update_status E data
  end.

(** The world after a sequence of requests, one after the other.  A
    handler that raises leaves the world as it was at the raise. *)
Fixpoint serve (E : Env) (requests : list Request) (w : World) : World :=
  match requests with
  | [] => w
  | r :: rest => serve E rest (snd (handle E r w))
  end.

(** *** Shapes of messages *)

Definition has_sender (msg : Message) : bool :=
  match dict_get "sender" msg with
  | Some _ => true
  | None => false
  end.

(** The text is a non-empty string. *)
Definition has_text (msg : Message) : bool :=
  match dict_get "text" msg with
  | Some (VStr t) => nonempty t
  | _ => false
  end.

Definition has_image (msg : Message) : bool :=
  match dict_get "image_url" msg with
  | Some _ => true
  | None => false
  end.

(** Every message of the store has a sender and a non-empty text. *)
Definition store_readable (s : Sessions) : bool :=
  forallb (fun kv =>
             forallb (fun m => has_sender m && has_text m)
               (messages (snd kv))) s.

(** The three messages of an exchange: a user message with a text and
    no image, a message of another sender with an image, a message of
    another sender without. *)
Definition is_exchange (u b c : Message) : bool :=
  user_sent u && has_text u && negb (has_image u)
  && has_image b && negb (user_sent b)
  && negb (has_image c) && negb (user_sent c).

(** The messages come in exchanges. *)
Fixpoint in_exchanges (msgs : list Message) : bool :=
  match msgs with
  | [] => true
  | u :: b :: c :: rest => is_exchange u b c && in_exchanges rest
  | _ => false
  end.

Definition store_in_exchanges (s : Sessions) : bool :=
  forallb (fun kv => in_exchanges (messages (snd kv))) s.

(** The ids of all messages of the store, in iteration order. *)
Definition message_ids (s : Sessions) : list value :=
  flat_map (fun kv => map (Py.get "id") (messages (snd kv))) s.

(** The first [n] UUIDs differ in their first eight hexadecimal digits. *)
Definition distinct_draws (E : Env) (n : nat) : Prop :=
  NoDup (map (fun k => hex8 (uuid4 E k)) (seq 0 n)).

(** Every message id of the store is one of the ids drawn so far, and no
    two messages share an id. *)
Definition ids_drawn (E : Env) (w : World) : Prop :=
  NoDup (message_ids (sessions w))
  /\ forall v, In v (message_ids (sessions w)) ->
              exists k, k < uuid_calls w /\ v = VStr (hex8 (uuid4 E k)).

(** The first 32 bits of a UUID. *)
Definition time_low (u : N) : N := ((u mod 2 ^ 128) / 2 ^ 96)%N.

(** Every character is white space. *)
Fixpoint all_space (s : string) : bool :=
  match s with
  | EmptyString => true
  | String c s' => isspace c && all_space s'
  end.

(** List membership of strings, by [String.eqb]. *)
Fixpoint distinct_strings (l : list string) : bool :=
  match l with
  | [] => true
  | x :: rest => negb (existsb (String.eqb x) rest) && distinct_strings rest
  end.

(** Two messages that read the same under ["id"], ["sender"], ["text"]
    and ["image_url"]: under every key but ["status"] that the code
    writes. *)
Definition same_reads (a b : Message) : Prop :=
  dict_get "id" a = dict_get "id" b
  /\ dict_get "sender" a = dict_get "sender" b
  /\ dict_get "text" a = dict_get "text" b
  /\ dict_get "image_url" a = dict_get "image_url" b.

(** Two stores with the same ids and titles, in the same order, whose
    messages read the same. *)
Definition same_store (s s' : Sessions) : Prop :=
  Forall2 (fun kv kv' =>
             fst kv = fst kv'
             /\ title (snd kv) = title (snd kv')
             /\ Forall2 same_reads (messages (snd kv)) (messages (snd kv')))
    s s'.

(** The changes of the store that the handlers make: a session created,
    an exchange appended to a session of the store, a status set, any
    sequence of these. *)
Inductive store_step : Sessions -> Sessions -> Prop :=
| step_none (s : Sessions) : store_step s s
| step_create (u : N) (prompt : string) (s : Sessions) :
    store_step s (snd (SessionManager.create u prompt s))
| step_exchange (sid user_id bot_id boom_id text image_url caption : string)
    (s : Sessions) (session : Session) :
    dict_get sid s = Some session ->
    text <> "" ->
    caption <> "" ->
    store_step s
      (add_messages sid
         [user_message user_id text; bot_message bot_id image_url caption;
          boom_message boom_id] s)
| step_status (message_id status : string) (s : Sessions) :
    store_step s
      (snd (SessionManager.update_message_status message_id status s))
| step_trans (a b c : Sessions) :
    store_step a b -> store_step b c -> store_step a c.

(** [request.get_json()]: a JSON object, or a JSON value of another kind,
    given by the name of its Python type ([list], [NoneType], [str],
    ...). *)
Inductive Body : Type :=
| ObjectBody (data : dict value)
| OtherBody (type_name : string).

(** [data.get] on a value that is not a dict. *)
Definition no_get (type_name : string) : exn :=
  AttributeError ("'" ^^ type_name ^^ "' object has no attribute 'get'").

(** The three handlers on any JSON body.  The first [data.get] of
    [generate_image] is inside its [try]; those of [regenerate] and
    [update_status] are outside any [try]. *)
Definition post_generate (E : Env) (b : Body) : M Response :=
  match b with
  | ObjectBody data => generate_image E data
  | OtherBody t =>
      ret (ErrorResponse 500
             ("Image generation failed: " ^^ str_of_exn (no_get t)))
  end.

Definition post_regenerate (E : Env) (b : Body) : M Response :=
  match b with
  | ObjectBody data => regenerate E data
  | OtherBody t => lift (Raise (no_get t))
  end.

Definition post_update_status (E : Env) (b : Body) : M Response :=
  match b with
  | ObjectBody data => update_status E data
  | OtherBody t => lift (Raise (no_get t))
  end.

(** The answers that a handler gives after it has called [save]. *)
Definition saved (res : Result Response) : bool :=
  match res with
  | Ok (Generated _ _ _) | Ok (Regenerated _ _ _ _) | Ok Success => true
  | _ => false
  end.

(** The environment [E] with a write of the sessions file that fails in
    the way [f]. *)
Definition with_file_failure (f : WriteFailure) (E : Env) : Env :=
  {| uuid4 := uuid4 E; pipelines := pipelines E; image_save := image_save E;
     sessions_file_write := false;
     sessions_file_failure := f |}.

(** The environment [E] with another outcome for the write of the
    sessions file. *)
Definition with_file_write (b : bool) (E : Env) : Env :=
  {| uuid4 := uuid4 E; pipelines := pipelines E; image_save := image_save E;
     sessions_file_write := b;
     sessions_file_failure := sessions_file_failure E |}.

(* ================================================================== *)
(** ** Strings, dicts and lists *)
(* ================================================================== *)

Lemma length_append (a b : string) :
  String.length (a ^^ b) = String.length a + String.length b.
Proof. induction a as [|c a IH]; simpl; [reflexivity | now rewrite IH]. Qed.

Lemma append_empty_r (a : string) : a ^^ "" = a.
Proof. induction a as [|c a IH]; simpl; [reflexivity | now rewrite IH]. Qed.

Lemma take_substring (n : nat) (s : string) : take n s = substring 0 n s.
Proof.
  revert s; induction n as [|n IH]; intros [|c s]; simpl; try reflexivity.
  now rewrite IH.
Qed.

Lemma take_all (n : nat) (s : string) :
  String.length s <= n -> take n s = s.
Proof.
  revert s; induction n as [|n IH]; intros [|c s]; simpl; intros H;
    try reflexivity; try lia.
  rewrite IH; [reflexivity | lia].
Qed.

Lemma length_take (n : nat) (s : string) :
  n <= String.length s -> String.length (take n s) = n.
Proof.
  revert s; induction n as [|n IH]; intros [|c s]; simpl; intros H;
    try reflexivity; try lia.
  rewrite IH; [reflexivity | lia].
Qed.

Lemma nonempty_true (s : string) : nonempty s = true <-> s <> "".
Proof.
  unfold nonempty. destruct (String.eqb_spec s ""); simpl; split;
    congruence.
Qed.

Lemma dict_get_set_same {V : Type} (k : string) (v : V) (d : dict V) :
  dict_get k (dict_set k v d) = Some v.
Proof.
  induction d as [|[k' v'] d IH]; simpl.
  - now rewrite String.eqb_refl.
  - destruct (String.eqb k k') eqn:Hk; simpl; rewrite Hk; auto.
Qed.

Lemma dict_get_set_other {V : Type} (k k' : string) (v : V) (d : dict V) :
  k' <> k -> dict_get k' (dict_set k v d) = dict_get k' d.
Proof.
  intros Hne. induction d as [|[k0 v0] d IH]; simpl.
  - destruct (String.eqb_spec k' k); [contradiction | reflexivity].
  - destruct (String.eqb_spec k k0) as [->|Hk]; simpl.
    + destruct (String.eqb_spec k' k0); [contradiction | reflexivity].
    + now rewrite IH.
Qed.

Lemma dict_set_new {V : Type} (k : string) (v : V) (d : dict V) :
  dict_get k d = None -> dict_set k v d = d ++ [(k, v)].
Proof.
  induction d as [|[k' v'] d IH]; simpl; [reflexivity|].
  destruct (String.eqb k k'); [discriminate|].
  intros H. now rewrite IH.
Qed.


(* ================================================================== *)
(** ** Session ids and titles *)
(* ================================================================== *)

Lemma hex_digit_is_hex (d : N) : is_hex_char (hex_digit d) = true.
Proof.
  destruct d as [|p]; [reflexivity|].
  do 4 (destruct p as [p|p|]; try reflexivity).
Qed.

Lemma all_hex_append (a b : string) :
  all_hex (a ^^ b) = all_hex a && all_hex b.
Proof.
  induction a as [|c a IH]; simpl; [reflexivity|].
  now rewrite IH, andb_assoc.
Qed.

Lemma all_hex_take (n : nat) (s : string) :
  all_hex s = true -> all_hex (take n s) = true.
Proof.
  revert s; induction n as [|n IH]; intros [|c s]; simpl; auto.
  intros H. apply andb_true_iff in H as [Hc Hs].
  now rewrite Hc, IH.
Qed.

Lemma hex_fixed_length (w : nat) (n : N) : String.length (hex_fixed w n) = w.
Proof.
  revert n; induction w as [|w IH]; intros n; simpl; [reflexivity|].
  rewrite length_append, IH. simpl. lia.
Qed.

Lemma hex_fixed_all_hex (w : nat) (n : N) : all_hex (hex_fixed w n) = true.
Proof.
  revert n; induction w as [|w IH]; intros n; simpl; [reflexivity|].
  rewrite all_hex_append, IH. simpl. now rewrite hex_digit_is_hex.
Qed.

Lemma hex8_length (u : N) : String.length (hex8 u) = 8.
Proof.
  unfold hex8, uuid_hex. apply length_take. rewrite hex_fixed_length. lia.
Qed.

Lemma hex8_all_hex (u : N) : all_hex (hex8 u) = true.
Proof. unfold hex8, uuid_hex. apply all_hex_take, hex_fixed_all_hex. Qed.

Lemma make_title_long (prompt : string) :
  30 < String.length prompt ->
  SessionManager.make_title prompt = substring 0 30 prompt ^^ "...".
Proof.
  intros H. unfold SessionManager.make_title.
  apply Nat.ltb_lt in H. now rewrite H, take_substring.
Qed.

Lemma make_title_short (prompt : string) :
  String.length prompt <= 30 -> SessionManager.make_title prompt = prompt.
Proof.
  intros H. unfold SessionManager.make_title.
  rewrite take_all by exact H.
  destruct (Nat.ltb_spec 30 (String.length prompt)); [lia|].
  apply append_empty_r.
Qed.

(* ================================================================== *)
(** ** The prompt history *)
(* ================================================================== *)

Lemma join_concat (sep : string) (items : list string) :
  join sep items = String.concat sep items.
Proof.
  induction items as [|x rest IH]; [reflexivity|].
  destruct rest as [|y rest]; [reflexivity|].
  change (x ^^ sep ^^ join sep (y :: rest)
          = x ^^ sep ^^ String.concat sep (y :: rest)).
  now rewrite IH.
Qed.

Lemma user_prompt_test (msg : Message) :
  value_eqb (Py.get "sender" msg) (VStr "user") && truthy (Py.get "text" msg)
  = user_sent msg && negb (String.eqb (text_of msg) "").
Proof.
  unfold user_sent, text_of, Py.get, truthy, value_eqb.
  destruct (dict_get "sender" msg) as [[|sender]|];
    destruct (dict_get "text" msg) as [[|t]|]; simpl;
    try reflexivity; now rewrite andb_false_r.
Qed.

Lemma user_prompt_text (msg : Message) :
  user_sent msg && negb (String.eqb (text_of msg) "") = true ->
  get_default "text" (VStr "") msg = VStr (text_of msg).
Proof.
  unfold text_of, get_default. intros H. apply andb_true_iff in H as [_ H].
  unfold text_of in H.
  destruct (dict_get "text" msg) as [[|t]|]; simpl in *;
    try reflexivity; discriminate.
Qed.

Lemma user_prompts_filter (msgs : list Message) :
  SessionManager.user_prompts msgs
  = map text_of
      (filter (fun m => user_sent m && negb (String.eqb (text_of m) "")) msgs).
Proof.
  induction msgs as [|msg rest IH]; [reflexivity|].
  cbn [SessionManager.user_prompts filter].
  rewrite user_prompt_test.
  destruct (user_sent msg && negb (String.eqb (text_of msg) "")) eqn:Hc.
  - rewrite (user_prompt_text _ Hc). cbn [map]. now rewrite IH.
  - exact IH.
Qed.

(** C4.  [get_all_prompts] is the history of the spec: the texts of the
    user-sent messages with a non-empty text, in the order of the session,
    joined with [". "]; it is empty for an unknown session id and for a
    session without messages. *)
Theorem get_all_prompts_history (sid : string) (s : Sessions) :
  (dict_get sid s = None -> SessionManager.get_all_prompts sid s = "")
  /\ (forall session,
        dict_get sid s = Some session ->
        SessionManager.get_all_prompts sid s
        = concatenated_prompt_history_spec (messages session)
        /\ (messages session = [] ->
            SessionManager.get_all_prompts sid s = "")).
Proof.
  unfold SessionManager.get_all_prompts. split.
  - now intros ->.
  - intros session ->. split.
    + unfold concatenated_prompt_history_spec.
      now rewrite join_concat, user_prompts_filter.
    + now intros ->.
Qed.

(** The spec's example: user messages ["a"], [""], ["b"] with a bot message
    in between give ["a. b"]. *)
Lemma get_all_prompts_history_witness :
  SessionManager.get_all_prompts "5f0c2a9e"
    [("5f0c2a9e",
      {| title := "a";
         messages := [user_message "11111111" "a";
                      bot_message "22222222" "/static/generated/x.png" "a";
                      user_message "33333333" "";
                      user_message "44444444" "b"] |})]
  = "a. b"
  /\ SessionManager.get_all_prompts "00000000" [] = "".
Proof.
  split.
  - destruct (get_all_prompts_history "5f0c2a9e"
      [("5f0c2a9e",
        {| title := "a";
           messages := [user_message "11111111" "a";
                        bot_message "22222222" "/static/generated/x.png" "a";
                        user_message "33333333" "";
                        user_message "44444444" "b"] |})]) as [_ H].
    destruct (H _ eq_refl) as [-> _]. reflexivity.
  - apply (get_all_prompts_history "00000000" []). reflexivity.
Defined.

(* ================================================================== *)
(** ** Scanning the store for a message id *)
(* ================================================================== *)

Lemma nth_error_middle {A : Type} (l : list A) (i : nat) (x : A) :
  nth_error l i = Some x ->
  l = firstn i l ++ x :: skipn (S i) l /\ length (firstn i l) = i.
Proof.
  intros H. split.
  - symmetry. now apply firstn_skipn_middle.
  - apply firstn_length_le, Nat.lt_le_incl, nth_error_Some. congruence.
Qed.

Lemma mentions_first (message_id : string) (msgs : list Message) :
  mentions message_id msgs = true ->
  exists i msg,
    nth_error msgs i = Some msg
    /\ SessionManager.has_id message_id msg = true
    /\ mentions message_id (firstn i msgs) = false.
Proof.
  induction msgs as [|m rest IH]; simpl; [discriminate|].
  destruct (SessionManager.has_id message_id m) eqn:Hm; simpl.
  - intros _. exists 0, m. auto.
  - intros H. destruct (IH H) as (i & msg & Hn & Hid & Hf).
    exists (S i), msg. simpl. rewrite Hm. auto.
Qed.

Lemma first_occurrence_exists (message_id : string) (s : Sessions) :
  sessions_mention message_id s = true ->
  exists before sid session after i msg,
    first_occurrence message_id s before sid session after i msg.
Proof.
  induction s as [|[sid session] rest IH]; simpl; [discriminate|].
  destruct (mentions message_id (messages session)) eqn:Hm; simpl.
  - intros _. destruct (mentions_first _ _ Hm) as (i & msg & Hn & Hid & Hf).
    exists [], sid, session, rest, i, msg. repeat split; auto.
  - intros H.
    destruct (IH H) as (b & sid' & session' & a & i & msg & -> & Hb & Hrest).
    exists ((sid, session) :: b), sid', session', a, i, msg.
    repeat split; try tauto. simpl. now rewrite Hm.
Qed.

Lemma prompt_at_returns (sid : string) (all : list Message) (i : nat)
    (msg : Message) :
  SessionManager.prompt_at sid all i msg <> Ok None.
Proof.
  unfold SessionManager.prompt_at.
  destruct i as [|j]; [discriminate|].
  destruct (nth_error all j) as [prev|]; [|discriminate].
  destruct (index "sender" prev) as [sender|]; [|discriminate].
  destruct (value_eqb sender (VStr "user")); [|discriminate].
  destruct (index "text" prev); discriminate.
Qed.

Lemma find_in_messages_none (sid : string) (all : list Message)
    (message_id : string) (i : nat) (rest : list Message) :
  mentions message_id rest = false ->
  SessionManager.find_in_messages sid all message_id i rest = Ok None.
Proof.
  revert i; induction rest as [|m rest IH]; intros i; simpl; [reflexivity|].
  destruct (SessionManager.has_id message_id m); simpl; [discriminate|].
  apply IH.
Qed.

Lemma find_in_messages_first (sid : string) (all : list Message)
    (message_id : string) (i : nat) (ms1 ms2 : list Message) (msg : Message) :
  mentions message_id ms1 = false ->
  SessionManager.has_id message_id msg = true ->
  SessionManager.find_in_messages sid all message_id i (ms1 ++ msg :: ms2)
  = SessionManager.prompt_at sid all (i + length ms1) msg.
Proof.
  revert i; induction ms1 as [|m ms1 IH]; intros i; simpl; intros H1 Hm.
  - now rewrite Hm, Nat.add_0_r.
  - destruct (SessionManager.has_id message_id m); simpl in H1;
      [discriminate|].
    rewrite IH by assumption. f_equal. lia.
Qed.

Lemma find_message_prompt_none (message_id : string) (s : Sessions) :
  sessions_mention message_id s = false ->
  SessionManager.find_message_prompt message_id s = Ok None.
Proof.
  induction s as [|[sid session] rest IH]; simpl; [reflexivity|].
  intros H. apply orb_false_iff in H as [Hm Hrest].
  rewrite find_in_messages_none by exact Hm. now apply IH.
Qed.

Lemma find_message_prompt_first (message_id : string) (s before : Sessions)
    (sid : string) (session : Session) (after : Sessions) (i : nat)
    (msg : Message) :
  first_occurrence message_id s before sid session after i msg ->
  SessionManager.find_message_prompt message_id s
  = SessionManager.prompt_at sid (messages session) i msg.
Proof.
  intros (-> & Hb & Hn & Hid & Hf).
  induction before as [|[sid' session'] before IH]; simpl.
  - destruct (nth_error_middle _ _ _ Hn) as [Hsplit Hlen].
    rewrite Hsplit at 2.
    rewrite find_in_messages_first by assumption.
    rewrite Hlen. simpl.
    destruct (SessionManager.prompt_at sid (messages session) i msg)
      as [[r|]|e] eqn:Hp; try reflexivity.
    now apply prompt_at_returns in Hp.
  - simpl in Hb. apply orb_false_iff in Hb as [Hm Hb].
    rewrite find_in_messages_none by exact Hm. now apply IH.
Qed.

(** C3.  For an id that no message carries, [find_message_prompt] returns
    [None].  For an id that some message carries there is a first message
    [msg] carrying it, at an index [i] of a session [sid], and the result
    is [sid] with: the text of the message at index [i - 1] when [i > 0]
    and that message is user-sent; the own text of [msg] (or [""] when it
    has none) when [i = 0] or that message has another sender.  A
    preceding message is read through its ["sender"] key, and through its
    ["text"] key when user-sent. *)
Theorem find_message_prompt_result (message_id : string) (s : Sessions) :
  (sessions_mention message_id s = false ->
   SessionManager.find_message_prompt message_id s = Ok None)
  /\ (sessions_mention message_id s = true ->
      exists before sid session after i msg,
        first_occurrence message_id s before sid session after i msg)
  /\ (forall before sid session after i msg,
        first_occurrence message_id s before sid session after i msg ->
        (i = 0 ->
         SessionManager.find_message_prompt message_id s
         = Ok (Some (sid, get_default "text" (VStr "") msg)))
        /\ (forall j prev,
              i = S j ->
              nth_error (messages session) j = Some prev ->
              (forall text,
                 dict_get "sender" prev = Some (VStr "user") ->
                 dict_get "text" prev = Some text ->
                 SessionManager.find_message_prompt message_id s
                 = Ok (Some (sid, text)))
              /\ (forall sender,
                    dict_get "sender" prev = Some sender ->
                    sender <> VStr "user" ->
                    SessionManager.find_message_prompt message_id s
                    = Ok (Some (sid, get_default "text" (VStr "") msg))))).
Proof.
  split; [apply find_message_prompt_none|].
  split; [apply first_occurrence_exists|].
  intros before sid session after i msg Hfo.
  rewrite (find_message_prompt_first _ _ _ _ _ _ _ _ Hfo).
  split.
  - now intros ->.
  - intros j prev -> Hprev. unfold SessionManager.prompt_at, index.
    rewrite Hprev. split.
    + intros text -> ->. reflexivity.
    + intros sender -> Hne.
      destruct sender as [|x]; simpl; [reflexivity|].
      destruct (String.eqb_spec x "user") as [->|]; [|reflexivity].
      now contradiction Hne.
Qed.

(** A bot message right after a user message resolves to the user's raw
    text; the first message of a session resolves to its own text, and so
    does a message that follows a bot message; an unknown id resolves to
    nothing. *)
Lemma find_message_prompt_result_witness :
  SessionManager.find_message_prompt "00000004" Example.cat_sessions
  = Ok (Some ("00000001", VStr "a cat"))
  /\ SessionManager.find_message_prompt "00000003" Example.cat_sessions
     = Ok (Some ("00000001", VStr "a cat"))
  /\ SessionManager.find_message_prompt "00000005" Example.cat_sessions
     = Ok (Some ("00000001", VStr boom_text))
  /\ SessionManager.find_message_prompt "99999999" Example.cat_sessions
     = Ok None.
Proof.
  split; [|split; [|split]].
  - destruct (find_message_prompt_result "00000004" Example.cat_sessions)
      as (_ & _ & H).
    destruct (H [] "00000001" Example.cat_session [] 1 Example.cat_bot)
      as [_ H1]; [repeat split|].
    destruct (H1 0 Example.cat_user eq_refl eq_refl) as [H2 _].
    exact (H2 (VStr "a cat") eq_refl eq_refl).
  - destruct (find_message_prompt_result "00000003" Example.cat_sessions)
      as (_ & _ & H).
    destruct (H [] "00000001" Example.cat_session [] 0 Example.cat_user)
      as [H1 _]; [repeat split|].
    exact (H1 eq_refl).
  - destruct (find_message_prompt_result "00000005" Example.cat_sessions)
      as (_ & _ & H).
    destruct (H [] "00000001" Example.cat_session [] 2 Example.cat_boom)
      as [_ H1]; [repeat split|].
    destruct (H1 1 Example.cat_bot eq_refl eq_refl) as [_ H2].
    apply (H2 (VStr "bot") eq_refl). discriminate.
  - apply (find_message_prompt_result "99999999" Example.cat_sessions).
    reflexivity.
Defined.

(* ================================================================== *)
(** ** Status updates *)
(* ================================================================== *)

Lemma update_in_messages_none (message_id status : string)
    (msgs : list Message) :
  mentions message_id msgs = false ->
  SessionManager.update_in_messages message_id status msgs = None.
Proof.
  induction msgs as [|m rest IH]; simpl; [reflexivity|].
  destruct (SessionManager.has_id message_id m); simpl; [discriminate|].
  intros H. now rewrite IH.
Qed.

Lemma update_in_messages_first (message_id status : string)
    (ms1 ms2 : list Message) (msg : Message) :
  mentions message_id ms1 = false ->
  SessionManager.has_id message_id msg = true ->
  SessionManager.update_in_messages message_id status (ms1 ++ msg :: ms2)
  = Some (ms1 ++ dict_set "status" (VStr status) msg :: ms2).
Proof.
  induction ms1 as [|m ms1 IH]; simpl; intros H1 Hm.
  - now rewrite Hm.
  - destruct (SessionManager.has_id message_id m); simpl in H1;
      [discriminate|].
    now rewrite IH.
Qed.

Lemma update_in_sessions_none (message_id status : string) (s : Sessions) :
  sessions_mention message_id s = false ->
  SessionManager.update_in_sessions message_id status s = None.
Proof.
  induction s as [|[sid session] rest IH]; simpl; [reflexivity|].
  intros H. apply orb_false_iff in H as [Hm Hrest].
  rewrite update_in_messages_none by exact Hm. now rewrite IH.
Qed.

Lemma update_in_sessions_first (message_id status : string)
    (s before : Sessions) (sid : string) (session : Session)
    (after : Sessions) (i : nat) (msg : Message) :
  first_occurrence message_id s before sid session after i msg ->
  SessionManager.update_in_sessions message_id status s
  = Some (before
          ++ (sid,
              {| title := title session;
                 messages := firstn i (messages session)
                             ++ dict_set "status" (VStr status) msg
                             :: skipn (S i) (messages session) |})
          :: after).
Proof.
  intros (-> & Hb & Hn & Hid & Hf).
  induction before as [|[sid' session'] before IH]; simpl.
  - destruct (nth_error_middle _ _ _ Hn) as [Hsplit _].
    rewrite Hsplit at 1.
    now rewrite update_in_messages_first by assumption.
  - simpl in Hb. apply orb_false_iff in Hb as [Hm Hb].
    rewrite update_in_messages_none by exact Hm. now rewrite IH.
Qed.

Lemma set_sessions_same (w : World) : set_sessions (sessions w) w = w.
Proof. now destruct w. Qed.

(** C8.  [update_message_status] scans the sessions in order.  When no
    message carries the id it returns [False] and the store is the same;
    [update_status] then answers 404 and leaves the whole world, the
    sessions file included, as it was.  When some message carries the id,
    the first such message gets its ["status"] set, every other message
    and session stays the same, and [True] is returned. *)
Theorem update_message_status_effect (message_id status : string)
    (w : World) :
  (sessions_mention message_id (sessions w) = false ->
   SessionManager.update_message_status message_id status (sessions w)
   = (false, sessions w)
   /\ forall E data,
        as_truthy (Py.get "message_id" data) = Some message_id ->
        as_truthy (Py.get "status" data) = Some status ->
        update_status E data w
        = (Ok (ErrorResponse 404 "Message not found"), w))
  /\ (sessions_mention message_id (sessions w) = true ->
      exists before sid session after i msg,
        first_occurrence message_id (sessions w) before sid session after
          i msg)
  /\ (forall before sid session after i msg,
        first_occurrence message_id (sessions w) before sid session after
          i msg ->
        SessionManager.update_message_status message_id status (sessions w)
        = (true,
           before
           ++ (sid,
               {| title := title session;
                  messages := firstn i (messages session)
                              ++ dict_set "status" (VStr status) msg
                              :: skipn (S i) (messages session) |})
           :: after)).
Proof.
  split; [|split].
  - intros H.
    assert (Hu : SessionManager.update_message_status message_id status
                   (sessions w) = (false, sessions w)).
    { unfold SessionManager.update_message_status.
      now rewrite update_in_sessions_none. }
    split; [exact Hu|].
    intros E data H1 H2. unfold update_status. rewrite H1, H2.
    unfold bind, update. rewrite Hu.
    unfold ret. now rewrite set_sessions_same.
  - apply first_occurrence_exists.
  - intros before sid session after i msg Hfo.
    unfold SessionManager.update_message_status.
    now rewrite (update_in_sessions_first _ status _ _ _ _ _ _ _ Hfo).
Qed.

(** On a store that holds the example session: an unknown id changes
    nothing and is answered 404; a known id gets its status set. *)
Lemma update_message_status_effect_witness :
  update_status Example.env
    [("message_id", VStr "99999999"); ("status", VStr "like")]
    Example.cat_world
  = (Ok (ErrorResponse 404 "Message not found"), Example.cat_world)
  /\ SessionManager.update_message_status "00000004" "like"
       (sessions Example.cat_world)
     = (true,
        [("00000001",
          {| title := "a cat";
             messages :=
               [Example.cat_user;
                [("id", VStr "00000004"); ("sender", VStr "bot");
                 ("image_url", VStr "/static/generated/00000002.png");
                 ("text", VStr ("Image is generated from prompt:"
                                ^^ newline ^^ "a cat"));
                 ("status", VStr "like")];
                Example.cat_boom] |})]).
Proof.
  split.
  - destruct (update_message_status_effect "99999999" "like"
                Example.cat_world) as (H & _).
    apply (H eq_refl); reflexivity.
  - destruct (update_message_status_effect "00000004" "like"
                Example.cat_world) as (_ & _ & H).
    rewrite (H [] "00000001" Example.cat_session [] 1 Example.cat_bot).
    + vm_compute. reflexivity.
    + repeat split.
Defined.

(* ================================================================== *)
(** ** Running the handlers *)
(* ================================================================== *)

Arguments hex8 u : simpl never.
Arguments SessionManager.add_message session_id message sessions : simpl never.
Arguments SessionManager.create u prompt sessions : simpl never.
Arguments SessionManager.get_all_prompts session_id sessions : simpl never.
Arguments String.append s1 s2 : simpl never.

Lemma as_truthy_some (v : value) (s : string) :
  as_truthy v = Some s <-> v = VStr s /\ s <> "".
Proof.
  destruct v as [|x]; simpl.
  - split; [discriminate | intros [[=] _]].
  - destruct (String.eqb_spec x ""); split.
    + discriminate.
    + intros [[= ->] H]. contradiction.
    + intros [= ->]. auto.
    + intros [[= ->] _]. reflexivity.
Qed.

Lemma existing_session_some (session_id : value) (s : Sessions)
    (sid : string) :
  existing_session session_id s = Some sid <->
  session_id = VStr sid /\ sid <> ""
  /\ exists session, dict_get sid s = Some session.
Proof.
  unfold existing_session. split.
  - destruct (as_truthy session_id) as [x|] eqn:Ht; [|discriminate].
    apply as_truthy_some in Ht as [-> Hne]. simpl.
    destruct (dict_get x s) as [session|] eqn:Hg; [|discriminate].
    intros [= <-]. eauto.
  - intros (-> & Hne & session & Hg).
    rewrite (proj2 (as_truthy_some (VStr sid) sid) (conj eq_refl Hne)).
    simpl. now rewrite Hg.
Qed.

(** [image_generator.generate] leaves the store and its file alone and is
    recorded as one more invocation, whether it returns or raises. *)
Lemma generate_frame (E : Env) (prompt : string) (w w' : World)
    (r : Result string) :
  ImageGenerator.generate E prompt w = (r, w') ->
  sessions w' = sessions w
  /\ sessions_file w' = sessions_file w
  /\ invocations w' = invocations w ++ [prompt].
Proof.
  unfold ImageGenerator.generate, bind, external, fresh_hex8, uuid4_call,
    lift, ret.
  simpl. destruct (pipelines E prompt); simpl.
  - intros [= <- <-]. auto.
  - destruct (image_save E _); simpl; intros [= <- <-]; auto.
Qed.

Lemma add_message_known (sid : string) (msg : Message) (s : Sessions)
    (session : Session) :
  dict_get sid s = Some session ->
  dict_get sid (SessionManager.add_message sid msg s)
  = Some {| title := title session;
            messages := messages session ++ [msg] |}.
Proof.
  intros H. unfold SessionManager.add_message. rewrite H.
  apply dict_get_set_same.
Qed.

Lemma add_message_other (sid sid' : string) (msg : Message) (s : Sessions) :
  sid' <> sid ->
  dict_get sid' (SessionManager.add_message sid msg s) = dict_get sid' s.
Proof.
  intros H. unfold SessionManager.add_message.
  destruct (dict_get sid s); [|reflexivity].
  now apply dict_get_set_other.
Qed.

Lemma add_messages_known (sid : string) (msgs : list Message) (s : Sessions)
    (session : Session) :
  dict_get sid s = Some session ->
  dict_get sid (add_messages sid msgs s)
  = Some {| title := title session;
            messages := messages session ++ msgs |}.
Proof.
  unfold add_messages. revert s session.
  induction msgs as [|m msgs IH]; intros s session H; simpl.
  - rewrite app_nil_r. now destruct session.
  - rewrite (IH _ _ (add_message_known _ m _ _ H)). simpl.
    now rewrite <- app_assoc.
Qed.

Lemma add_messages_other (sid sid' : string) (msgs : list Message)
    (s : Sessions) :
  sid' <> sid -> dict_get sid' (add_messages sid msgs s) = dict_get sid' s.
Proof.
  intros H. unfold add_messages. revert s.
  induction msgs as [|m msgs IH]; intros s; simpl; [reflexivity|].
  rewrite IH. now apply add_message_other.
Qed.

(** [generate_image] on a request whose prompt strips to a non-empty
    [prompt_new]. *)
Lemma generate_image_run (E : Env) (data : dict value) (w : World)
    (prompt_new : string) :
  value_strip (get_default "prompt" (VStr "") data) = Ok prompt_new ->
  prompt_new <> "" ->
  generate_image E data w
  = let '(sid, prompt, w1) :=
      generation_target E (Py.get "session_id" data) prompt_new w in
    match ImageGenerator.generate E prompt w1 with
    | (Ok image_path, w2) =>
        (Ok match save_raises E with
            | None =>
                Generated sid ("/static/" ^^ image_path)
                  (hex8 (uuid4 E (S (uuid_calls w2))))
            | Some e =>
                ErrorResponse 500
                  ("Image generation failed: " ^^ str_of_exn e)
            end,
         record_exchange E sid prompt_new ("/static/" ^^ image_path)
           ("Image is generated from prompt:" ^^ newline ^^ prompt) w2)
    | (Raise e, w2) =>
        (Ok (ErrorResponse 500
               ("Image generation failed: " ^^ str_of_exn e)), w2)
    end.
Proof.
  intros Hstrip Hne. apply nonempty_true in Hne.
  unfold generate_image, generation_target, try_except, bind, lift.
  rewrite Hstrip, Hne. cbn [negb]. unfold query.
  destruct (existing_session (Py.get "session_id" data) (sessions w))
    as [sid|].
  - unfold ret, cumulative_prompt.
    destruct (ImageGenerator.generate E _ w) as [[image_path|e] w2];
      [|reflexivity].
    unfold fresh_hex8, uuid4_call, add_message, update, save, bind, ret,
      record_exchange, add_messages, exchange, save_raises, file_after_save.
    simpl. destruct (sessions_file_write E); [reflexivity|].
    destruct (sessions_file_failure E); reflexivity.
  - unfold uuid4_call, update, ret. simpl.
    destruct (ImageGenerator.generate E prompt_new _) as [[image_path|e] w2];
      [|reflexivity].
    unfold fresh_hex8, uuid4_call, add_message, update, save, bind, ret,
      record_exchange, add_messages, exchange, save_raises, file_after_save.
    simpl. destruct (sessions_file_write E); [reflexivity|].
    destruct (sessions_file_failure E); reflexivity.
Qed.

(** [regenerate] on a request whose message id resolves to a non-empty
    prompt. *)
Lemma regenerate_run (E : Env) (data : dict value) (w : World)
    (message_id sid prompt : string) (prompt_value : value) :
  as_truthy (Py.get "message_id" data) = Some message_id ->
  SessionManager.find_message_prompt message_id (sessions w)
  = Ok (Some (sid, prompt_value)) ->
  as_truthy prompt_value = Some prompt ->
  regenerate E data w
  = match ImageGenerator.generate E prompt w with
    | (Ok image_path, w2) =>
        (match save_raises E with
         | None =>
             Ok (Regenerated sid prompt ("/static/" ^^ image_path)
                   (hex8 (uuid4 E (S (uuid_calls w2)))))
         | Some e => Raise e
         end,
         record_exchange E sid prompt ("/static/" ^^ image_path) prompt w2)
    | (Raise e, w2) =>
        (Ok (ErrorResponse 500
               ("Image generation failed: " ^^ str_of_exn e)), w2)
    end.
Proof.
  intros Hid Hfind Hprompt. unfold regenerate. rewrite Hid.
  unfold bind at 1. rewrite Hfind, Hprompt.
  unfold try_except, bind, ret.
  destruct (ImageGenerator.generate E prompt w) as [[image_path|e] w2];
    [|reflexivity].
  unfold fresh_hex8, uuid4_call, add_message, update, save, bind, ret,
    record_exchange, add_messages, exchange, save_raises, file_after_save.
  simpl. destruct (sessions_file_write E); [reflexivity|].
  destruct (sessions_file_failure E); reflexivity.
Qed.

(* ================================================================== *)
(** ** The new-generation workflow *)
(* ================================================================== *)

(** C1, as the code has it.  When the capability raises during a
    new-generation request, the handler answers 500 with the
    generation-failure message, appends no message and does not write the
    sessions file.  For a request that names an existing session the
    store is exactly as before the call, so the session has as many
    messages as before.  For any other request the store is the one that
    [create] left: the new session is there, with no messages, and every
    other session id reads as before. *)
Theorem generation_failure_effect (E : Env) (data : dict value) (w : World)
    (prompt_new : string) :
  value_strip (get_default "prompt" (VStr "") data) = Ok prompt_new ->
  prompt_new <> "" ->
  (forall sid e w',
     existing_session (Py.get "session_id" data) (sessions w) = Some sid ->
     ImageGenerator.generate E
       (cumulative_prompt
          (SessionManager.get_all_prompts sid (sessions w)) prompt_new) w
     = (Raise e, w') ->
     generate_image E data w
     = (Ok (ErrorResponse 500
              ("Image generation failed: " ^^ str_of_exn e)), w')
     /\ sessions w' = sessions w
     /\ sessions_file w' = sessions_file w
     /\ length (messages_of sid (sessions w'))
        = length (messages_of sid (sessions w)))
  /\ (forall e w',
        existing_session (Py.get "session_id" data) (sessions w) = None ->
        let u := uuid4 E (uuid_calls w) in
        ImageGenerator.generate E prompt_new
          (set_sessions (snd (SessionManager.create u prompt_new (sessions w)))
             (set_uuid_calls (S (uuid_calls w)) w))
        = (Raise e, w') ->
        generate_image E data w
        = (Ok (ErrorResponse 500
                 ("Image generation failed: " ^^ str_of_exn e)), w')
        /\ sessions w'
           = dict_set (hex8 u)
               {| title := SessionManager.make_title prompt_new;
                  messages := [] |} (sessions w)
        /\ sessions_file w' = sessions_file w
        /\ messages_of (hex8 u) (sessions w') = []
        /\ (forall sid, sid <> hex8 u ->
              dict_get sid (sessions w') = dict_get sid (sessions w))).
Proof.
  intros Hstrip Hne.
  pose proof (generate_image_run E data w prompt_new Hstrip Hne) as Hrun.
  unfold generation_target in Hrun. split.
  - intros sid e w' Hex Hgen. rewrite Hex, Hgen in Hrun.
    destruct (generate_frame _ _ _ _ _ Hgen) as (Hs & Hf & _).
    rewrite Hs. auto.
  - intros e w' Hex u Hgen. rewrite Hex in Hrun. cbv zeta in Hrun.
    fold u in Hrun. rewrite Hgen in Hrun.
    destruct (generate_frame _ _ _ _ _ Hgen) as (Hs & Hf & _).
    simpl in Hs, Hf. rewrite Hs.
    split; [exact Hrun|]. split; [reflexivity|]. split; [exact Hf|].
    unfold SessionManager.create; cbn [snd]. split.
    + unfold messages_of. now rewrite dict_get_set_same.
    + intros sid Hsid. now apply dict_get_set_other.
Qed.

(** With failing pipelines: a request in the example session leaves the
    store as it was; a request without a session id leaves a new, empty
    session behind. *)
Lemma generation_failure_effect_witness :
  generate_image Example.failing_env
    [("prompt", VStr "on a mat"); ("session_id", VStr "00000001")]
    Example.cat_world
  = (Ok (ErrorResponse 500 "Image generation failed: CUDA out of memory"),
     set_invocations ["a cat"; "a cat. on a mat"] Example.cat_world)
  /\ generate_image Example.failing_env [("prompt", VStr "a cat")]
       Example.empty_world
     = (Ok (ErrorResponse 500 "Image generation failed: CUDA out of memory"),
        {| sessions := [("00000001", {| title := "a cat"; messages := [] |})];
           sessions_file := Some [];
           uuid_calls := 1;
           invocations := ["a cat"] |}).
Proof.
  split.
  - refine (proj1 (proj1 (generation_failure_effect Example.failing_env
              [("prompt", VStr "on a mat"); ("session_id", VStr "00000001")]
              Example.cat_world "on a mat" eq_refl _)
              "00000001" (CapabilityError "CUDA out of memory") _
              eq_refl eq_refl)).
    discriminate.
  - refine (proj1 (proj2 (generation_failure_effect Example.failing_env
              [("prompt", VStr "a cat")] Example.empty_world "a cat"
              eq_refl _)
              (CapabilityError "CUDA out of memory") _ eq_refl eq_refl)).
    discriminate.
Defined.

(** C1 as stated does not hold: with failing pipelines and no session id
    in the request, the handler answers 500 and the store, empty before
    the call, holds one session after it. *)
Lemma generation_failure_creates_session :
  ImageGenerator.generate Example.failing_env "a cat"
    (set_sessions
       (snd (SessionManager.create (uuid4 Example.failing_env 0) "a cat" []))
       (set_uuid_calls 1 Example.empty_world))
  = (Raise (CapabilityError "CUDA out of memory"),
     snd (generate_image Example.failing_env [("prompt", VStr "a cat")]
            Example.empty_world))
  /\ fst (generate_image Example.failing_env [("prompt", VStr "a cat")]
            Example.empty_world)
     = Ok (ErrorResponse 500 "Image generation failed: CUDA out of memory")
  /\ sessions Example.empty_world = []
  /\ sessions (snd (generate_image Example.failing_env
                      [("prompt", VStr "a cat")] Example.empty_world))
     = [("00000001", {| title := "a cat"; messages := [] |})]
  /\ sessions (snd (generate_image Example.failing_env
                      [("prompt", VStr "a cat")] Example.empty_world))
     <> sessions Example.empty_world.
Proof.
  vm_compute. repeat split; discriminate.
Qed.

Lemma existing_session_none (session_id : value) (s : Sessions) :
  existing_session session_id s = None <->
  session_id = VNone \/ session_id = VStr ""
  \/ exists sid, session_id = VStr sid /\ dict_get sid s = None.
Proof.
  unfold existing_session. destruct session_id as [|x]; simpl.
  - tauto.
  - destruct (String.eqb_spec x "") as [->|Hx].
    + tauto.
    + destruct (dict_get x s) as [session|] eqn:Hg; split.
      * discriminate.
      * intros [H|[H|(sid & [= ->] & H)]]; congruence.
      * eauto.
      * reflexivity.
Qed.

Lemma record_exchange_invocations (E : Env) (sid a b c : string) (w : World) :
  invocations (record_exchange E sid a b c w) = invocations w.
Proof. reflexivity. Qed.

Lemma record_exchange_known (E : Env) (sid a b c : string) (w : World)
    (session : Session) :
  dict_get sid (sessions w) = Some session ->
  dict_get sid (sessions (record_exchange E sid a b c w))
  = Some {| title := title session;
            messages := messages session ++ exchange E a b c w |}.
Proof. intros H. now apply add_messages_known. Qed.

(** C2.  A generate request whose prompt strips to a non-empty
    [prompt_new] calls the capability exactly once.  When the request
    carries a non-empty session id that is a key of the store, the prompt
    of that call is [history + ". " + prompt_new] for a non-empty
    [history = get_all_prompts(session_id)], and [prompt_new] for an empty
    one.  Otherwise (no id, an empty id, or an id that is not a key) the
    prompt of the call is [prompt_new] and the store holds, under the id
    just drawn, a session titled from [prompt_new]. *)
Theorem effective_prompt (E : Env) (data : dict value) (w : World)
    (prompt_new : string) :
  value_strip (get_default "prompt" (VStr "") data) = Ok prompt_new ->
  prompt_new <> "" ->
  exists response w',
    generate_image E data w = (Ok response, w')
    /\ (forall sid session,
          Py.get "session_id" data = VStr sid ->
          sid <> "" ->
          dict_get sid (sessions w) = Some session ->
          let history := SessionManager.get_all_prompts sid (sessions w) in
          (history <> "" ->
           invocations w' = invocations w ++ [history ^^ ". " ^^ prompt_new])
          /\ (history = "" ->
              invocations w' = invocations w ++ [prompt_new]))
    /\ (Py.get "session_id" data = VNone
        \/ Py.get "session_id" data = VStr ""
        \/ (exists sid,
              Py.get "session_id" data = VStr sid
              /\ dict_get sid (sessions w) = None) ->
        invocations w' = invocations w ++ [prompt_new]
        /\ exists msgs,
             dict_get (hex8 (uuid4 E (uuid_calls w))) (sessions w')
             = Some {| title := SessionManager.make_title prompt_new;
                       messages := msgs |}).
Proof.
  intros Hstrip Hne.
  rewrite (generate_image_run E data w prompt_new Hstrip Hne).
  unfold generation_target.
  destruct (existing_session (Py.get "session_id" data) (sessions w))
    as [sid0|] eqn:Hex.
  - apply existing_session_some in Hex as (Hid & Hsid0 & session0 & Hget).
    destruct (ImageGenerator.generate E _ w) as [[image_path|e] w2] eqn:Hgen;
      destruct (generate_frame _ _ _ _ _ Hgen) as (Hs & Hf & Hi);
      eexists; eexists; (split; [reflexivity|]);
      rewrite ?record_exchange_invocations, Hi.
    all: split;
      [ intros sid session Hsid _ _; cbv zeta;
        rewrite Hid in Hsid; injection Hsid as <-;
        unfold cumulative_prompt;
        split; intros Hh;
        [ apply nonempty_true in Hh; now rewrite Hh
        | rewrite Hh; reflexivity ]
      | intros [H|[H|(sid & H & Hnone)]]; rewrite Hid in H;
        try discriminate; injection H as ->; congruence ].
  - set (u := uuid4 E (uuid_calls w)).
    destruct (ImageGenerator.generate E prompt_new _)
      as [[image_path|e] w2] eqn:Hgen;
      destruct (generate_frame _ _ _ _ _ Hgen) as (Hs & Hf & Hi);
      simpl in Hs, Hi;
      eexists; eexists; (split; [reflexivity|]);
      rewrite ?record_exchange_invocations, Hi.
    all: split;
      [ intros sid session Hsid Hnonempty Hget; exfalso;
        assert (Hsome : existing_session (Py.get "session_id" data)
                          (sessions w) = Some sid)
          by (apply existing_session_some; eauto);
        congruence
      | intros _; split; [reflexivity|] ].
    + eexists.
      rewrite (record_exchange_known _ _ _ _ _ _
                 {| title := SessionManager.make_title prompt_new;
                    messages := [] |});
        [reflexivity|].
      rewrite Hs. apply dict_get_set_same.
    + eexists. rewrite Hs. apply dict_get_set_same.
Qed.

(** In the example session the capability is called with the cumulative
    prompt; without a session id it is called with the new prompt. *)
Lemma effective_prompt_witness :
  invocations
    (snd (generate_image Example.env
            [("prompt", VStr "  on a mat ");
             ("session_id", VStr "00000001")] Example.cat_world))
  = ["a cat"; "a cat. on a mat"]
  /\ invocations
       (snd (generate_image Example.env [("prompt", VStr "a cat")]
               Example.empty_world))
     = ["a cat"].
Proof.
  split.
  - destruct (effective_prompt Example.env
                [("prompt", VStr "  on a mat ");
                 ("session_id", VStr "00000001")] Example.cat_world
                "on a mat" eq_refl) as (r & w' & Hrun & Hex & _);
      [discriminate|].
    rewrite Hrun. cbn [snd].
    destruct (Hex "00000001" Example.cat_session eq_refl) as [H _];
      [discriminate | reflexivity |].
    rewrite H; [reflexivity | discriminate].
  - destruct (effective_prompt Example.env [("prompt", VStr "a cat")]
                Example.empty_world "a cat" eq_refl)
      as (r & w' & Hrun & _ & Hnew); [discriminate|].
    rewrite Hrun. cbn [snd].
    destruct Hnew as [H _]; [left; reflexivity|].
    rewrite H. reflexivity.
Defined.

(** A run of [generate_image] that answers with an image went through
    every step of the handler. *)
Lemma generate_image_generated (E : Env) (data : dict value) (w w' : World)
    (sid image_url message_id : string) :
  generate_image E data w = (Ok (Generated sid image_url message_id), w') ->
  exists prompt_new prompt w1 image_path w2,
    value_strip (get_default "prompt" (VStr "") data) = Ok prompt_new
    /\ prompt_new <> ""
    /\ generation_target E (Py.get "session_id" data) prompt_new w
       = (sid, prompt, w1)
    /\ ImageGenerator.generate E prompt w1 = (Ok image_path, w2)
    /\ image_url = "/static/" ^^ image_path
    /\ message_id = hex8 (uuid4 E (S (uuid_calls w2)))
    /\ w' = record_exchange E sid prompt_new image_url
              ("Image is generated from prompt:" ^^ newline ^^ prompt) w2.
Proof.
  destruct (value_strip (get_default "prompt" (VStr "") data))
    as [p|e] eqn:Hstrip;
    [|unfold generate_image, try_except, bind, lift; rewrite Hstrip;
      discriminate].
  destruct (String.eqb_spec p "") as [->|Hp];
    [unfold generate_image, try_except, bind, lift; rewrite Hstrip;
     discriminate|].
  rewrite (generate_image_run E data w p Hstrip Hp).
  destruct (generation_target E (Py.get "session_id" data) p w)
    as [[sid0 prompt] w1] eqn:Htarget.
  destruct (ImageGenerator.generate E prompt w1)
    as [[image_path|e] w2] eqn:Hgen; [|discriminate].
  destruct (save_raises E); [discriminate|].
  intros [= <- <- <- <-].
  exists p, prompt, w1, image_path, w2. repeat split; auto.
Qed.

(** The session of a generation request is in the store when the
    capability is called. *)
Lemma generation_target_known (E : Env) (session_id : value)
    (prompt_new : string) (w w1 : World) (sid prompt : string) :
  generation_target E session_id prompt_new w = (sid, prompt, w1) ->
  exists session, dict_get sid (sessions w1) = Some session.
Proof.
  unfold generation_target.
  destruct (existing_session session_id (sessions w)) as [sid0|] eqn:Hex.
  - intros [= <- _ <-].
    now apply existing_session_some in Hex as (_ & _ & Hget).
  - intros [= <- _ <-]. simpl. eexists. apply dict_get_set_same.
Qed.

(** C5.  A run of [generate_image] that answers with a session id, an
    image reference and a message id has stripped the prompt to a
    non-empty [prompt_new], has called the capability once with some
    [prompt], and leaves the session of the answer with three more
    messages than it had (than none, for a session just created): a user
    message with text [prompt_new]; a bot message whose id and image
    reference are those of the answer, whose text is the caption around
    [prompt] and whose status is [None]; the bot acknowledgement, which
    has no image. *)
Theorem generation_success_messages (E : Env) (data : dict value)
    (w w' : World) (sid image_url message_id : string) :
  generate_image E data w = (Ok (Generated sid image_url message_id), w') ->
  exists prompt_new prompt user_id boom_id ttl,
    value_strip (get_default "prompt" (VStr "") data) = Ok prompt_new
    /\ invocations w' = invocations w ++ [prompt]
    /\ dict_get sid (sessions w')
       = Some
           {| title := ttl;
              messages :=
                match existing_session (Py.get "session_id" data)
                        (sessions w) with
                | Some _ => messages_of sid (sessions w)
                | None => []
                end
                ++ [[("id", VStr user_id); ("sender", VStr "user");
                     ("text", VStr prompt_new)];
                    [("id", VStr message_id); ("sender", VStr "bot");
                     ("image_url", VStr image_url);
                     ("text", VStr ("Image is generated from prompt:"
                                    ^^ newline ^^ prompt));
                     ("status", VNone)];
                    [("id", VStr boom_id); ("sender", VStr "bot");
                     ("text", VStr boom_text)]] |}.
Proof.
  intros Hrun.
  destruct (generate_image_generated _ _ _ _ _ _ _ Hrun)
    as (prompt_new & prompt & w1 & image_path & w2
        & Hstrip & _ & Htarget & Hgen & _ & -> & ->).
  destruct (generate_frame _ _ _ _ _ Hgen) as (Hs & _ & Hi).
  unfold generation_target in Htarget.
  destruct (existing_session (Py.get "session_id" data) (sessions w))
    as [sid0|] eqn:Hex.
  - apply existing_session_some in Hex as (_ & _ & session0 & Hget).
    injection Htarget as -> <- <-.
    eexists prompt_new, _, _, _, _.
    split; [exact Hstrip|]. split; [exact Hi|].
    rewrite (record_exchange_known _ _ _ _ _ _ session0) by now rewrite Hs.
    unfold messages_of. rewrite Hget. reflexivity.
  - injection Htarget as <- <- <-. simpl in Hs, Hi.
    eexists prompt_new, _, _, _, _.
    split; [exact Hstrip|]. split; [exact Hi|].
    rewrite (record_exchange_known _ _ _ _ _ _
               {| title := SessionManager.make_title prompt_new;
                  messages := [] |})
      by (rewrite Hs; apply dict_get_set_same).
    reflexivity.
Qed.

(** The first request of the example: three messages in a new session. *)
Lemma generation_success_messages_witness :
  generate_image Example.env [("prompt", VStr "  a cat ")]
    Example.empty_world
  = (Ok (Generated "00000001" "/static/generated/00000002.png" "00000004"),
     Example.cat_world)
  /\ exists prompt_new prompt user_id boom_id ttl,
       invocations Example.cat_world = [] ++ [prompt]
       /\ dict_get "00000001" (sessions Example.cat_world)
          = Some
              {| title := ttl;
                 messages :=
                   [[("id", VStr user_id); ("sender", VStr "user");
                     ("text", VStr prompt_new)];
                    [("id", VStr "00000004"); ("sender", VStr "bot");
                     ("image_url", VStr "/static/generated/00000002.png");
                     ("text", VStr ("Image is generated from prompt:"
                                    ^^ newline ^^ prompt));
                     ("status", VNone)];
                    [("id", VStr boom_id); ("sender", VStr "bot");
                     ("text", VStr boom_text)]] |}.
Proof.
  assert (Hrun : generate_image Example.env [("prompt", VStr "  a cat ")]
                   Example.empty_world
                 = (Ok (Generated "00000001" "/static/generated/00000002.png"
                          "00000004"), Example.cat_world))
    by (vm_compute; reflexivity).
  split; [exact Hrun|].
  destruct (generation_success_messages _ _ _ _ _ _ _ Hrun)
    as (prompt_new & prompt & user_id & boom_id & ttl & _ & Hi & Hm).
  exists prompt_new, prompt, user_id, boom_id, ttl. split; assumption.
Defined.

(* ================================================================== *)
(** ** Persistence *)
(* ================================================================== *)

Lemma record_exchange_file (E : Env) (sid a b c : string) (w : World) :
  sessions_file_write E = true ->
  sessions_file (record_exchange E sid a b c w)
  = Some (sessions (record_exchange E sid a b c w)).
Proof.
  intros H. unfold record_exchange, file_after_save. simpl. now rewrite H.
Qed.

Lemma regenerate_regenerated (E : Env) (data : dict value) (w w' : World)
    (sid prompt image_url message_id : string) :
  regenerate E data w
  = (Ok (Regenerated sid prompt image_url message_id), w') ->
  exists mid image_path w2,
    as_truthy (Py.get "message_id" data) = Some mid
    /\ SessionManager.find_message_prompt mid (sessions w)
       = Ok (Some (sid, VStr prompt))
    /\ prompt <> ""
    /\ ImageGenerator.generate E prompt w = (Ok image_path, w2)
    /\ image_url = "/static/" ^^ image_path
    /\ message_id = hex8 (uuid4 E (S (uuid_calls w2)))
    /\ w' = record_exchange E sid prompt image_url prompt w2.
Proof.
  intros Hrun.
  destruct (as_truthy (Py.get "message_id" data)) as [mid|] eqn:Hid;
    [|unfold regenerate in Hrun; rewrite Hid in Hrun; discriminate].
  destruct (SessionManager.find_message_prompt mid (sessions w))
    as [[[sid0 pv]|]|e] eqn:Hfind;
    try (unfold regenerate, bind in Hrun; rewrite Hid, Hfind in Hrun;
         discriminate).
  destruct (as_truthy pv) as [p|] eqn:Hp;
    [|unfold regenerate, bind in Hrun; rewrite Hid, Hfind, Hp in Hrun;
      discriminate].
  rewrite (regenerate_run E data w mid sid0 p pv Hid Hfind Hp) in Hrun.
  apply as_truthy_some in Hp as [-> Hne].
  destruct (ImageGenerator.generate E p w) as [[image_path|e] w2] eqn:Hgen;
    [|discriminate].
  destruct (save_raises E); [discriminate|].
  injection Hrun as <- <- <- <- <-.
  exists mid, image_path, w2. repeat split; auto.
Qed.

(** C6, as the code has it.  [save] rewrites the sessions file with the
    whole current store when the write goes through.  [create],
    [add_message] and [update_message_status] do not touch the file.  The
    handlers call [save] once, at their end: after a generation or a
    regeneration that answers with an image, and after a status update
    that found its message, the file holds the store of that moment. *)
Theorem persistence_points (E : Env) (w : World) :
  (sessions_file_write E = true ->
   save E w = (Ok tt, set_sessions_file (Some (sessions w)) w))
  /\ (forall u prompt,
        sessions_file (snd (update (SessionManager.create u prompt) w))
        = sessions_file w)
  /\ (forall sid msg,
        sessions_file (snd (add_message sid msg w)) = sessions_file w)
  /\ (forall message_id status,
        sessions_file
          (snd (update
                  (SessionManager.update_message_status message_id status) w))
        = sessions_file w)
  /\ (sessions_file_write E = true ->
      (forall data sid image_url message_id w',
         generate_image E data w
         = (Ok (Generated sid image_url message_id), w') ->
         sessions_file w' = Some (sessions w'))
      /\ (forall data sid prompt image_url message_id w',
            regenerate E data w
            = (Ok (Regenerated sid prompt image_url message_id), w') ->
            sessions_file w' = Some (sessions w'))
      /\ (forall data w',
            update_status E data w = (Ok Success, w') ->
            sessions_file w' = Some (sessions w'))).
Proof.
  split; [|split; [|split; [|split]]].
  - intros H. unfold save. now rewrite H.
  - intros u prompt. unfold update.
    now destruct (SessionManager.create u prompt (sessions w)).
  - intros sid msg. reflexivity.
  - intros message_id status. unfold update.
    now destruct (SessionManager.update_message_status message_id status
                    (sessions w)).
  - intros Hwrite. split; [|split].
    + intros data sid image_url message_id w' Hrun.
      destruct (generate_image_generated _ _ _ _ _ _ _ Hrun)
        as (prompt_new & prompt & w1 & image_path & w2
            & _ & _ & _ & _ & _ & _ & ->).
      now apply record_exchange_file.
    + intros data sid prompt image_url message_id w' Hrun.
      destruct (regenerate_regenerated _ _ _ _ _ _ _ _ Hrun)
        as (mid & image_path & w2 & _ & _ & _ & _ & _ & _ & ->).
      now apply record_exchange_file.
    + intros data w'. unfold update_status.
      destruct (as_truthy (Py.get "message_id" data)) as [mid|];
        [|discriminate].
      destruct (as_truthy (Py.get "status" data)) as [status|];
        [|discriminate].
      unfold bind, update, save, ret.
      destruct (SessionManager.update_message_status mid status (sessions w))
        as [[|] s']; [|discriminate].
      rewrite Hwrite. intros [= <-]. reflexivity.
Qed.

(** After the first request of the example and after a like on its image
    the file holds the store. *)
Lemma persistence_points_witness :
  sessions_file
    (snd (generate_image Example.env [("prompt", VStr "a cat")]
            Example.empty_world))
  = Some Example.cat_sessions
  /\ sessions_file
       (snd (update_status Example.env
               [("message_id", VStr "00000004"); ("status", VStr "like")]
               Example.cat_world))
     = Some (sessions
               (snd (update_status Example.env
                       [("message_id", VStr "00000004");
                        ("status", VStr "like")] Example.cat_world))).
Proof.
  destruct (persistence_points Example.env Example.empty_world)
    as (_ & _ & _ & _ & H0).
  destruct (persistence_points Example.env Example.cat_world)
    as (_ & _ & _ & _ & H1).
  destruct (H0 eq_refl) as (Hgen & _ & _).
  destruct (H1 eq_refl) as (_ & _ & Hupd).
  assert (Hrun : generate_image Example.env [("prompt", VStr "a cat")]
                   Example.empty_world
                 = (Ok (Generated "00000001" "/static/generated/00000002.png"
                          "00000004"), Example.cat_world))
    by (vm_compute; reflexivity).
  split.
  - rewrite Hrun. cbn [snd]. now rewrite (Hgen _ _ _ _ _ Hrun).
  - apply (Hupd [("message_id", VStr "00000004"); ("status", VStr "like")]).
    vm_compute. reflexivity.
Defined.

(** C6 as stated does not hold: after [create], after [add_message] and
    after [update_message_status] the file is the one from before, which
    differs from the store; and a generate request whose capability call
    fails ends without a [save], with the session it created in the store
    only. *)
Lemma store_operations_do_not_persist :
  sessions_file
    (snd (update (SessionManager.create (uuid4 Example.env 0) "a cat")
            Example.empty_world))
  <> Some (sessions
             (snd (update (SessionManager.create (uuid4 Example.env 0) "a cat")
                     Example.empty_world)))
  /\ sessions_file
       (snd (add_message "00000001" (user_message "00000006" "on a mat")
               Example.cat_world))
     <> Some (sessions
                (snd (add_message "00000001"
                        (user_message "00000006" "on a mat")
                        Example.cat_world)))
  /\ sessions_file
       (snd (update (SessionManager.update_message_status "00000004" "like")
               Example.cat_world))
     <> Some (sessions
                (snd (update
                        (SessionManager.update_message_status "00000004"
                           "like") Example.cat_world)))
  /\ sessions_file
       (snd (generate_image Example.failing_env [("prompt", VStr "a cat")]
               Example.empty_world))
     <> Some (sessions
                (snd (generate_image Example.failing_env
                        [("prompt", VStr "a cat")] Example.empty_world))).
Proof.
  vm_compute. repeat split; discriminate.
Qed.

(* ================================================================== *)
(** ** The regeneration anchor *)
(* ================================================================== *)






Lemma find_in_messages_sid (sid : string) (all : list Message)
    (message_id : string) (i : nat) (rest : list Message)
    (x : string) (v : value) :
  SessionManager.find_in_messages sid all message_id i rest
  = Ok (Some (x, v)) ->
  x = sid.
Proof.
  revert i; induction rest as [|m rest IH]; intros i; simpl; [discriminate|].
  destruct (SessionManager.has_id message_id m); [|apply IH].
  unfold SessionManager.prompt_at.
  destruct i as [|j]; [now intros [= <- _]|].
  destruct (nth_error all j) as [prev|]; [|discriminate].
  destruct (index "sender" prev) as [sender|]; [|discriminate].
  destruct (value_eqb sender (VStr "user")); [|now intros [= <- _]].
  destruct (index "text" prev); [now intros [= <- _] | discriminate].
Qed.

(** The session id that [find_message_prompt] returns is a key of the
    store. *)
Lemma find_message_prompt_session (message_id : string) (s : Sessions)
    (sid : string) (v : value) :
  SessionManager.find_message_prompt message_id s = Ok (Some (sid, v)) ->
  exists session, dict_get sid s = Some session.
Proof.
  induction s as [|[sid' session'] rest IH]; simpl; [discriminate|].
  destruct (SessionManager.find_in_messages sid' (messages session')
              message_id 0 (messages session')) as [[[x y]|]|e] eqn:Hf.
  - intros [= -> ->]. apply find_in_messages_sid in Hf as ->.
    rewrite String.eqb_refl. eauto.
  - intros H. destruct (String.eqb sid sid'); eauto.
  - discriminate.
Qed.



(* ================================================================== *)
(** ** The listing of sessions *)
(* ================================================================== *)

Lemma get_all_dict_set_known (k : string) (old new : Session) (s : Sessions) :
  dict_get k s = Some old ->
  title new = title old ->
  SessionManager.get_all (dict_set k new s) = SessionManager.get_all s.
Proof.
  intros Hget Ht. induction s as [|[k' v'] s IH]; simpl in *; [discriminate|].
  destruct (String.eqb k k'); simpl.
  - injection Hget as ->. now rewrite Ht.
  - now rewrite IH.
Qed.

Lemma update_in_messages_length (message_id status : string)
    (msgs msgs' : list Message) :
  SessionManager.update_in_messages message_id status msgs = Some msgs' ->
  length msgs' = length msgs.
Proof.
  revert msgs'; induction msgs as [|m rest IH]; intros msgs'; simpl;
    [discriminate|].
  destruct (SessionManager.has_id message_id m).
  - now intros [= <-].
  - destruct (SessionManager.update_in_messages message_id status rest)
      as [r|]; simpl; [|discriminate].
    intros [= <-]. simpl. now rewrite (IH r).
Qed.

Lemma update_in_sessions_get_all (message_id status : string)
    (s s' : Sessions) :
  SessionManager.update_in_sessions message_id status s = Some s' ->
  SessionManager.get_all s' = SessionManager.get_all s
  /\ map (fun kv => length (messages (snd kv))) s'
     = map (fun kv => length (messages (snd kv))) s.
Proof.
  revert s'; induction s as [|[sid session] rest IH]; intros s'; simpl;
    [discriminate|].
  destruct (SessionManager.update_in_messages message_id status
              (messages session)) as [msgs'|] eqn:Hm.
  - intros [= <-]. simpl.
    now rewrite (update_in_messages_length _ _ _ _ Hm).
  - destruct (SessionManager.update_in_sessions message_id status rest)
      as [r|]; simpl; [|discriminate].
    intros [= <-]. simpl. destruct (IH r eq_refl) as [-> ->]. auto.
Qed.

(** X1.  [add_message] and [update_message_status] never change what
    [get_all] lists: the ids of the sessions, their order and their
    titles.  [update_message_status] also keeps the number of messages of
    every session. *)
Theorem listing_is_stable (s : Sessions) :
  (forall sid msg,
     SessionManager.get_all (SessionManager.add_message sid msg s)
     = SessionManager.get_all s)
  /\ (forall message_id status,
        let s' := snd (SessionManager.update_message_status message_id
                         status s) in
        SessionManager.get_all s' = SessionManager.get_all s
        /\ map (fun kv => length (messages (snd kv))) s'
           = map (fun kv => length (messages (snd kv))) s).
Proof.
  split.
  - intros sid msg. unfold SessionManager.add_message.
    destruct (dict_get sid s) as [session|] eqn:Hget; [|reflexivity].
    now apply (get_all_dict_set_known sid session).
  - intros message_id status. unfold SessionManager.update_message_status.
    destruct (SessionManager.update_in_sessions message_id status s)
      as [s'|] eqn:Hu; simpl; [|auto].
    now apply (update_in_sessions_get_all message_id status).
Qed.

Lemma dict_set_keys_known {V : Type} (k : string) (old new : V) (d : dict V) :
  dict_get k d = Some old -> map fst (dict_set k new d) = map fst d.
Proof.
  induction d as [|[k' v'] d IH]; simpl; [discriminate|].
  destruct (String.eqb k k'); simpl; [reflexivity|].
  intros H. now rewrite IH.
Qed.

(** X2.  [create] makes no check on the id it draws.  When the id is not
    a key of the store, the listing grows by the new id and title at its
    end.  When it is one, the store keeps its ids and their order, and
    the session under that id is replaced: its title is the new one and
    its messages are gone.  In both cases every other id reads as
    before. *)
Theorem create_listing (u : N) (prompt : string) (s : Sessions) :
  let s' := snd (SessionManager.create u prompt s) in
  (dict_get (hex8 u) s = None ->
   SessionManager.get_all s'
   = SessionManager.get_all s
     ++ [(hex8 u, SessionManager.make_title prompt)])
  /\ (forall old,
        dict_get (hex8 u) s = Some old ->
        map fst s' = map fst s
        /\ dict_get (hex8 u) s'
           = Some {| title := SessionManager.make_title prompt;
                     messages := [] |})
  /\ (forall sid, sid <> hex8 u -> dict_get sid s' = dict_get sid s).
Proof.
  unfold SessionManager.create. cbn [snd]. split; [|split].
  - intros H. rewrite (dict_set_new _ _ _ H).
    unfold SessionManager.get_all. now rewrite map_app.
  - intros old H. split.
    + now apply (dict_set_keys_known _ old).
    + apply dict_get_set_same.
  - intros sid H. now apply dict_get_set_other.
Qed.

(** A draw that repeats the id of the example session empties it. *)
Lemma create_listing_witness :
  SessionManager.create (uuid4 Example.env 0) "a dog" Example.cat_sessions
  = ("00000001", [("00000001", {| title := "a dog"; messages := [] |})])
  /\ SessionManager.get_all
       (snd (SessionManager.create (uuid4 Example.env 1) "a dog"
               Example.cat_sessions))
     = [("00000001", "a cat"); ("00000002", "a dog")].
Proof.
  destruct (create_listing (uuid4 Example.env 0) "a dog" Example.cat_sessions)
    as (_ & Hold & _).
  destruct (create_listing (uuid4 Example.env 1) "a dog" Example.cat_sessions)
    as (Hnew & _ & _).
  split.
  - destruct (Hold Example.cat_session eq_refl) as [_ H].
    vm_compute in H. vm_compute. reflexivity.
  - cbv zeta in Hnew. rewrite Hnew; [|reflexivity]. vm_compute. reflexivity.
Defined.

(** X3.  Messages appended to a session of the store are read back by
    [get] after the messages it had, in the order of the appends, and
    every other session reads as before.  Appending to an id that is not
    in the store changes nothing and raises nothing. *)
Theorem appends_are_read_back (sid : string) (msgs : list Message)
    (s : Sessions) :
  (forall session,
     dict_get sid s = Some session ->
     SessionManager.get (VStr sid) (add_messages sid msgs s)
     = Some {| title := title session;
               messages := messages session ++ msgs |})
  /\ (forall sid',
        sid' <> sid ->
        SessionManager.get (VStr sid') (add_messages sid msgs s)
        = SessionManager.get (VStr sid') s)
  /\ (dict_get sid s = None -> add_messages sid msgs s = s).
Proof.
  split; [|split].
  - intros session H. now apply add_messages_known.
  - intros sid' H. now apply add_messages_other.
  - intros H. unfold add_messages.
    induction msgs as [|m msgs IH]; simpl; [reflexivity|].
    unfold SessionManager.add_message at 2. now rewrite H.
Qed.

Lemma appends_are_read_back_witness :
  SessionManager.get (VStr "00000001")
    (add_messages "00000001"
       [user_message "00000006" "on a mat"; boom_message "00000007"]
       Example.cat_sessions)
  = Some {| title := "a cat";
            messages := [Example.cat_user; Example.cat_bot; Example.cat_boom;
                         user_message "00000006" "on a mat";
                         boom_message "00000007"] |}
  /\ add_messages "0badc0de" [user_message "00000006" "on a mat"]
       Example.cat_sessions
     = Example.cat_sessions.
Proof.
  destruct (appends_are_read_back "00000001"
              [user_message "00000006" "on a mat"; boom_message "00000007"]
              Example.cat_sessions) as (H & _ & _).
  destruct (appends_are_read_back "0badc0de"
              [user_message "00000006" "on a mat"]
              Example.cat_sessions) as (_ & _ & H').
  split.
  - rewrite (H Example.cat_session eq_refl). reflexivity.
  - apply H'. reflexivity.
Defined.

(* ================================================================== *)
(** ** Status updates, again *)
(* ================================================================== *)

Lemma dict_set_twice {V : Type} (k : string) (v1 v2 : V) (d : dict V) :
  dict_set k v2 (dict_set k v1 d) = dict_set k v2 d.
Proof.
  induction d as [|[k' v'] d IH]; simpl.
  - now rewrite String.eqb_refl.
  - destruct (String.eqb k k') eqn:Hk; simpl; rewrite Hk; [reflexivity|].
    now rewrite IH.
Qed.

Lemma status_same_reads (v : value) (msg : Message) :
  same_reads msg (dict_set "status" v msg).
Proof.
  unfold same_reads.
  rewrite !dict_get_set_other by discriminate. auto 6.
Qed.

Lemma has_id_same_reads (message_id : string) (a b : Message) :
  same_reads a b ->
  SessionManager.has_id message_id a = SessionManager.has_id message_id b.
Proof.
  intros (Hid & _ & _). unfold SessionManager.has_id, Py.get.
  now rewrite Hid.
Qed.

Lemma update_in_messages_twice (message_id st1 st2 : string)
    (msgs msgs' : list Message) :
  SessionManager.update_in_messages message_id st1 msgs = Some msgs' ->
  SessionManager.update_in_messages message_id st2 msgs'
  = SessionManager.update_in_messages message_id st2 msgs.
Proof.
  revert msgs'; induction msgs as [|m rest IH]; intros msgs'; simpl;
    [discriminate|].
  destruct (SessionManager.has_id message_id m) eqn:Hm.
  - intros [= <-]. simpl.
    rewrite <- (has_id_same_reads _ _ _ (status_same_reads (VStr st1) m)), Hm.
    now rewrite dict_set_twice.
  - destruct (SessionManager.update_in_messages message_id st1 rest)
      as [r|]; simpl; [|discriminate].
    intros [= <-]. simpl. rewrite Hm. now rewrite (IH r).
Qed.

Lemma update_in_messages_none_twice (message_id st1 st2 : string)
    (msgs : list Message) :
  SessionManager.update_in_messages message_id st1 msgs = None ->
  SessionManager.update_in_messages message_id st2 msgs = None.
Proof.
  induction msgs as [|m rest IH]; simpl; [reflexivity|].
  destruct (SessionManager.has_id message_id m); [discriminate|].
  destruct (SessionManager.update_in_messages message_id st1 rest);
    simpl; [discriminate|].
  intros _. now rewrite IH.
Qed.

Lemma update_in_sessions_twice (message_id st1 st2 : string)
    (s s' : Sessions) :
  SessionManager.update_in_sessions message_id st1 s = Some s' ->
  SessionManager.update_in_sessions message_id st2 s'
  = SessionManager.update_in_sessions message_id st2 s.
Proof.
  revert s'; induction s as [|[sid session] rest IH]; intros s'; simpl;
    [discriminate|].
  destruct (SessionManager.update_in_messages message_id st1
              (messages session)) as [msgs'|] eqn:Hm.
  - intros [= <-]. simpl.
    rewrite (update_in_messages_twice _ _ st2 _ _ Hm).
    destruct (SessionManager.update_in_messages message_id st2
                (messages session)) as [m2|] eqn:H2; [reflexivity|].
    rewrite (update_in_messages_none_twice _ _ st1 _ H2) in Hm.
    discriminate.
  - destruct (SessionManager.update_in_sessions message_id st1 rest)
      as [r|]; simpl; [|discriminate].
    intros [= <-]. simpl.
    rewrite (update_in_messages_none_twice _ _ st2 _ Hm).
    now rewrite (IH r).
Qed.

Lemma update_in_sessions_none_twice (message_id st1 st2 : string)
    (s : Sessions) :
  SessionManager.update_in_sessions message_id st1 s = None ->
  SessionManager.update_in_sessions message_id st2 s = None.
Proof.
  induction s as [|[sid session] rest IH]; simpl; [reflexivity|].
  destruct (SessionManager.update_in_messages message_id st1
              (messages session)) eqn:Hm; [discriminate|].
  rewrite (update_in_messages_none_twice _ _ st2 _ Hm).
  destruct (SessionManager.update_in_sessions message_id st1 rest);
    simpl; [discriminate|].
  intros _. now rewrite IH.
Qed.

(** X4.  The last status wins: setting a status on a message and then
    another one gives the same answer and the same store as setting the
    second status alone.  In particular setting the same status twice is
    the same as setting it once. *)
Theorem status_last_write_wins (message_id st1 st2 : string) (s : Sessions) :
  SessionManager.update_message_status message_id st2
    (snd (SessionManager.update_message_status message_id st1 s))
  = SessionManager.update_message_status message_id st2 s.
Proof.
  unfold SessionManager.update_message_status.
  destruct (SessionManager.update_in_sessions message_id st1 s)
    as [s'|] eqn:H1; cbn [snd]; [|reflexivity].
  rewrite (update_in_sessions_twice _ _ st2 _ _ H1).
  destruct (SessionManager.update_in_sessions message_id st2 s) as [s2|] eqn:H2;
    [reflexivity|].
  rewrite (update_in_sessions_none_twice _ _ st1 _ H2) in H1. discriminate.
Qed.

Lemma same_reads_refl (msg : Message) : same_reads msg msg.
Proof. unfold same_reads. auto. Qed.

Lemma same_messages_refl (msgs : list Message) : Forall2 same_reads msgs msgs.
Proof.
  induction msgs; constructor; [apply same_reads_refl | assumption].
Qed.

Lemma same_store_refl (s : Sessions) : same_store s s.
Proof.
  induction s as [|kv s IH]; constructor; [|exact IH].
  repeat split. apply same_messages_refl.
Qed.

Lemma update_in_messages_same (message_id status : string)
    (msgs msgs' : list Message) :
  SessionManager.update_in_messages message_id status msgs = Some msgs' ->
  Forall2 same_reads msgs msgs'.
Proof.
  revert msgs'; induction msgs as [|m rest IH]; intros msgs'; simpl;
    [discriminate|].
  destruct (SessionManager.has_id message_id m).
  - intros [= <-]. constructor;
      [apply status_same_reads | apply same_messages_refl].
  - destruct (SessionManager.update_in_messages message_id status rest)
      as [r|]; simpl; [|discriminate].
    intros [= <-]. constructor; [apply same_reads_refl | now apply IH].
Qed.

Lemma update_in_sessions_same (message_id status : string)
    (s s' : Sessions) :
  SessionManager.update_in_sessions message_id status s = Some s' ->
  same_store s s'.
Proof.
  revert s'; induction s as [|[sid session] rest IH]; intros s'; simpl;
    [discriminate|].
  destruct (SessionManager.update_in_messages message_id status
              (messages session)) as [msgs'|] eqn:Hm.
  - intros [= <-]. constructor; [|apply same_store_refl].
    repeat split. now apply (update_in_messages_same message_id status).
  - destruct (SessionManager.update_in_sessions message_id status rest)
      as [r|]; simpl; [|discriminate].
    intros [= <-]. constructor; [|now apply IH].
    repeat split. apply same_messages_refl.
Qed.

Lemma same_messages_nth (all all' : list Message) (j : nat) :
  Forall2 same_reads all all' ->
  match nth_error all j, nth_error all' j with
  | Some a, Some b => same_reads a b
  | None, None => True
  | _, _ => False
  end.
Proof.
  intros H. revert j. induction H as [|a b l l' Hab Hl IH]; intros [|j];
    simpl; auto. apply IH.
Qed.

Lemma prompt_at_same (sid : string) (all all' : list Message) (i : nat)
    (msg msg' : Message) :
  Forall2 same_reads all all' ->
  same_reads msg msg' ->
  SessionManager.prompt_at sid all i msg
  = SessionManager.prompt_at sid all' i msg'.
Proof.
  intros Hall (_ & _ & Htext & _). unfold SessionManager.prompt_at.
  destruct i as [|j]; [unfold get_default; now rewrite Htext|].
  pose proof (same_messages_nth all all' j Hall) as Hn.
  destruct (nth_error all j) as [p|], (nth_error all' j) as [p'|];
    try contradiction; [|reflexivity].
  destruct Hn as (_ & Hs & Ht & _). unfold index, get_default.
  now rewrite Hs, Ht, Htext.
Qed.

Lemma find_in_messages_same (sid : string) (all all' : list Message)
    (message_id : string) (i : nat) (rest rest' : list Message) :
  Forall2 same_reads all all' ->
  Forall2 same_reads rest rest' ->
  SessionManager.find_in_messages sid all message_id i rest
  = SessionManager.find_in_messages sid all' message_id i rest'.
Proof.
  intros Hall Hrest. revert i.
  induction Hrest as [|m m' r r' Hm Hr IH]; intros i; simpl; [reflexivity|].
  rewrite (has_id_same_reads message_id m m' Hm).
  destruct (SessionManager.has_id message_id m'); [|apply IH].
  now apply prompt_at_same.
Qed.

Lemma find_message_prompt_same (message_id : string) (s s' : Sessions) :
  same_store s s' ->
  SessionManager.find_message_prompt message_id s
  = SessionManager.find_message_prompt message_id s'.
Proof.
  intros H. induction H as [|[k v] [k' v'] r r' (Hk & _ & Hm) Hr IH]; simpl;
    [reflexivity|].
  simpl in Hk, Hm. subst k'.
  rewrite (find_in_messages_same k _ _ message_id 0 _ _ Hm Hm).
  now rewrite IH.
Qed.

Lemma user_prompts_same (msgs msgs' : list Message) :
  Forall2 same_reads msgs msgs' ->
  SessionManager.user_prompts msgs = SessionManager.user_prompts msgs'.
Proof.
  intros H. induction H as [|m m' r r' (_ & Hs & Ht & _) Hr IH]; simpl;
    [reflexivity|].
  unfold Py.get, get_default. now rewrite Hs, Ht, IH.
Qed.

Lemma get_all_prompts_same (sid : string) (s s' : Sessions) :
  same_store s s' ->
  SessionManager.get_all_prompts sid s = SessionManager.get_all_prompts sid s'.
Proof.
  intros H. unfold SessionManager.get_all_prompts.
  induction H as [|[k v] [k' v'] r r' (Hk & _ & Hm) Hr IH]; simpl;
    [reflexivity|].
  simpl in Hk, Hm. subst k'.
  destruct (String.eqb sid k); [|exact IH].
  now rewrite (user_prompts_same _ _ Hm).
Qed.

(** X5.  A status update changes neither the prompt that any message id
    traces back to nor the prompt history of any session. *)
Theorem status_keeps_prompts (message_id status : string) (s : Sessions) :
  let s' := snd (SessionManager.update_message_status message_id status s) in
  (forall m,
     SessionManager.find_message_prompt m s'
     = SessionManager.find_message_prompt m s)
  /\ (forall sid,
        SessionManager.get_all_prompts sid s'
        = SessionManager.get_all_prompts sid s).
Proof.
  unfold SessionManager.update_message_status.
  destruct (SessionManager.update_in_sessions message_id status s)
    as [s'|] eqn:Hu; cbn [snd]; [|auto].
  pose proof (update_in_sessions_same _ _ _ _ Hu) as Hsame.
  split.
  - intros m. symmetry. now apply find_message_prompt_same.
  - intros sid. symmetry. now apply get_all_prompts_same.
Qed.

(* ================================================================== *)
(** ** Errors of the handlers *)
(* ================================================================== *)

Lemma generate_image_no_strip (E : Env) (data : dict value) (w : World)
    (e : exn) :
  value_strip (get_default "prompt" (VStr "") data) = Raise e ->
  generate_image E data w
  = (Ok (ErrorResponse 500 ("Image generation failed: " ^^ str_of_exn e)), w).
Proof.
  intros H. unfold generate_image, try_except, bind, lift. now rewrite H.
Qed.

Lemma generate_image_empty (E : Env) (data : dict value) (w : World) :
  value_strip (get_default "prompt" (VStr "") data) = Ok "" ->
  generate_image E data w = (Ok (ErrorResponse 400 "Prompt is empty"), w).
Proof.
  intros H. unfold generate_image, try_except, bind, lift. now rewrite H.
Qed.

(** What [generate_image] can answer, and the world it leaves. *)
Lemma generate_image_outcomes (E : Env) (data : dict value) (w w' : World)
    (r : Result Response) :
  generate_image E data w = (r, w') ->
  (r = Ok (ErrorResponse 400 "Prompt is empty") /\ w' = w)
  \/ (exists msg, r = Ok (ErrorResponse 500 msg))
  \/ (exists sid image_url message_id,
        r = Ok (Generated sid image_url message_id)).
Proof.
  destruct (value_strip (get_default "prompt" (VStr "") data))
    as [p|e] eqn:Hstrip.
  - destruct (String.eqb_spec p "") as [->|Hp].
    + rewrite (generate_image_empty E data w Hstrip).
      intros [= <- <-]. auto.
    + rewrite (generate_image_run E data w p Hstrip Hp).
      destruct (generation_target E (Py.get "session_id" data) p w)
        as [[sid prompt] w1].
      destruct (ImageGenerator.generate E prompt w1) as [[path|e] w2];
        intros [= <- <-]; [destruct (save_raises E)|]; eauto 6.
  - rewrite (generate_image_no_strip E data w e Hstrip).
    intros [= <- <-]. eauto.
Qed.

Lemma find_in_messages_raises (sid : string) (pre rest : list Message)
    (message_id : string) (e : exn) :
  SessionManager.find_in_messages sid (pre ++ rest) message_id (length pre)
    rest = Raise e ->
  e = KeyError "sender" \/ e = KeyError "text".
Proof.
  revert pre; induction rest as [|m rest IH]; intros pre; simpl;
    [discriminate|].
  destruct (SessionManager.has_id message_id m).
  - unfold SessionManager.prompt_at.
    destruct (length pre) as [|j] eqn:Hlen; [discriminate|].
    rewrite nth_error_app1 by lia.
    destruct (nth_error pre j) as [p0|] eqn:Hn;
      [|apply nth_error_None in Hn; lia].
    unfold index.
    destruct (dict_get "sender" p0) as [sender|]; [|intros [= <-]; auto].
    destruct (value_eqb sender (VStr "user")); [|discriminate].
    destruct (dict_get "text" p0); [discriminate | intros [= <-]; auto].
  - intros H. apply (IH (pre ++ [m])).
    now rewrite <- app_assoc, length_app, Nat.add_1_r.
Qed.

Lemma find_message_prompt_raises (message_id : string) (s : Sessions)
    (e : exn) :
  SessionManager.find_message_prompt message_id s = Raise e ->
  e = KeyError "sender" \/ e = KeyError "text".
Proof.
  induction s as [|[sid session] rest IH]; simpl; [discriminate|].
  destruct (SessionManager.find_in_messages sid (messages session)
              message_id 0 (messages session)) as [[r|]|e'] eqn:Hf.
  - discriminate.
  - exact IH.
  - intros [= <-].
    now apply (find_in_messages_raises sid [] (messages session) message_id).
Qed.

(** What [regenerate] can do, and the world it leaves. *)
Lemma regenerate_outcomes (E : Env) (data : dict value) (w w' : World)
    (r : Result Response) :
  regenerate E data w = (r, w') ->
  (exists code msg,
      r = Ok (ErrorResponse code msg) /\ (code = 400 \/ code = 404)
      /\ w' = w)
  \/ (exists e,
        r = Raise e /\ (e = KeyError "sender" \/ e = KeyError "text")
        /\ w' = w)
  \/ (exists msg prompt,
        r = Ok (ErrorResponse 500 msg)
        /\ sessions w' = sessions w
        /\ sessions_file w' = sessions_file w
        /\ invocations w' = invocations w ++ [prompt])
  \/ (exists sid prompt image_url message_id,
        r = Ok (Regenerated sid prompt image_url message_id))
  \/ (exists e sid prompt image_path w2,
        r = Raise e
        /\ save_raises E = Some e
        /\ prompt <> ""
        /\ (exists session, dict_get sid (sessions w) = Some session)
        /\ ImageGenerator.generate E prompt w = (Ok image_path, w2)
        /\ w' = record_exchange E sid prompt ("/static/" ^^ image_path)
                  prompt w2).
Proof.
  destruct (as_truthy (Py.get "message_id" data)) as [mid|] eqn:Hid;
    [|unfold regenerate; rewrite Hid; intros [= <- <-]; left; eauto 6].
  destruct (SessionManager.find_message_prompt mid (sessions w))
    as [[[sid pv]|]|e] eqn:Hfind.
  - destruct (as_truthy pv) as [p|] eqn:Hp.
    + rewrite (regenerate_run E data w mid sid p pv Hid Hfind Hp).
      destruct (ImageGenerator.generate E p w) as [[path|e] w2] eqn:Hgen;
        intros [= <- <-].
      * destruct (save_raises E) as [e|] eqn:Hsave.
        -- do 4 right. exists e, sid, p, path, w2.
           apply as_truthy_some in Hp as [_ Hne].
           repeat split; auto.
           exact (find_message_prompt_session _ _ _ _ Hfind).
        -- do 3 right. left. eauto 6.
      * destruct (generate_frame _ _ _ _ _ Hgen) as (Hs & Hf & Hi).
        right; right; left. eauto 8.
    + unfold regenerate, bind. rewrite Hid, Hfind, Hp.
      intros [= <- <-]. left; eauto 6.
  - unfold regenerate, bind. rewrite Hid, Hfind.
    intros [= <- <-]. left; eauto 6.
  - unfold regenerate, bind. rewrite Hid, Hfind.
    intros [= <- <-]. right; left. exists e.
    split; [reflexivity|]. split; [|reflexivity].
    now apply (find_message_prompt_raises mid (sessions w)).
Qed.

(** What [update_status] can answer, and the world it leaves. *)
Lemma update_status_outcomes (E : Env) (data : dict value) (w w' : World)
    (r : Result Response) :
  update_status E data w = (r, w') ->
  (exists code msg,
      r = Ok (ErrorResponse code msg) /\ (code = 400 \/ code = 404)
      /\ w' = w)
  \/ r = Ok Success
  \/ (exists e, r = Raise e /\ save_raises E = Some e).
Proof.
  unfold update_status.
  destruct (as_truthy (Py.get "message_id" data)) as [mid|];
    [|intros [= <- <-]; left; eauto 6].
  destruct (as_truthy (Py.get "status" data)) as [status|];
    [|intros [= <- <-]; left; eauto 6].
  unfold bind, update, SessionManager.update_message_status.
  destruct (SessionManager.update_in_sessions mid status (sessions w))
    as [s'|].
  - unfold save, ret, save_raises. destruct (sessions_file_write E);
      [intros [= <- <-]; auto|].
    destruct (sessions_file_failure E); intros [= <- <-]; eauto 6.
  - unfold ret. rewrite set_sessions_same. intros [= <- <-]. left; eauto 6.
Qed.

(** X6.  An answer with status 400 or 404, from any of the three [POST]
    handlers, leaves the whole world as it was: store, sessions file, the
    UUIDs drawn and the calls of the capability. *)
Theorem client_errors_change_nothing (E : Env) (r : Request) (w w' : World)
    (code : nat) (msg : string) :
  handle E r w = (Ok (ErrorResponse code msg), w') ->
  code <> 500 ->
  w' = w /\ (code = 400 \/ code = 404).
Proof.
  intros Hrun Hcode. destruct r as [data|data|data]; simpl in Hrun.
  - destruct (generate_image_outcomes _ _ _ _ _ Hrun)
      as [[Hr ->]|[(m & Hr)|(sid & url & mid & Hr)]];
      try discriminate; injection Hr as -> ->; auto; contradiction.
  - destruct (regenerate_outcomes _ _ _ _ _ Hrun)
      as [(c & m & Hr & Hc & ->)
         |[(e & Hr & _)
          |[(m & p & Hr & _)
           |[(sid & p & url & mid & Hr)|(e & sid & p & path & w2 & Hr & _)]]]];
      try discriminate; injection Hr as -> ->; auto; contradiction.
  - destruct (update_status_outcomes _ _ _ _ _ Hrun)
      as [(c & m & Hr & Hc & ->)|[Hr|(e & Hr & _)]]; try discriminate.
    injection Hr as -> ->. auto.
Qed.

(** An empty prompt, an unknown message id and a missing status, on the
    example world. *)
Lemma client_errors_change_nothing_witness :
  snd (handle Example.env (PostGenerate [("prompt", VStr "   ")])
         Example.cat_world)
  = Example.cat_world
  /\ snd (handle Example.env (PostRegenerate [("message_id", VStr "0badc0de")])
            Example.cat_world)
     = Example.cat_world
  /\ snd (handle Example.env
            (PostUpdateStatus [("message_id", VStr "00000004")])
            Example.cat_world)
     = Example.cat_world.
Proof.
  split; [|split].
  - apply (client_errors_change_nothing Example.env
             (PostGenerate [("prompt", VStr "   ")])
             Example.cat_world _ 400 "Prompt is empty");
      [vm_compute; reflexivity | discriminate].
  - apply (client_errors_change_nothing Example.env
             (PostRegenerate [("message_id", VStr "0badc0de")])
             Example.cat_world _ 404 "Message not found");
      [vm_compute; reflexivity | discriminate].
  - apply (client_errors_change_nothing Example.env
             (PostUpdateStatus [("message_id", VStr "00000004")])
             Example.cat_world _ 400 "Missing message_id or status");
      [vm_compute; reflexivity | discriminate].
Defined.

Lemma save_raises_some (E : Env) (e : exn) :
  save_raises E = Some e <->
  sessions_file_write E = false
  /\ exists msg,
       sessions_file_failure E = EncodeFails msg
       /\ e = UnicodeEncodeError msg.
Proof.
  unfold save_raises. destruct (sessions_file_write E).
  - split; [discriminate | intros [[=] _]].
  - destruct (sessions_file_failure E) as [| |msg]; split;
      try discriminate.
    + intros [_ (m & H & _)]. discriminate.
    + intros [_ (m & H & _)]. discriminate.
    + intros [= <-]. eauto.
    + intros [_ (m & H & ->)]. injection H as <-. reflexivity.
Qed.

Lemma file_after_save_raises (E : Env) (e : exn) (s : Sessions)
    (old : option Sessions) :
  save_raises E = Some e -> file_after_save E s old = None.
Proof.
  intros H. apply save_raises_some in H as (Hw & msg & Hf & _).
  unfold file_after_save. now rewrite Hw, Hf.
Qed.

Lemma update_status_raise (E : Env) (data : dict value) (w w' : World)
    (e : exn) :
  update_status E data w = (Raise e, w') ->
  save_raises E = Some e
  /\ sessions_file w' = None
  /\ exists message_id status,
       SessionManager.update_message_status message_id status (sessions w)
       = (true, sessions w').
Proof.
  unfold update_status.
  destruct (as_truthy (Py.get "message_id" data)) as [mid|]; [|discriminate].
  destruct (as_truthy (Py.get "status" data)) as [status|]; [|discriminate].
  unfold bind, update, SessionManager.update_message_status.
  destruct (SessionManager.update_in_sessions mid status (sessions w))
    as [s'|] eqn:Hu; [|discriminate].
  unfold save, ret, save_raises. destruct (sessions_file_write E);
    [discriminate|].
  destruct (sessions_file_failure E); try discriminate.
  intros [= <- <-]. split; [reflexivity|]. split; [reflexivity|].
  exists mid, status. rewrite Hu. reflexivity.
Qed.

(** X7.  Take a store whose sessions all have their list of messages,
    as [create] makes them.  No exception leaves [generate_image],
    whatever the JSON body.  An exception that leaves [regenerate] or
    [update_status] is one of three.  The [AttributeError] of [data.get] on a body that is not an
    object, with the world as it was.  For [regenerate], the [KeyError]
    of [find_message_prompt] for ["sender"] or ["text"], with the world
    as it was.  The exception that [json.dump] raised in [save] and that
    is not an [IOError]: then the store in memory already holds the new
    exchange, or the new status, and the file is left without a
    document. *)
Theorem escaping_exceptions (E : Env) (b : Body) (w : World) :
  (exists response w', post_generate E b w = (Ok response, w'))
  /\ (forall e w',
        post_regenerate E b w = (Raise e, w') ->
        (exists t, b = OtherBody t /\ e = no_get t /\ w' = w)
        \/ ((e = KeyError "sender" \/ e = KeyError "text") /\ w' = w)
        \/ (save_raises E = Some e
            /\ sessions_file w' = None
            /\ exists sid session msgs,
                 dict_get sid (sessions w) = Some session
                 /\ length msgs = 3
                 /\ dict_get sid (sessions w')
                    = Some {| title := title session;
                              messages := messages session ++ msgs |}))
  /\ (forall e w',
        post_update_status E b w = (Raise e, w') ->
        (exists t, b = OtherBody t /\ e = no_get t /\ w' = w)
        \/ (save_raises E = Some e
            /\ sessions_file w' = None
            /\ exists message_id status,
                 SessionManager.update_message_status message_id status
                   (sessions w)
                 = (true, sessions w'))).
Proof.
  split; [|split].
  - destruct b as [data|t]; simpl; [|unfold ret; eauto].
    destruct (generate_image E data w) as [[resp|e] w'] eqn:Hrun; [eauto|].
    destruct (generate_image_outcomes _ _ _ _ _ Hrun)
      as [[Hr _]|[(m & Hr)|(sid & url & mid & Hr)]]; discriminate.
  - intros e w'. destruct b as [data|t]; simpl.
    + intros Hrun.
      destruct (regenerate_outcomes _ _ _ _ _ Hrun)
        as [(c & m & Hr & _)
           |[(e' & Hr & He & ->)
            |[(m & p & Hr & _)
             |[(sid & p & url & mid & Hr)
              |(e' & sid & p & path & w2 & Hr & Hsave & _ & (session & Hget)
                & Hgen & ->)]]]];
        try discriminate; injection Hr as ->; [auto|].
      right; right. split; [exact Hsave|].
      destruct (generate_frame _ _ _ _ _ Hgen) as (Hs & _ & _).
      split.
      * unfold record_exchange. cbn [sessions_file].
        now apply (file_after_save_raises E e').
      * exists sid, session, (exchange E p ("/static/" ^^ path) p w2).
        split; [exact Hget|]. split; [reflexivity|].
        apply record_exchange_known. now rewrite Hs.
    + unfold lift. intros [= <- <-]. left. eauto.
  - intros e w'. destruct b as [data|t]; simpl.
    + intros Hrun. right. now apply (update_status_raise E data).
    + unfold lift. intros [= <- <-]. left. eauto.
Qed.

(** A list as body leaves [regenerate] with an [AttributeError]; a dump
    that raises leaves [update_status] with its exception, the status
    set in memory and the file without a document. *)
Lemma escaping_exceptions_witness :
  post_regenerate Example.env (OtherBody "list") Example.cat_world
  = (Raise (AttributeError "'list' object has no attribute 'get'"),
     Example.cat_world)
  /\ fst (post_update_status
            (with_file_failure (EncodeFails "surrogates not allowed")
               Example.env)
            (ObjectBody [("message_id", VStr "00000004");
                         ("status", VStr "like")])
            Example.cat_world)
     = Raise (UnicodeEncodeError "surrogates not allowed")
  /\ sessions_file
       (snd (post_update_status
               (with_file_failure (EncodeFails "surrogates not allowed")
                  Example.env)
               (ObjectBody [("message_id", VStr "00000004");
                            ("status", VStr "like")])
               Example.cat_world))
     = None.
Proof.
  destruct (escaping_exceptions Example.env (OtherBody "list")
              Example.cat_world) as (_ & Hregen & _).
  destruct (escaping_exceptions
              (with_file_failure (EncodeFails "surrogates not allowed")
                 Example.env)
              (ObjectBody [("message_id", VStr "00000004");
                           ("status", VStr "like")])
              Example.cat_world) as (_ & _ & Hupd).
  split; [|split].
  - destruct (Hregen (no_get "list") Example.cat_world eq_refl)
      as [(t & _ & _ & _)|[[[H|H] _]|(H & _)]]; try discriminate.
    reflexivity.
  - reflexivity.
  - destruct (Hupd (UnicodeEncodeError "surrogates not allowed") _
                ltac:(vm_compute; reflexivity))
      as [(t & H & _)|(_ & H & _)]; [discriminate|].
    vm_compute in H. vm_compute. exact H.
Defined.

(** X8.  When the first message carrying the id is not the first of its
    session, [find_message_prompt] reads the message before it with
    [["sender"]]: a message without that key makes it raise
    [KeyError('sender')], and a user-sent message without a ["text"] key
    makes it raise [KeyError('text')].  [regenerate] lets either
    exception through and leaves the world as it was. *)
Theorem regenerate_key_errors (E : Env) (data : dict value) (w : World)
    (message_id : string) (before after : Sessions) (sid : string)
    (session : Session) (j : nat) (msg prev : Message) :
  as_truthy (Py.get "message_id" data) = Some message_id ->
  first_occurrence message_id (sessions w) before sid session after (S j)
    msg ->
  nth_error (messages session) j = Some prev ->
  (dict_get "sender" prev = None ->
   SessionManager.find_message_prompt message_id (sessions w)
   = Raise (KeyError "sender")
   /\ regenerate E data w = (Raise (KeyError "sender"), w))
  /\ (dict_get "sender" prev = Some (VStr "user") ->
      dict_get "text" prev = None ->
      SessionManager.find_message_prompt message_id (sessions w)
      = Raise (KeyError "text")
      /\ regenerate E data w = (Raise (KeyError "text"), w)).
Proof.
  intros Hid Hfo Hprev.
  pose proof (find_message_prompt_first _ _ _ _ _ _ _ _ Hfo) as Hfind.
  unfold SessionManager.prompt_at, index in Hfind. rewrite Hprev in Hfind.
  split.
  - intros Hs. rewrite Hs in Hfind. split; [exact Hfind|].
    unfold regenerate, bind. now rewrite Hid, Hfind.
  - intros Hs Ht. rewrite Hs, Ht in Hfind. simpl in Hfind.
    split; [exact Hfind|].
    unfold regenerate, bind. now rewrite Hid, Hfind.
Qed.

Lemma regenerate_key_errors_witness :
  SessionManager.find_message_prompt "22222222"
    [("5f0c2a9e",
      {| title := "t";
         messages := [[("id", VStr "11111111"); ("sender", VStr "user")];
                      boom_message "22222222"] |})]
  = Raise (KeyError "text").
Proof.
  refine (proj1 (proj2 (regenerate_key_errors Example.env
            [("message_id", VStr "22222222")]
            (set_sessions
               [("5f0c2a9e",
                 {| title := "t";
                    messages := [[("id", VStr "11111111");
                                  ("sender", VStr "user")];
                                 boom_message "22222222"] |})]
               Example.empty_world)
            "22222222" [] [] "5f0c2a9e"
            {| title := "t";
               messages := [[("id", VStr "11111111");
                             ("sender", VStr "user")];
                            boom_message "22222222"] |}
            0 (boom_message "22222222")
            [("id", VStr "11111111"); ("sender", VStr "user")]
            eq_refl _ eq_refl) eq_refl eq_refl)).
  repeat split.
Defined.

Lemma add_messages_get_all (sid : string) (msgs : list Message)
    (s : Sessions) :
  SessionManager.get_all (add_messages sid msgs s) = SessionManager.get_all s.
Proof.
  unfold add_messages. revert s.
  induction msgs as [|m msgs IH]; intros s; simpl; [reflexivity|].
  rewrite IH. unfold SessionManager.add_message.
  destruct (dict_get sid s) as [session|] eqn:Hget; [|reflexivity].
  now apply (get_all_dict_set_known sid session).
Qed.

(** X9.  [regenerate] never adds, removes, renames or reorders a
    session.  Unless it reached [save], that is unless it answers with a
    new image or lets the exception of [save] through, it leaves the
    store and the sessions file as they were, also when the capability
    raises. *)
Theorem regenerate_keeps_sessions (E : Env) (data : dict value)
    (w w' : World) (r : Result Response) :
  regenerate E data w = (r, w') ->
  SessionManager.get_all (sessions w') = SessionManager.get_all (sessions w)
  /\ ((forall sid prompt image_url message_id,
         r <> Ok (Regenerated sid prompt image_url message_id)) ->
      (forall e, r = Raise e -> save_raises E <> Some e) ->
      sessions w' = sessions w /\ sessions_file w' = sessions_file w).
Proof.
  intros Hrun.
  destruct (regenerate_outcomes _ _ _ _ _ Hrun)
    as [(c & m & _ & _ & ->)
       |[(e & _ & _ & ->)
        |[(m & p & _ & Hs & Hf & _)
         |[(sid & p & url & mid & ->)
          |(e & sid & p & path & w2 & -> & Hsave & _ & _ & Hgen & ->)]]]];
    try (rewrite ?Hs; now auto).
  - destruct (regenerate_regenerated _ _ _ _ _ _ _ _ Hrun)
      as (mid' & path & w2 & _ & _ & _ & Hgen & _ & _ & ->).
    destruct (generate_frame _ _ _ _ _ Hgen) as (Hs & _ & _).
    split.
    + unfold record_exchange. cbn [sessions].
      now rewrite add_messages_get_all, Hs.
    + intros H. now contradiction (H sid p url mid).
  - destruct (generate_frame _ _ _ _ _ Hgen) as (Hs & _ & _).
    split.
    + unfold record_exchange. cbn [sessions].
      now rewrite add_messages_get_all, Hs.
    + intros _ H. now contradiction (H e eq_refl).
Qed.

(** With failing pipelines, regenerating from the image of the example
    leaves the store and the file of the example. *)
Lemma regenerate_keeps_sessions_witness :
  sessions
    (snd (regenerate Example.failing_env [("message_id", VStr "00000004")]
            Example.cat_world))
  = Example.cat_sessions
  /\ sessions_file
       (snd (regenerate Example.failing_env [("message_id", VStr "00000004")]
               Example.cat_world))
     = Some Example.cat_sessions.
Proof.
  apply (proj2 (regenerate_keeps_sessions Example.failing_env
                  [("message_id", VStr "00000004")] Example.cat_world
                  _ (Ok (ErrorResponse 500
                           "Image generation failed: CUDA out of memory"))
                  ltac:(vm_compute; reflexivity))); discriminate.
Defined.

(* ================================================================== *)
(** ** A sessions file that cannot be written *)
(* ================================================================== *)

Lemma generation_target_file (E : Env) (session_id : value)
    (prompt_new : string) (w w1 : World) (sid prompt : string) :
  generation_target E session_id prompt_new w = (sid, prompt, w1) ->
  sessions_file w1 = sessions_file w.
Proof.
  unfold generation_target.
  destruct (existing_session session_id (sessions w));
    intros [= _ _ <-]; reflexivity.
Qed.

(** Unfolds the write of the file in the two environments compared. *)
Ltac file_env :=
  unfold record_exchange, save_raises, file_after_save;
  cbn [sessions sessions_file fst snd uuid4 sessions_file_write
       sessions_file_failure with_file_failure with_file_write];
  change (exchange (with_file_failure ?f ?E)) with (exchange E);
  change (exchange (with_file_write true ?E)) with (exchange E).

Lemma generate_image_file_failure (E : Env) (f : WriteFailure)
    (data : dict value) (w : World) :
  sessions (snd (generate_image (with_file_failure f E) data w))
  = sessions (snd (generate_image (with_file_write true E) data w))
  /\ ((forall msg, f <> EncodeFails msg) ->
      fst (generate_image (with_file_failure f E) data w)
      = fst (generate_image (with_file_write true E) data w)
      /\ sessions_file (snd (generate_image (with_file_failure f E) data w))
         = if saved (fst (generate_image (with_file_failure f E) data w))
           then match f with OpenFails => sessions_file w | _ => None end
           else sessions_file w).
Proof.
  destruct (value_strip (get_default "prompt" (VStr "") data))
    as [p|e] eqn:Hstrip.
  - destruct (String.eqb_spec p "") as [->|Hp].
    + rewrite !(generate_image_empty _ data w Hstrip). auto.
    + rewrite !(generate_image_run _ data w p Hstrip Hp).
      change (generation_target (with_file_failure f E))
        with (generation_target E).
      change (generation_target (with_file_write true E))
        with (generation_target E).
      destruct (generation_target E (Py.get "session_id" data) p w)
        as [[sid prompt] w1] eqn:Ht.
      change (ImageGenerator.generate (with_file_failure f E))
        with (ImageGenerator.generate E).
      change (ImageGenerator.generate (with_file_write true E))
        with (ImageGenerator.generate E).
      pose proof (generation_target_file _ _ _ _ _ _ _ Ht) as Hf1.
      destruct (ImageGenerator.generate E prompt w1)
        as [[path|e] w2] eqn:Hgen;
        destruct (generate_frame _ _ _ _ _ Hgen) as (_ & Hf & _).
      * file_env. split; [reflexivity|]. intros Hio.
        destruct f as [| |msg]; cbn [saved fst snd];
          [split; [reflexivity|congruence] | split; reflexivity |].
        now contradiction (Hio msg).
      * cbn [fst snd saved]. split; [reflexivity|]. intros _.
        split; [reflexivity|congruence].
  - rewrite !(generate_image_no_strip _ data w e Hstrip). auto.
Qed.

Lemma regenerate_file_failure (E : Env) (f : WriteFailure)
    (data : dict value) (w : World) :
  sessions (snd (regenerate (with_file_failure f E) data w))
  = sessions (snd (regenerate (with_file_write true E) data w))
  /\ ((forall msg, f <> EncodeFails msg) ->
      fst (regenerate (with_file_failure f E) data w)
      = fst (regenerate (with_file_write true E) data w)
      /\ sessions_file (snd (regenerate (with_file_failure f E) data w))
         = if saved (fst (regenerate (with_file_failure f E) data w))
           then match f with OpenFails => sessions_file w | _ => None end
           else sessions_file w).
Proof.
  destruct (as_truthy (Py.get "message_id" data)) as [mid|] eqn:Hid;
    [|unfold regenerate; rewrite Hid; auto].
  destruct (SessionManager.find_message_prompt mid (sessions w))
    as [[[sid pv]|]|e] eqn:Hfind;
    try (unfold regenerate, bind; rewrite Hid, Hfind; now auto).
  destruct (as_truthy pv) as [p|] eqn:Hp;
    [|unfold regenerate, bind; rewrite Hid, Hfind, Hp; now auto].
  rewrite !(regenerate_run _ data w mid sid p pv Hid Hfind Hp).
  change (ImageGenerator.generate (with_file_failure f E))
    with (ImageGenerator.generate E).
  change (ImageGenerator.generate (with_file_write true E))
    with (ImageGenerator.generate E).
  destruct (ImageGenerator.generate E p w) as [[path|e] w2] eqn:Hgen;
    destruct (generate_frame _ _ _ _ _ Hgen) as (_ & Hf & _).
  - file_env. split; [reflexivity|]. intros Hio.
    destruct f as [| |msg]; cbn [saved fst snd];
      [split; [reflexivity|congruence] | split; reflexivity |].
    now contradiction (Hio msg).
  - cbn [fst snd saved]. split; [reflexivity|]. intros _.
    split; [reflexivity|congruence].
Qed.

Lemma update_status_file_failure (E : Env) (f : WriteFailure)
    (data : dict value) (w : World) :
  sessions (snd (update_status (with_file_failure f E) data w))
  = sessions (snd (update_status (with_file_write true E) data w))
  /\ ((forall msg, f <> EncodeFails msg) ->
      fst (update_status (with_file_failure f E) data w)
      = fst (update_status (with_file_write true E) data w)
      /\ sessions_file (snd (update_status (with_file_failure f E) data w))
         = if saved (fst (update_status (with_file_failure f E) data w))
           then match f with OpenFails => sessions_file w | _ => None end
           else sessions_file w).
Proof.
  unfold update_status.
  destruct (as_truthy (Py.get "message_id" data)) as [mid|]; [|auto].
  destruct (as_truthy (Py.get "status" data)) as [status|]; [|auto].
  unfold bind, update, save, ret.
  cbn [sessions_file_write sessions_file_failure with_file_failure
       with_file_write].
  destruct (SessionManager.update_message_status mid status (sessions w))
    as [[|] s']; cbn [fst snd saved]; [|auto].
  split; [now destruct f|]. intros Hio.
  destruct f as [| |msg]; cbn [saved fst snd];
    [split; reflexivity | split; reflexivity |].
  now contradiction (Hio msg).
Qed.

(** X10.  Writing the sessions file is best effort.  However the write
    fails, every [POST] handler leaves the store in memory that it leaves
    when the write goes through.  When the write fails with an [IOError],
    at [open] or inside [json.dump], the handler also gives the same
    answer; the file is as before the request when the handler did not
    reach [save] or [open] failed, and holds no document when
    [json.dump] failed, since [open] had emptied it. *)
Theorem file_write_is_best_effort (E : Env) (f : WriteFailure) (r : Request)
    (w : World) :
  sessions (snd (handle (with_file_failure f E) r w))
  = sessions (snd (handle (with_file_write true E) r w))
  /\ ((forall msg, f <> EncodeFails msg) ->
      fst (handle (with_file_failure f E) r w)
      = fst (handle (with_file_write true E) r w)
      /\ sessions_file (snd (handle (with_file_failure f E) r w))
         = if saved (fst (handle (with_file_failure f E) r w))
           then match f with OpenFails => sessions_file w | _ => None end
           else sessions_file w).
Proof.
  destruct r as [data|data|data]; simpl.
  - apply generate_image_file_failure.
  - apply regenerate_file_failure.
  - apply update_status_file_failure.
Qed.

(** The first request of the example with a dump that fails with an
    [IOError]: the same answer, the same store, the file emptied. *)
Lemma file_write_is_best_effort_witness :
  handle (with_file_failure DumpFails Example.env)
    (PostGenerate [("prompt", VStr "a cat")]) Example.empty_world
  = (Ok (Generated "00000001" "/static/generated/00000002.png" "00000004"),
     set_sessions_file None Example.cat_world).
Proof.
  destruct (file_write_is_best_effort Example.env DumpFails
              (PostGenerate [("prompt", VStr "a cat")]) Example.empty_world)
    as (Hs & Hio).
  destruct (Hio ltac:(discriminate)) as (Hr & Hf).
  destruct (handle (with_file_failure DumpFails Example.env)
              (PostGenerate [("prompt", VStr "a cat")]) Example.empty_world)
    as [res w'] eqn:Hrun.
  cbn [fst snd] in Hr, Hs, Hf.
  vm_compute in Hrun. now injection Hrun as <- <-.
Defined.

(* ================================================================== *)
(** ** The history after an exchange *)
(* ================================================================== *)

Lemma append_assoc (a b c : string) : (a ^^ b) ^^ c = a ^^ b ^^ c.
Proof.
  induction a as [|x a IH]; [reflexivity|].
  change (String x ((a ^^ b) ^^ c) = String x (a ^^ b ^^ c)).
  now rewrite IH.
Qed.

Lemma append_is_empty (a b : string) : a ^^ b = "" -> a = "" /\ b = "".
Proof. destruct a; [auto | discriminate]. Qed.

Lemma user_prompts_app (a b : list Message) :
  SessionManager.user_prompts (a ++ b)
  = SessionManager.user_prompts a ++ SessionManager.user_prompts b.
Proof.
  induction a as [|m a IH]; [reflexivity|].
  cbn [app SessionManager.user_prompts].
  destruct (value_eqb (Py.get "sender" m) (VStr "user")
            && truthy (Py.get "text" m)); [|exact IH].
  destruct (get_default "text" (VStr "") m); [exact IH|].
  cbn [app]. now rewrite IH.
Qed.

Lemma user_prompts_nonempty (msgs : list Message) :
  Forall (fun t => t <> "") (SessionManager.user_prompts msgs).
Proof.
  rewrite user_prompts_filter.
  induction msgs as [|m msgs IH]; [constructor|].
  cbn [filter].
  destruct (user_sent m && negb (String.eqb (text_of m) "")) eqn:Hc;
    [|exact IH].
  cbn [map]. constructor; [|exact IH].
  apply andb_true_iff in Hc as [_ Hc].
  destruct (String.eqb_spec (text_of m) ""); [discriminate | assumption].
Qed.

Lemma join_snoc (sep : string) (items : list string) (x : string) :
  join sep (items ++ [x])
  = match items with
    | [] => x
    | _ => join sep items ^^ sep ^^ x
    end.
Proof.
  induction items as [|a items IH]; [reflexivity|].
  destruct items as [|b items]; [reflexivity|].
  change (a ^^ sep ^^ join sep ((b :: items) ++ [x])
          = (a ^^ sep ^^ join sep (b :: items)) ^^ sep ^^ x).
  rewrite IH. now rewrite !append_assoc.
Qed.

Lemma join_is_empty (sep : string) (items : list string) :
  Forall (fun t => t <> "") items -> join sep items = "" -> items = [].
Proof.
  intros H. destruct H as [|a items Ha Hitems]; [reflexivity|].
  destruct items as [|b items]; simpl; [contradiction|].
  intros Hj. apply append_is_empty in Hj as [-> _]. contradiction.
Qed.

Lemma exchange_user_prompts (E : Env) (text image_url caption : string)
    (w : World) :
  text <> "" ->
  SessionManager.user_prompts (exchange E text image_url caption w) = [text].
Proof.
  intros H. apply nonempty_true in H. unfold nonempty in H.
  unfold exchange, user_message, bot_message, boom_message.
  cbn [SessionManager.user_prompts Py.get get_default dict_get String.eqb
       Ascii.eqb Bool.eqb value_eqb truthy andb].
  now rewrite H.
Qed.

(** Once an exchange around the user text [text] is recorded in a
    session, the history of the session is the cumulative prompt of its
    former history and [text]. *)
Lemma history_after_exchange (E : Env) (sid text image_url caption : string)
    (w : World) (session : Session) :
  dict_get sid (sessions w) = Some session ->
  text <> "" ->
  SessionManager.get_all_prompts sid
    (sessions (record_exchange E sid text image_url caption w))
  = cumulative_prompt (SessionManager.get_all_prompts sid (sessions w)) text.
Proof.
  intros Hget Htext. unfold SessionManager.get_all_prompts.
  rewrite (record_exchange_known _ _ _ _ _ _ _ Hget), Hget.
  cbn [messages]. rewrite user_prompts_app, exchange_user_prompts by exact Htext.
  rewrite join_snoc. unfold cumulative_prompt.
  destruct (SessionManager.user_prompts (messages session)) as [|a l] eqn:Hu;
    [reflexivity|].
  assert (Hne : join ". " (a :: l) <> "").
  { intros Hj. pose proof (user_prompts_nonempty (messages session)) as Hall.
    rewrite Hu in Hall. now apply join_is_empty in Hj. }
  apply nonempty_true in Hne. now rewrite Hne.
Qed.

(** X11.  After a [generate_image] that answers with an image, the
    prompt history of the session of the answer is the very prompt that
    the capability was called with.  After a [regenerate] that answers
    with an image, the replayed prompt has joined the history of its
    session: the history is the former one followed by [". "] and the
    prompt (the prompt alone for a session without history). *)
Theorem history_follows_exchanges (E : Env) (data : dict value)
    (w w' : World) :
  (forall sid image_url message_id,
     generate_image E data w = (Ok (Generated sid image_url message_id), w') ->
     invocations w'
     = invocations w ++ [SessionManager.get_all_prompts sid (sessions w')])
  /\ (forall sid prompt image_url message_id,
        regenerate E data w
        = (Ok (Regenerated sid prompt image_url message_id), w') ->
        SessionManager.get_all_prompts sid (sessions w')
        = cumulative_prompt
            (SessionManager.get_all_prompts sid (sessions w)) prompt).
Proof.
  split.
  - intros sid image_url message_id Hrun.
    destruct (generate_image_generated _ _ _ _ _ _ _ Hrun)
      as (prompt_new & prompt & w1 & image_path & w2
          & _ & Hne & Htarget & Hgen & _ & _ & ->).
    destruct (generate_frame _ _ _ _ _ Hgen) as (Hs & _ & Hi).
    destruct (generation_target_known _ _ _ _ _ _ _ Htarget)
      as [session Hget].
    rewrite <- Hs in Hget.
    rewrite (history_after_exchange _ _ _ _ _ _ _ Hget Hne), Hs.
    rewrite record_exchange_invocations, Hi.
    unfold generation_target in Htarget.
    destruct (existing_session (Py.get "session_id" data) (sessions w))
      as [sid0|].
    + now injection Htarget as <- <- <-.
    + injection Htarget as <- <- <-. cbn [sessions set_sessions].
      unfold SessionManager.get_all_prompts, SessionManager.create.
      cbn [snd]. now rewrite dict_get_set_same.
  - intros sid prompt image_url message_id Hrun.
    destruct (regenerate_regenerated _ _ _ _ _ _ _ _ Hrun)
      as (mid & image_path & w2 & _ & Hfind & Hne & Hgen & _ & _ & ->).
    destruct (generate_frame _ _ _ _ _ Hgen) as (Hs & _ & _).
    destruct (find_message_prompt_session _ _ _ _ Hfind) as [session Hget].
    rewrite <- Hs in Hget.
    now rewrite (history_after_exchange _ _ _ _ _ _ _ Hget Hne), Hs.
Qed.

(** In the example: the second request is generated from, and leaves the
    history, ["a cat. on a mat"]; a regeneration of the first image makes
    the history ["a cat. a cat"]. *)
Lemma history_follows_exchanges_witness :
  SessionManager.get_all_prompts "00000001"
    (sessions
       (snd (generate_image Example.env
               [("prompt", VStr "on a mat"); ("session_id", VStr "00000001")]
               Example.cat_world)))
  = "a cat. on a mat"
  /\ SessionManager.get_all_prompts "00000001"
       (sessions
          (snd (regenerate Example.env [("message_id", VStr "00000004")]
                  Example.cat_world)))
     = "a cat. a cat".
Proof.
  split.
  - destruct (history_follows_exchanges Example.env
                [("prompt", VStr "on a mat"); ("session_id", VStr "00000001")]
                Example.cat_world
                (snd (generate_image Example.env
                        [("prompt", VStr "on a mat");
                         ("session_id", VStr "00000001")]
                        Example.cat_world))) as [H _].
    specialize (H "00000001" "/static/generated/00000006.png" "00000008"
                  ltac:(vm_compute; reflexivity)).
    apply (f_equal (fun l => nth 1 l "")) in H. vm_compute in H.
    vm_compute. exact H.
  - destruct (history_follows_exchanges Example.env
                [("message_id", VStr "00000004")] Example.cat_world
                (snd (regenerate Example.env
                        [("message_id", VStr "00000004")]
                        Example.cat_world))) as [_ H].
    rewrite (H "00000001" "a cat" "/static/generated/00000006.png" "00000008"
               ltac:(vm_compute; reflexivity)).
    vm_compute. reflexivity.
Defined.

(* ================================================================== *)
(** ** Eight hexadecimal digits *)
(* ================================================================== *)

Lemma take_append (n : nat) (a b : string) :
  n <= String.length a -> take n (a ^^ b) = take n a.
Proof.
  revert a; induction n as [|n IH]; intros [|c a] H; simpl in H;
    try reflexivity; try lia.
  change (String c (take n (a ^^ b)) = String c (take n a)).
  rewrite IH; [reflexivity | lia].
Qed.

Lemma take_hex_fixed (w k : nat) (n : N) :
  take w (hex_fixed (w + k) n) = hex_fixed w (n / 16 ^ N.of_nat k)%N.
Proof.
  revert n; induction k as [|k IH]; intros n.
  - rewrite Nat.add_0_r, take_all by (rewrite hex_fixed_length; lia).
    now rewrite N.div_1_r.
  - rewrite Nat.add_succ_r. cbn [hex_fixed].
    rewrite take_append by (rewrite hex_fixed_length; lia).
    rewrite IH, Nat2N.inj_succ, N.pow_succ_r', N.Div0.div_div.
    reflexivity.
Qed.

Lemma append_inj (a a' b b' : string) :
  String.length a = String.length a' ->
  a ^^ b = a' ^^ b' -> a = a' /\ b = b'.
Proof.
  revert a'; induction a as [|c a IH]; intros [|c' a'] Hlen; simpl in Hlen;
    try discriminate; [auto|].
  change (String c (a ^^ b) = String c' (a' ^^ b') ->
          String c a = String c' a' /\ b = b').
  intros [= -> H]. destruct (IH a' ltac:(lia) H) as [-> ->]. auto.
Qed.

Lemma hex_digit_inj (d d' : N) :
  (d < 16)%N -> (d' < 16)%N -> hex_digit d = hex_digit d' -> d = d'.
Proof.
  intros H H'.
  assert (Hd : (d = 0 \/ d = 1 \/ d = 2 \/ d = 3 \/ d = 4 \/ d = 5 \/ d = 6
                \/ d = 7 \/ d = 8 \/ d = 9 \/ d = 10 \/ d = 11 \/ d = 12
                \/ d = 13 \/ d = 14 \/ d = 15)%N) by lia.
  assert (Hd' : (d' = 0 \/ d' = 1 \/ d' = 2 \/ d' = 3 \/ d' = 4 \/ d' = 5
                 \/ d' = 6 \/ d' = 7 \/ d' = 8 \/ d' = 9 \/ d' = 10
                 \/ d' = 11 \/ d' = 12 \/ d' = 13 \/ d' = 14 \/ d' = 15)%N)
    by lia.
  repeat (destruct Hd as [->|Hd]); try subst d;
    repeat (destruct Hd' as [->|Hd']); try subst d';
    (reflexivity || discriminate).
Qed.

Lemma hex_fixed_inj (w : nat) (n m : N) :
  hex_fixed w n = hex_fixed w m <->
  (n mod 16 ^ N.of_nat w = m mod 16 ^ N.of_nat w)%N.
Proof.
  revert n m; induction w as [|w IH]; intros n m.
  - simpl. rewrite !N.mod_1_r. tauto.
  - cbn [hex_fixed]. rewrite Nat2N.inj_succ, N.pow_succ_r'.
    rewrite !N.Div0.mod_mul_r. split.
    + intros H. apply append_inj in H as [H1 H2];
        [|now rewrite !hex_fixed_length].
      apply IH in H1. injection H2 as H2.
      apply hex_digit_inj in H2; try (apply N.mod_lt; discriminate).
      now rewrite H1, H2.
    + intros H.
      assert (H2 : (n mod 16 = m mod 16)%N).
      { apply (f_equal (fun x => x mod 16)%N) in H.
        rewrite !(N.mul_comm 16), !N.Div0.mod_add, !N.Div0.mod_mod in H.
        exact H. }
      assert (H1 : ((n / 16) mod 16 ^ N.of_nat w
                    = (m / 16) mod 16 ^ N.of_nat w)%N) by lia.
      apply IH in H1. now rewrite H1, H2.
Qed.

Lemma hex8_time_low (u : N) : hex8 u = hex_fixed 8 (time_low u).
Proof.
  unfold hex8, uuid_hex, time_low.
  change 32 with (8 + 24). rewrite take_hex_fixed. reflexivity.
Qed.

(** X12.  The id [uuid4().hex[:8]] keeps the first 32 bits of the UUID
    and nothing else: two UUIDs give the same id exactly when they agree
    on those bits. *)
Theorem hex8_collides_on_time_low (u v : N) :
  hex8 u = hex8 v <-> time_low u = time_low v.
Proof.
  rewrite !hex8_time_low, hex_fixed_inj.
  assert (Hb : forall x, (time_low x < 16 ^ N.of_nat 8)%N).
  { intros x. unfold time_low. apply N.Div0.div_lt_upper_bound.
    change (2 ^ 96 * 16 ^ N.of_nat 8)%N with (2 ^ 128)%N.
    apply N.mod_lt. discriminate. }
  now rewrite !N.mod_small by apply Hb.
Qed.

(** Two UUIDs that differ in their last bit only give the same id. *)
Lemma hex8_collides_on_time_low_witness :
  hex8 0x0123456789abcdef0123456789abcdef
  = hex8 0x0123456789abcdef0123456789abcdee.
Proof.
  apply (proj2 (hex8_collides_on_time_low
                  0x0123456789abcdef0123456789abcdef
                  0x0123456789abcdef0123456789abcdee)).
  vm_compute. reflexivity.
Defined.

Lemma time_low_bound (u : N) : (time_low u < 16 ^ N.of_nat 8)%N.
Proof.
  unfold time_low. apply N.Div0.div_lt_upper_bound.
  change (2 ^ 96 * 16 ^ N.of_nat 8)%N with (2 ^ 128)%N.
  apply N.mod_lt. discriminate.
Qed.

Lemma dict_get_fresh {V : Type} (k : string) (d : dict V) :
  (forall k' v, In (k', v) d -> k' <> k) -> dict_get k d = None.
Proof.
  induction d as [|[k' v'] d IH]; intros H; simpl; [reflexivity|].
  destruct (String.eqb_spec k k') as [->|_].
  - now contradiction (H k' v' (or_introl eq_refl)).
  - apply IH. intros k'' v'' Hin. apply (H k'' v''). now right.
Qed.

(** C9, as the code has it.  The id that [create] returns is the first
    eight characters of the hexadecimal form of the UUID it drew: eight
    lower-case hexadecimal digits that spell the first 32 bits of that
    UUID, so that another UUID gives the same id exactly when it has the
    same first 32 bits.  [create] does not look at the keys of the store:
    the id is new to the store when the first 32 bits of the UUID differ
    from those of the UUIDs behind the keys of the store, and the store
    then grows by one session at its end.  In every case the session
    stored under the id has no messages, and its title is the first 30
    characters of the prompt followed by ["..."] when the prompt is
    longer than 30 characters, and the prompt itself otherwise. *)
Theorem create_id_and_title (u : N) (prompt : string) (s : Sessions) :
  let '(sid, s') := SessionManager.create u prompt s in
  sid = hex_fixed 8 (time_low u)
  /\ String.length sid = 8
  /\ all_hex sid = true
  /\ (forall v prompt0 s0,
        fst (SessionManager.create v prompt0 s0) = sid
        <-> time_low v = time_low u)
  /\ (exists t,
        dict_get sid s' = Some {| title := t; messages := [] |}
        /\ (30 < String.length prompt -> t = substring 0 30 prompt ^^ "...")
        /\ (String.length prompt <= 30 -> t = prompt))
  /\ ((forall k session,
         In (k, session) s ->
         exists v, k = hex8 v /\ time_low v <> time_low u) ->
      dict_get sid s = None)
  /\ (dict_get sid s = None ->
      s' = s ++ [(sid, {| title := SessionManager.make_title prompt;
                          messages := [] |})]).
Proof.
  assert (Hiff : forall v, hex8 v = hex8 u <-> time_low v = time_low u).
  { intros v. rewrite !hex8_time_low, hex_fixed_inj.
    now rewrite !N.mod_small by apply time_low_bound. }
  unfold SessionManager.create. cbv zeta.
  split; [apply hex8_time_low|].
  split; [apply hex8_length|].
  split; [apply hex8_all_hex|].
  split; [intros v prompt0 s0; cbn [fst]; apply Hiff|].
  split; [|split].
  - exists (SessionManager.make_title prompt).
    split; [apply dict_get_set_same|].
    split; [apply make_title_long | apply make_title_short].
  - intros Hkeys. apply dict_get_fresh.
    intros k session Hin Hk.
    destruct (Hkeys k session Hin) as (v & -> & Hv).
    now apply Hv, Hiff.
  - apply dict_set_new.
Qed.

(** A sixth UUID of the example, drawn for a long prompt over the store
    of the example: the id is new, and the title is cut. *)
Lemma create_id_and_title_witness :
  SessionManager.create (uuid4 Example.env 5)
    "a very long founding prompt exceeding thirty characters"
    Example.cat_sessions
  = ("00000006",
     Example.cat_sessions
     ++ [("00000006",
          {| title := "a very long founding prompt ex...";
             messages := [] |})])
  /\ SessionManager.make_title "a short prompt" = "a short prompt".
Proof.
  pose proof (create_id_and_title (uuid4 Example.env 5)
                "a very long founding prompt exceeding thirty characters"
                Example.cat_sessions) as H.
  unfold SessionManager.create in H. cbv zeta in H.
  destruct H as (_ & _ & _ & _ & _ & Hfresh & Hnew).
  split; [|reflexivity].
  unfold SessionManager.create. cbv zeta.
  rewrite Hnew; [vm_compute; reflexivity|].
  apply Hfresh. intros k session [Hin|[]].
  injection Hin as Hk _. subst k.
  exists (uuid4 Example.env 0). split; [vm_compute; reflexivity|].
  vm_compute. discriminate.
Defined.

(** [create] can return an id that is already a key of the store.  A
    store holds a session under the id drawn from one UUID; a second
    UUID, different from the first, has the same first 32 bits: [create]
    returns the same id and puts the new, empty session in the place of
    the old one. *)
Lemma create_reuses_an_id :
  (0x0123456789ab4def8123456789abcdef <> 0x0123456789ab4def8123456789abcdee)%N
  /\ fst (SessionManager.create 0x0123456789ab4def8123456789abcdef "a cat" [])
     = "01234567"
  /\ dict_get "01234567"
       [("01234567", {| title := "a cat"; messages := [Example.cat_user] |})]
     = Some {| title := "a cat"; messages := [Example.cat_user] |}
  /\ SessionManager.create 0x0123456789ab4def8123456789abcdee "a dog"
       [("01234567", {| title := "a cat"; messages := [Example.cat_user] |})]
     = ("01234567", [("01234567", {| title := "a dog"; messages := [] |})]).
Proof.
  split; [discriminate|].
  split; [vm_compute; reflexivity|].
  split; vm_compute; reflexivity.
Qed.

Lemma generate_path (E : Env) (prompt : string) (w w' : World)
    (image_path : string) :
  ImageGenerator.generate E prompt w = (Ok image_path, w') ->
  image_path = "generated/" ^^ hex8 (uuid4 E (uuid_calls w)) ^^ ".png"
  /\ uuid_calls w' = S (uuid_calls w).
Proof.
  unfold ImageGenerator.generate, bind, external, fresh_hex8, uuid4_call,
    lift, ret.
  simpl. destruct (pipelines E prompt); simpl; [discriminate|].
  destruct (image_save E _); simpl; [discriminate|].
  intros [= <- <-]. auto.
Qed.

(** X13.  Every answer with an image, of [generate_image] and of
    [regenerate], carries a message id of eight lower-case hexadecimal
    digits and an image reference of the form
    [/static/generated/<eight such digits>.png], the form of the paths
    that [serve_generated] is routed on. *)
Theorem image_answers_are_well_formed (E : Env) (data : dict value)
    (w w' : World) (sid image_url message_id : string) :
  generate_image E data w = (Ok (Generated sid image_url message_id), w')
  \/ (exists prompt,
        regenerate E data w
        = (Ok (Regenerated sid prompt image_url message_id), w')) ->
  String.length message_id = 8
  /\ all_hex message_id = true
  /\ exists name,
       String.length name = 8
       /\ all_hex name = true
       /\ image_url = "/static/generated/" ^^ name ^^ ".png".
Proof.
  intros [Hrun|[prompt Hrun]].
  - destruct (generate_image_generated _ _ _ _ _ _ _ Hrun)
      as (prompt_new & prompt & w1 & image_path & w2
          & _ & _ & _ & Hgen & -> & -> & _).
    destruct (generate_path _ _ _ _ _ Hgen) as [-> _].
    split; [apply hex8_length|]. split; [apply hex8_all_hex|].
    eexists. split; [apply hex8_length|]. split; [apply hex8_all_hex|].
    reflexivity.
  - destruct (regenerate_regenerated _ _ _ _ _ _ _ _ Hrun)
      as (mid & image_path & w2 & _ & _ & _ & Hgen & -> & -> & _).
    destruct (generate_path _ _ _ _ _ Hgen) as [-> _].
    split; [apply hex8_length|]. split; [apply hex8_all_hex|].
    eexists. split; [apply hex8_length|]. split; [apply hex8_all_hex|].
    reflexivity.
Qed.

Lemma image_answers_are_well_formed_witness :
  String.length "00000004" = 8
  /\ all_hex "00000004" = true
  /\ exists name,
       String.length name = 8
       /\ all_hex name = true
       /\ "/static/generated/00000002.png"
          = "/static/generated/" ^^ name ^^ ".png".
Proof.
  apply (image_answers_are_well_formed Example.env [("prompt", VStr "a cat")]
           Example.empty_world Example.cat_world "00000001").
  left. vm_compute. reflexivity.
Defined.

(* ================================================================== *)
(** ** Invariants of the store *)
(* ================================================================== *)

Lemma dict_set_same {V : Type} (k : string) (v : V) (d : dict V) :
  dict_get k d = Some v -> dict_set k v d = d.
Proof.
  induction d as [|[k' v'] d IH]; simpl; [discriminate|].
  destruct (String.eqb k k').
  - now intros [= ->].
  - intros H. now rewrite IH.
Qed.

Lemma add_messages_dict_set (sid : string) (msgs : list Message)
    (s : Sessions) (session : Session) :
  dict_get sid s = Some session ->
  add_messages sid msgs s
  = dict_set sid {| title := title session;
                    messages := messages session ++ msgs |} s.
Proof.
  unfold add_messages. revert s session.
  induction msgs as [|m msgs IH]; intros s session H; simpl.
  - rewrite app_nil_r. symmetry. apply dict_set_same. now destruct session.
  - rewrite (IH _ _ (add_message_known _ m _ _ H)). simpl.
    unfold SessionManager.add_message. rewrite H.
    now rewrite dict_set_twice, <- app_assoc.
Qed.

Lemma caption_nonempty (prompt : string) :
  "Image is generated from prompt:" ^^ newline ^^ prompt <> "".
Proof. intros H. apply append_is_empty in H as [H _]. discriminate. Qed.

(** Every run of a handler changes the store by steps of [store_step]. *)
Lemma handle_store_step (E : Env) (r : Request) (w w' : World)
    (res : Result Response) :
  handle E r w = (res, w') -> store_step (sessions w) (sessions w').
Proof.
  destruct r as [data|data|data]; simpl.
  - destruct (value_strip (get_default "prompt" (VStr "") data))
      as [p|e] eqn:Hstrip.
    + destruct (String.eqb_spec p "") as [->|Hp].
      * rewrite (generate_image_empty E data w Hstrip).
        intros [= _ <-]. constructor.
      * rewrite (generate_image_run E data w p Hstrip Hp).
        destruct (generation_target E (Py.get "session_id" data) p w)
          as [[sid prompt] w1] eqn:Ht.
        assert (H1 : store_step (sessions w) (sessions w1)).
        { unfold generation_target in Ht.
          destruct (existing_session (Py.get "session_id" data) (sessions w));
            injection Ht as <- <- <-; constructor. }
        destruct (generation_target_known _ _ _ _ _ _ _ Ht)
          as [session Hget].
        destruct (ImageGenerator.generate E prompt w1)
          as [[path|e] w2] eqn:Hgen;
          destruct (generate_frame _ _ _ _ _ Hgen) as (Hs & _ & _);
          intros [= _ <-].
        -- apply (step_trans _ _ _ H1). rewrite <- Hs.
           unfold record_exchange, exchange. cbn [sessions].
           rewrite <- Hs in Hget.
           apply (step_exchange _ _ _ _ _ _ _ _ _ Hget Hp).
           apply caption_nonempty.
        -- now rewrite Hs.
    + rewrite (generate_image_no_strip E data w e Hstrip).
      intros [= _ <-]. constructor.
  - intros Hrun.
    destruct (regenerate_outcomes _ _ _ _ _ Hrun)
      as [(c & m & _ & _ & ->)
         |[(e & _ & _ & ->)
          |[(m & p & _ & Hs & _)
           |[(sid & p & url & mid & ->)
            |(e & sid & p & path & w2 & _ & _ & Hne & (session & Hget)
              & Hgen & ->)]]]];
      try (rewrite ?Hs; now constructor).
    + destruct (regenerate_regenerated _ _ _ _ _ _ _ _ Hrun)
        as (mid' & path & w2 & _ & Hfind & Hne & Hgen & _ & _ & ->).
      destruct (generate_frame _ _ _ _ _ Hgen) as (Hs & _ & _).
      destruct (find_message_prompt_session _ _ _ _ Hfind) as [session Hget].
      rewrite <- Hs in *. unfold record_exchange, exchange. cbn [sessions].
      now apply (step_exchange _ _ _ _ _ _ _ _ _ Hget Hne).
    + destruct (generate_frame _ _ _ _ _ Hgen) as (Hs & _ & _).
      rewrite <- Hs in *. unfold record_exchange, exchange. cbn [sessions].
      now apply (step_exchange _ _ _ _ _ _ _ _ _ Hget Hne).
  - unfold update_status.
    destruct (as_truthy (Py.get "message_id" data)) as [mid|];
      [|intros [= _ <-]; constructor].
    destruct (as_truthy (Py.get "status" data)) as [status|];
      [|intros [= _ <-]; constructor].
    unfold bind, update.
    pose proof (step_status mid status (sessions w)) as Hstep.
    destruct (SessionManager.update_message_status mid status (sessions w))
      as [[|] s']; cbn [snd] in Hstep.
    + unfold save, ret. destruct (sessions_file_write E);
        [intros [= _ <-]; exact Hstep|].
      destruct (sessions_file_failure E); intros [= _ <-]; exact Hstep.
    + unfold ret. intros [= _ <-]. exact Hstep.
Qed.

Lemma forallb_dict_set (Q : Session -> bool) (k : string) (v : Session)
    (s : Sessions) :
  forallb (fun kv => Q (snd kv)) s = true ->
  Q v = true ->
  forallb (fun kv => Q (snd kv)) (dict_set k v s) = true.
Proof.
  intros Hs Hv. induction s as [|[k' v'] s IH]; simpl in *.
  - now rewrite Hv.
  - apply andb_true_iff in Hs as [H1 H2].
    destruct (String.eqb k k'); simpl.
    + now rewrite Hv, H2.
    + now rewrite H1, IH.
Qed.

Lemma forallb_dict_get (Q : Session -> bool) (k : string) (v : Session)
    (s : Sessions) :
  forallb (fun kv => Q (snd kv)) s = true ->
  dict_get k s = Some v ->
  Q v = true.
Proof.
  intros Hs. induction s as [|[k' v'] s IH]; simpl in *; [discriminate|].
  apply andb_true_iff in Hs as [H1 H2].
  destruct (String.eqb k k'); [now intros [= <-] | now apply IH].
Qed.

Lemma forallb_same_store (Q : list Message -> bool) (s s' : Sessions) :
  (forall a b, Forall2 same_reads a b -> Q a = Q b) ->
  same_store s s' ->
  forallb (fun kv => Q (messages (snd kv))) s
  = forallb (fun kv => Q (messages (snd kv))) s'.
Proof.
  intros HQ H. induction H as [|kv kv' r r' (_ & _ & Hm) Hr IH]; simpl;
    [reflexivity|].
  now rewrite (HQ _ _ Hm), IH.
Qed.

(** A property of message lists that holds of the empty list, survives a
    new exchange at the end and does not look at statuses holds of every
    session after every step of the store. *)
Lemma store_step_invariant (Q : list Message -> bool) (s s' : Sessions) :
  Q [] = true ->
  (forall old user_id bot_id boom_id text image_url caption,
     Q old = true -> text <> "" -> caption <> "" ->
     Q (old ++ [user_message user_id text;
                bot_message bot_id image_url caption;
                boom_message boom_id]) = true) ->
  (forall a b, Forall2 same_reads a b -> Q a = Q b) ->
  store_step s s' ->
  forallb (fun kv => Q (messages (snd kv))) s = true ->
  forallb (fun kv => Q (messages (snd kv))) s' = true.
Proof.
  intros Hnil Hex Hsame Hstep.
  induction Hstep as [s|u p s|sid uid bid cid text url cap s session Hget Ht Hc
                     |mid status s|a b c _ IH1 _ IH2]; intros H.
  - exact H.
  - unfold SessionManager.create. cbn [snd].
    now apply (forallb_dict_set (fun x => Q (messages x))).
  - rewrite (add_messages_dict_set _ _ _ _ Hget).
    apply (forallb_dict_set (fun x => Q (messages x))); [exact H|].
    cbn [messages]. apply Hex; auto.
    exact (forallb_dict_get (fun x => Q (messages x)) _ _ _ H Hget).
  - unfold SessionManager.update_message_status.
    destruct (SessionManager.update_in_sessions mid status s) as [s'|] eqn:Hu;
      cbn [snd]; [|exact H].
    now rewrite <- (forallb_same_store Q s s' Hsame
                      (update_in_sessions_same _ _ _ _ Hu)).
  - auto.
Qed.

Lemma serve_store_step (E : Env) (requests : list Request) (w : World) :
  store_step (sessions w) (sessions (serve E requests w)).
Proof.
  revert w; induction requests as [|r rest IH]; intros w; simpl.
  - constructor.
  - destruct (handle E r w) as [res w1] eqn:Hrun. cbn [snd].
    exact (step_trans _ _ _ (handle_store_step _ _ _ _ _ Hrun) (IH w1)).
Qed.

Lemma readable_same (a b : list Message) :
  Forall2 same_reads a b ->
  forallb (fun m => has_sender m && has_text m) a
  = forallb (fun m => has_sender m && has_text m) b.
Proof.
  intros H. induction H as [|m m' r r' (_ & Hs & Ht & _) Hr IH]; simpl;
    [reflexivity|].
  rewrite IH. unfold has_sender, has_text. now rewrite Hs, Ht.
Qed.

Lemma readable_exchange (old : list Message)
    (user_id bot_id boom_id text image_url caption : string) :
  forallb (fun m => has_sender m && has_text m) old = true ->
  text <> "" -> caption <> "" ->
  forallb (fun m => has_sender m && has_text m)
    (old ++ [user_message user_id text; bot_message bot_id image_url caption;
             boom_message boom_id]) = true.
Proof.
  intros Hold Ht Hc. apply nonempty_true in Ht, Hc.
  rewrite forallb_app, Hold. unfold has_sender, has_text.
  cbn [forallb user_message bot_message boom_message dict_get String.eqb
       Ascii.eqb Bool.eqb andb].
  now rewrite Ht, Hc.
Qed.

Lemma readable_nth (msgs : list Message) (i : nat) (msg : Message) :
  forallb (fun m => has_sender m && has_text m) msgs = true ->
  nth_error msgs i = Some msg ->
  (exists sender, dict_get "sender" msg = Some sender)
  /\ (exists t, dict_get "text" msg = Some (VStr t) /\ t <> "").
Proof.
  intros Hall Hn. apply nth_error_In in Hn.
  rewrite forallb_forall in Hall. specialize (Hall _ Hn).
  apply andb_true_iff in Hall as [Hs Ht].
  unfold has_sender in Hs. unfold has_text in Ht. split.
  - destruct (dict_get "sender" msg); [eauto | discriminate].
  - destruct (dict_get "text" msg) as [[|t]|]; try discriminate.
    exists t. split; [reflexivity | now apply nonempty_true].
Qed.

(** In a store whose messages all have a sender and a non-empty text,
    [find_message_prompt] does not raise, and what it finds is a
    non-empty string. *)
Lemma find_message_prompt_readable (message_id : string) (s : Sessions) :
  store_readable s = true ->
  (sessions_mention message_id s = false
   /\ SessionManager.find_message_prompt message_id s = Ok None)
  \/ (sessions_mention message_id s = true
      /\ exists sid t,
           SessionManager.find_message_prompt message_id s
           = Ok (Some (sid, VStr t))
           /\ t <> "").
Proof.
  intros Hs.
  destruct (sessions_mention message_id s) eqn:Hm;
    [right | left; split; [reflexivity | now apply find_message_prompt_none]].
  split; [reflexivity|].
  destruct (first_occurrence_exists _ _ Hm)
    as (before & sid & session & after & i & msg & Hfo).
  rewrite (find_message_prompt_first _ _ _ _ _ _ _ _ Hfo).
  destruct Hfo as (-> & _ & Hn & _ & _).
  unfold store_readable in Hs. rewrite forallb_app in Hs.
  apply andb_true_iff in Hs as [_ Hs]. cbn [forallb snd] in Hs.
  apply andb_true_iff in Hs as [Hs _].
  destruct (readable_nth _ _ _ Hs Hn) as [_ (t & Ht & Hne)].
  unfold SessionManager.prompt_at.
  destruct i as [|j].
  - exists sid, t. unfold get_default. now rewrite Ht.
  - destruct (nth_error (messages session) j) as [prev|] eqn:Hp.
    + destruct (readable_nth _ _ _ Hs Hp) as [(sender & Hsender) (t' & Ht' & Hne')].
      unfold index. rewrite Hsender, Ht'.
      destruct (value_eqb sender (VStr "user")).
      * now exists sid, t'.
      * exists sid, t. unfold get_default. now rewrite Ht.
    + apply nth_error_None in Hp.
      assert (S j < length (messages session))
        by (apply nth_error_Some; congruence).
      lia.
Qed.

Lemma regenerate_raise (E : Env) (data : dict value) (w w' : World) (e : exn) :
  regenerate E data w = (Raise e, w') ->
  (exists message_id,
     SessionManager.find_message_prompt message_id (sessions w) = Raise e)
  \/ save_raises E = Some e.
Proof.
  destruct (as_truthy (Py.get "message_id" data)) as [mid|] eqn:Hid;
    [|unfold regenerate; rewrite Hid; discriminate].
  destruct (SessionManager.find_message_prompt mid (sessions w))
    as [[[sid pv]|]|e'] eqn:Hfind.
  - destruct (as_truthy pv) as [p|] eqn:Hp.
    + rewrite (regenerate_run E data w mid sid p pv Hid Hfind Hp).
      destruct (ImageGenerator.generate E p w) as [[path|e'] w2];
        [|discriminate].
      destruct (save_raises E) as [e'|]; [|discriminate].
      intros [= <- _]. now right.
    + unfold regenerate, bind. rewrite Hid, Hfind, Hp. discriminate.
  - unfold regenerate, bind. rewrite Hid, Hfind. discriminate.
  - unfold regenerate, bind. rewrite Hid, Hfind.
    intros [= <- _]. left. now exists mid.
Qed.

Lemma handle_raises_readable (E : Env) (r : Request) (w w' : World)
    (e : exn) :
  store_readable (sessions w) = true ->
  handle E r w = (Raise e, w') ->
  save_raises E = Some e.
Proof.
  intros Hs Hrun.
  destruct r as [data|data|data]; simpl in Hrun.
  - destruct (generate_image_outcomes _ _ _ _ _ Hrun)
      as [[Hr _]|[(m & Hr)|(sid & url & mid & Hr)]]; discriminate.
  - destruct (regenerate_raise _ _ _ _ _ Hrun) as [[mid Hfind]|H];
      [|exact H].
    destruct (find_message_prompt_readable mid _ Hs)
      as [[_ H]|[_ (sid & t & H & _)]]; congruence.
  - now apply (update_status_raise E data w w').
Qed.

(** X14.  Call a store readable when every message has a ["sender"] and a
    text that is a non-empty string.  The handlers keep a readable store
    readable, whatever the requests, given as JSON objects.  On a
    readable store [find_message_prompt] never raises, so that the only
    exception that leaves a handler given a JSON object is the one that
    [save] lets through; and [regenerate] on the id of any message of
    the store finds a non-empty prompt and calls the capability with it:
    it answers neither 404 nor "No valid prompt found". *)
Theorem readable_store_is_kept (E : Env) (requests : list Request)
    (w : World) :
  store_readable (sessions w) = true ->
  let w' := serve E requests w in
  store_readable (sessions w') = true
  /\ (forall message_id,
        exists found,
          SessionManager.find_message_prompt message_id (sessions w')
          = Ok found)
  /\ (forall r e w'',
        handle E r w' = (Raise e, w'') -> save_raises E = Some e)
  /\ (forall data message_id,
        as_truthy (Py.get "message_id" data) = Some message_id ->
        sessions_mention message_id (sessions w') = true ->
        exists prompt,
          prompt <> ""
          /\ invocations (snd (regenerate E data w'))
             = invocations w' ++ [prompt]).
Proof.
  intros Hs w'.
  assert (Hs' : store_readable (sessions w') = true).
  { apply (store_step_invariant
             (fun msgs => forallb (fun m => has_sender m && has_text m) msgs)
             (sessions w)).
    - reflexivity.
    - intros. now apply readable_exchange.
    - apply readable_same.
    - apply serve_store_step.
    - exact Hs. }
  split; [exact Hs'|]. split; [|split].
  - intros mid.
    destruct (find_message_prompt_readable mid _ Hs')
      as [[_ H]|[_ (sid & t & H & _)]]; eauto.
  - intros r e w''. now apply handle_raises_readable.
  - intros data mid Hid Hm.
    destruct (find_message_prompt_readable mid _ Hs')
      as [[Hm' _]|[_ (sid & t & Hfind & Hne)]]; [congruence|].
    exists t. split; [exact Hne|].
    rewrite (regenerate_run E data w' mid sid t (VStr t) Hid Hfind)
      by (apply as_truthy_some; auto).
    destruct (ImageGenerator.generate E t w') as [[path|e] w2] eqn:Hgen;
      destruct (generate_frame _ _ _ _ _ Hgen) as (_ & _ & Hi);
      cbn [snd]; [rewrite record_exchange_invocations|]; exact Hi.
Qed.

(** From the empty store, after the first request of the example:
    regenerating from the acknowledgement message calls the capability
    with the text of that message. *)
Lemma readable_store_is_kept_witness :
  store_readable
    (sessions (serve Example.env [PostGenerate [("prompt", VStr "a cat")]]
                 Example.empty_world)) = true
  /\ exists prompt,
       prompt <> ""
       /\ invocations
            (snd (regenerate Example.env [("message_id", VStr "00000005")]
                    (serve Example.env
                       [PostGenerate [("prompt", VStr "a cat")]]
                       Example.empty_world)))
          = invocations
              (serve Example.env [PostGenerate [("prompt", VStr "a cat")]]
                 Example.empty_world)
            ++ [prompt].
Proof.
  destruct (readable_store_is_kept Example.env
              [PostGenerate [("prompt", VStr "a cat")]] Example.empty_world
              eq_refl) as (H1 & _ & _ & H3).
  split; [exact H1|].
  apply (H3 [("message_id", VStr "00000005")] "00000005");
    vm_compute; reflexivity.
Defined.

Lemma in_exchanges_app_le (n : nat) (a b : list Message) :
  length a <= n ->
  in_exchanges a = true -> in_exchanges (a ++ b) = in_exchanges b.
Proof.
  revert a; induction n as [|n IH]; intros a Hlen.
  - destruct a; [reflexivity | simpl in Hlen; lia].
  - destruct a as [|u [|x [|c rest]]]; try discriminate; [reflexivity|].
    cbn [in_exchanges app]. intros H.
    apply andb_true_iff in H as [-> H]. cbn [andb].
    apply IH; [simpl in Hlen; lia | exact H].
Qed.

Lemma same_reads_shapes (a b : Message) :
  same_reads a b ->
  user_sent a = user_sent b /\ has_text a = has_text b
  /\ has_image a = has_image b.
Proof.
  intros (_ & Hs & Ht & Hi). unfold user_sent, has_text, has_image.
  now rewrite Hs, Ht, Hi.
Qed.

Lemma in_exchanges_same_le (n : nat) (a b : list Message) :
  length a <= n ->
  Forall2 same_reads a b -> in_exchanges a = in_exchanges b.
Proof.
  revert a b; induction n as [|n IH]; intros a b Hlen H.
  - destruct H; [reflexivity | simpl in Hlen; lia].
  - destruct H as [|u u' ? ? Hu H]; [reflexivity|].
    destruct H as [|x x' ? ? Hx H]; [reflexivity|].
    destruct H as [|c c' rest rest' Hc H]; [reflexivity|].
    cbn [in_exchanges]. unfold is_exchange.
    destruct (same_reads_shapes _ _ Hu) as (-> & -> & ->).
    destruct (same_reads_shapes _ _ Hx) as (-> & _ & ->).
    destruct (same_reads_shapes _ _ Hc) as (-> & _ & ->).
    rewrite (IH rest rest'); [reflexivity | simpl in Hlen; lia | exact H].
Qed.

Lemma in_exchanges_exchange (old : list Message)
    (user_id bot_id boom_id text image_url caption : string) :
  in_exchanges old = true ->
  text <> "" -> caption <> "" ->
  in_exchanges
    (old ++ [user_message user_id text; bot_message bot_id image_url caption;
             boom_message boom_id]) = true.
Proof.
  intros Hold Ht _. apply nonempty_true in Ht.
  rewrite (in_exchanges_app_le (length old)) by auto.
  unfold in_exchanges, is_exchange, user_sent, has_text, has_image.
  cbn [user_message bot_message boom_message dict_get String.eqb
       Ascii.eqb Bool.eqb andb negb].
  now rewrite Ht.
Qed.

Lemma exchanges_image_le (n : nat) (msgs : list Message) (i : nat)
    (b : Message) :
  length msgs <= n ->
  in_exchanges msgs = true ->
  nth_error msgs i = Some b ->
  has_image b = true ->
  exists j u,
    i = S j /\ nth_error msgs j = Some u
    /\ user_sent u = true /\ has_text u = true.
Proof.
  revert msgs i; induction n as [|n IH]; intros msgs i Hlen.
  - destruct msgs; [destruct i; discriminate | simpl in Hlen; lia].
  - destruct msgs as [|u [|x [|c rest]]]; try discriminate;
      [destruct i; discriminate|].
    cbn [in_exchanges]. intros H Hn Hb.
    apply andb_true_iff in H as [Hex Hrest]. unfold is_exchange in Hex.
    repeat (apply andb_true_iff in Hex as [Hex ?]).
    destruct i as [|[|[|i]]]; cbn [nth_error] in Hn.
    + injection Hn as <-. rewrite Hb in *. discriminate.
    + exists 0, u. auto.
    + injection Hn as <-. rewrite Hb in *. discriminate.
    + destruct (IH rest i ltac:(simpl in Hlen; lia) Hrest Hn Hb)
        as (j & u' & -> & Hj & Hu).
      exists (S (S (S j))), u'. auto.
Qed.

(** X15.  Call a session in exchanges when its messages are, three by
    three, a user message with a non-empty text, a message with an image
    and a message without.  The handlers keep every session of the store
    in exchanges, whatever the requests; so every message with an image
    comes right after a user message of its session that has a non-empty
    text. *)
Theorem exchanges_are_kept (E : Env) (requests : list Request) (w : World) :
  store_in_exchanges (sessions w) = true ->
  let w' := serve E requests w in
  store_in_exchanges (sessions w') = true
  /\ (forall sid session i b,
        dict_get sid (sessions w') = Some session ->
        nth_error (messages session) i = Some b ->
        has_image b = true ->
        exists j u,
          i = S j /\ nth_error (messages session) j = Some u
          /\ user_sent u = true /\ has_text u = true).
Proof.
  intros Hs w'.
  assert (Hs' : store_in_exchanges (sessions w') = true).
  { apply (store_step_invariant in_exchanges (sessions w)).
    - reflexivity.
    - intros. now apply in_exchanges_exchange.
    - intros a b. now apply (in_exchanges_same_le (length a)).
    - apply serve_store_step.
    - exact Hs. }
  split; [exact Hs'|].
  intros sid session i b Hget Hn Hb.
  apply (exchanges_image_le (length (messages session)) _ i b); auto.
  exact (forallb_dict_get (fun x => in_exchanges (messages x)) _ _ _ Hs' Hget).
Qed.

(** From the empty store, after the first request of the example and a
    regeneration: the image of the regeneration, at index 4, comes after
    a user message. *)
Lemma exchanges_are_kept_witness :
  exists j u,
    4 = S j
    /\ nth_error
         (messages_of "00000001"
            (sessions
               (serve Example.env
                  [PostGenerate [("prompt", VStr "a cat")];
                   PostRegenerate [("message_id", VStr "00000004")]]
                  Example.empty_world))) j = Some u
    /\ user_sent u = true /\ has_text u = true.
Proof.
  destruct (exchanges_are_kept Example.env
              [PostGenerate [("prompt", VStr "a cat")];
               PostRegenerate [("message_id", VStr "00000004")]]
              Example.empty_world eq_refl) as [_ H].
  destruct (dict_get "00000001"
              (sessions
                 (serve Example.env
                    [PostGenerate [("prompt", VStr "a cat")];
                     PostRegenerate [("message_id", VStr "00000004")]]
                    Example.empty_world))) as [session|] eqn:Hget;
    [|vm_compute in Hget; discriminate].
  unfold messages_of. rewrite Hget.
  apply (H "00000001" session 4
           (bot_message "00000008" "/static/generated/00000006.png" "a cat")
           Hget); [|reflexivity].
  vm_compute in Hget. injection Hget as <-. reflexivity.
Defined.

(* ================================================================== *)
(** ** Message ids *)
(* ================================================================== *)

Lemma value_eqb_eq (a b : value) : value_eqb a b = true <-> a = b.
Proof.
  destruct a as [|x], b as [|y]; simpl; split; try discriminate;
    try reflexivity.
  - intros H. apply String.eqb_eq in H. now subst.
  - intros [= ->]. apply String.eqb_refl.
Qed.

Lemma VStr_inj (a b : string) : VStr a = VStr b -> a = b.
Proof. now intros [= ->]. Qed.

Lemma distinct_strings_NoDup (l : list string) :
  distinct_strings l = true -> NoDup l.
Proof.
  induction l as [|x l IH]; simpl; [constructor|].
  intros H. apply andb_true_iff in H as [Hx Hl].
  constructor; [|now apply IH].
  intros Hin. apply negb_true_iff in Hx.
  assert (existsb (String.eqb x) l = true)
    by (apply existsb_exists; exists x; split;
        [assumption | apply String.eqb_refl]).
  congruence.
Qed.

Lemma distinct_draws_inj (E : Env) (n i j : nat) :
  distinct_draws E n -> i < n -> j < n ->
  hex8 (uuid4 E i) = hex8 (uuid4 E j) -> i = j.
Proof.
  intros Hd Hi Hj Heq. unfold distinct_draws in Hd.
  rewrite NoDup_nth_error in Hd.
  apply Hd; [now rewrite length_map, length_seq|].
  rewrite !nth_error_map, !nth_error_seq.
  destruct (Nat.ltb_spec i n); [|lia].
  destruct (Nat.ltb_spec j n); [|lia].
  simpl. now rewrite Heq.
Qed.

Lemma message_ids_same_store (s s' : Sessions) :
  same_store s s' -> message_ids s = message_ids s'.
Proof.
  intros H. unfold message_ids.
  induction H as [|kv kv' r r' (_ & _ & Hm) Hr IH]; simpl; [reflexivity|].
  rewrite IH. f_equal.
  induction Hm as [|m m' l l' (Hid & _) Hl IHm]; simpl; [reflexivity|].
  unfold Py.get at 1 3. now rewrite Hid, IHm.
Qed.

Lemma message_ids_dict_set_known (k : string) (old : Session) (s : Sessions) :
  dict_get k s = Some old ->
  exists a b,
    message_ids s = a ++ map (Py.get "id") (messages old) ++ b
    /\ forall v,
         message_ids (dict_set k v s)
         = a ++ map (Py.get "id") (messages v) ++ b.
Proof.
  induction s as [|[k' v'] s IH]; simpl; [discriminate|].
  destruct (String.eqb k k') eqn:Hk.
  - intros [= ->]. exists [], (message_ids s). split; [reflexivity|].
    intros v. reflexivity.
  - intros H. destruct (IH H) as (a & b & Ha & Hb).
    exists (map (Py.get "id") (messages v') ++ a), b.
    unfold message_ids in *. simpl. split.
    + now rewrite Ha, <- app_assoc.
    + intros v. now rewrite Hb, <- app_assoc.
Qed.

Lemma message_ids_create (u : N) (prompt : string) (s : Sessions) :
  NoDup (message_ids s) ->
  NoDup (message_ids (snd (SessionManager.create u prompt s)))
  /\ incl (message_ids (snd (SessionManager.create u prompt s)))
       (message_ids s).
Proof.
  intros Hnd. unfold SessionManager.create. cbn [snd].
  destruct (dict_get (hex8 u) s) as [old|] eqn:Hget.
  - destruct (message_ids_dict_set_known _ _ _ Hget) as (a & b & Ha & Hb).
    rewrite Hb, Ha in *. cbn [messages map app]. split.
    + apply NoDup_app_remove_l in Hnd as Hr.
      apply NoDup_app_remove_l in Hr.
      apply NoDup_app_remove_r in Hnd as Hl.
      apply NoDup_app; auto.
      intros x Hx Hx'. rewrite app_assoc in Hnd.
      revert x Hx Hx'. clear -Hnd.
      induction a as [|y a IH]; intros x Hx Hx'; [contradiction|].
      simpl in Hnd. inversion Hnd as [|? ? Hy Hnd']; subst.
      destruct Hx as [->|Hx].
      * apply Hy. rewrite !in_app_iff. auto.
      * now apply (IH Hnd' x).
    + intros x Hx. rewrite !in_app_iff in *. tauto.
  - rewrite (dict_set_new _ _ _ Hget). unfold message_ids.
    rewrite flat_map_app. simpl. rewrite app_nil_r.
    split; [exact Hnd | apply incl_refl].
Qed.

Lemma ids_drawn_weaken (E : Env) (w w' : World) :
  NoDup (message_ids (sessions w')) ->
  incl (message_ids (sessions w')) (message_ids (sessions w)) ->
  uuid_calls w <= uuid_calls w' ->
  ids_drawn E w -> ids_drawn E w'.
Proof.
  intros Hnd Hincl Hle [_ Hb]. split; [exact Hnd|].
  intros v Hv. destruct (Hb v (Hincl v Hv)) as (k & Hk & ->).
  exists k. split; [lia | reflexivity].
Qed.

Lemma generate_uuid_calls (E : Env) (prompt : string) (w w' : World)
    (r : Result string) :
  ImageGenerator.generate E prompt w = (r, w') ->
  uuid_calls w <= uuid_calls w'.
Proof.
  unfold ImageGenerator.generate, bind, external, fresh_hex8, uuid4_call,
    lift, ret.
  simpl. destruct (pipelines E prompt); simpl.
  - intros [= _ <-]. simpl. lia.
  - destruct (image_save E _); simpl; intros [= _ <-]; simpl; lia.
Qed.

Lemma exchange_ids (E : Env) (text image_url caption : string) (w : World) :
  map (Py.get "id") (exchange E text image_url caption w)
  = [VStr (hex8 (uuid4 E (uuid_calls w)));
     VStr (hex8 (uuid4 E (S (uuid_calls w))));
     VStr (hex8 (uuid4 E (S (S (uuid_calls w)))))].
Proof. reflexivity. Qed.

(** Recording an exchange keeps the message ids distinct, as long as the
    draws are. *)
Lemma ids_drawn_exchange (E : Env) (n : nat)
    (sid text image_url caption : string) (w : World) (session : Session) :
  distinct_draws E n ->
  dict_get sid (sessions w) = Some session ->
  S (S (S (uuid_calls w))) <= n ->
  ids_drawn E w ->
  ids_drawn E (record_exchange E sid text image_url caption w).
Proof.
  intros Hd Hget Hn [Hnd Hb].
  unfold ids_drawn, record_exchange. cbn [sessions uuid_calls].
  rewrite (add_messages_dict_set _ _ _ _ Hget).
  destruct (message_ids_dict_set_known _ _ _ Hget) as (a & b & Ha & Hset).
  rewrite Hset. cbn [messages]. rewrite map_app, exchange_ids.
  set (c := uuid_calls w) in *.
  set (old := map (Py.get "id") (messages session)) in *.
  set (new := [VStr (hex8 (uuid4 E c)); VStr (hex8 (uuid4 E (S c)));
               VStr (hex8 (uuid4 E (S (S c))))]).
  assert (Hfresh : forall v, In v new -> ~ In v (message_ids (sessions w))).
  { intros v Hv Hin. destruct (Hb v Hin) as (k & Hk & ->).
    destruct Hv as [Hv|[Hv|[Hv|[]]]]; apply VStr_inj in Hv;
      apply (distinct_draws_inj E n) in Hv; try assumption; lia. }
  assert (Hnew : NoDup new).
  { repeat constructor; simpl; intros H;
      repeat (destruct H as [H|H]; [apply VStr_inj in H;
        apply (distinct_draws_inj E n) in H; try assumption; lia|]);
      exact H. }
  assert (Hperm : Permutation.Permutation
                    (new ++ message_ids (sessions w))
                    (a ++ (old ++ new) ++ b)).
  { rewrite Ha. rewrite <- !app_assoc.
    rewrite (app_assoc a old). rewrite (app_assoc a old).
    rewrite (app_assoc new).
    etransitivity; [apply Permutation.Permutation_app_tail,
                      Permutation.Permutation_app_comm|].
    rewrite <- !app_assoc. reflexivity. }
  split.
  - apply (Permutation.Permutation_NoDup Hperm).
    apply NoDup_app; assumption.
  - intros v Hv.
    apply (Permutation.Permutation_in _ (Permutation.Permutation_sym Hperm))
      in Hv.
    apply in_app_iff in Hv as [Hv|Hv].
    + destruct Hv as [<-|[<-|[<-|[]]]]; eexists; (split; [|reflexivity]);
        lia.
    + destruct (Hb v Hv) as (k & Hk & ->). exists k. split; [lia|reflexivity].
Qed.

Lemma generation_target_ids (E : Env) (session_id : value)
    (prompt_new : string) (w w1 : World) (sid prompt : string) :
  generation_target E session_id prompt_new w = (sid, prompt, w1) ->
  uuid_calls w <= uuid_calls w1
  /\ (ids_drawn E w -> ids_drawn E w1).
Proof.
  unfold generation_target.
  destruct (existing_session session_id (sessions w)).
  - intros [= _ _ <-]. auto.
  - intros [= _ _ <-]. cbn [uuid_calls set_sessions set_uuid_calls].
    split; [lia|]. intros Hids.
    destruct (message_ids_create (uuid4 E (uuid_calls w)) prompt_new
                (sessions w) (proj1 Hids)) as [Hnd Hincl].
    apply (ids_drawn_weaken E w); auto. simpl. lia.
Qed.

Lemma ids_drawn_frame (E : Env) (w w' : World) :
  sessions w' = sessions w ->
  uuid_calls w <= uuid_calls w' ->
  ids_drawn E w -> ids_drawn E w'.
Proof.
  intros Hs Hle Hids. apply (ids_drawn_weaken E w); auto; rewrite Hs.
  - exact (proj1 Hids).
  - apply incl_refl.
Qed.

Lemma update_message_status_ids (message_id status : string) (s : Sessions) :
  message_ids (snd (SessionManager.update_message_status message_id status s))
  = message_ids s.
Proof.
  unfold SessionManager.update_message_status.
  destruct (SessionManager.update_in_sessions message_id status s)
    as [s'|] eqn:Hu; cbn [snd]; [|reflexivity].
  symmetry. apply message_ids_same_store.
  exact (update_in_sessions_same _ _ _ _ Hu).
Qed.

(** One request keeps the message ids distinct, as long as the draws
    are. *)
Lemma handle_ids (E : Env) (n : nat) (r : Request) (w w' : World)
    (res : Result Response) :
  handle E r w = (res, w') ->
  uuid_calls w <= uuid_calls w'
  /\ (distinct_draws E n -> uuid_calls w' <= n ->
      ids_drawn E w -> ids_drawn E w').
Proof.
  destruct r as [data|data|data]; simpl.
  - destruct (value_strip (get_default "prompt" (VStr "") data))
      as [p|e] eqn:Hstrip.
    + destruct (String.eqb_spec p "") as [->|Hp].
      * rewrite (generate_image_empty E data w Hstrip).
        intros [= _ <-]. auto.
      * rewrite (generate_image_run E data w p Hstrip Hp).
        destruct (generation_target E (Py.get "session_id" data) p w)
          as [[sid prompt] w1] eqn:Ht.
        destruct (generation_target_ids _ _ _ _ _ _ _ Ht) as [Hle1 Hids1].
        destruct (generation_target_known _ _ _ _ _ _ _ Ht)
          as [session Hget].
        destruct (ImageGenerator.generate E prompt w1)
          as [[path|e] w2] eqn:Hgen;
          destruct (generate_frame _ _ _ _ _ Hgen) as (Hs & _ & _);
          pose proof (generate_uuid_calls _ _ _ _ _ Hgen) as Hle2;
          intros [= _ <-].
        -- cbn [record_exchange uuid_calls]. split; [lia|].
           intros Hd Hn Hids. rewrite <- Hs in Hget.
           apply (ids_drawn_exchange E n _ _ _ _ _ session); auto.
           apply (ids_drawn_frame E w1); auto.
        -- split; [lia|]. intros _ _ Hids.
           apply (ids_drawn_frame E w1); auto.
    + rewrite (generate_image_no_strip E data w e Hstrip).
      intros [= _ <-]. auto.
  - destruct (as_truthy (Py.get "message_id" data)) as [mid|] eqn:Hid;
      [|unfold regenerate; rewrite Hid; intros [= _ <-]; auto].
    destruct (SessionManager.find_message_prompt mid (sessions w))
      as [[[sid pv]|]|e] eqn:Hfind;
      try (unfold regenerate, bind; rewrite Hid, Hfind;
           intros [= _ <-]; now auto).
    destruct (as_truthy pv) as [p|] eqn:Hp;
      [|unfold regenerate, bind; rewrite Hid, Hfind, Hp;
        intros [= _ <-]; now auto].
    rewrite (regenerate_run E data w mid sid p pv Hid Hfind Hp).
    destruct (find_message_prompt_session _ _ _ _ Hfind) as [session Hget].
    destruct (ImageGenerator.generate E p w) as [[path|e] w2] eqn:Hgen;
      destruct (generate_frame _ _ _ _ _ Hgen) as (Hs & _ & _);
      pose proof (generate_uuid_calls _ _ _ _ _ Hgen) as Hle2;
      intros [= _ <-].
    + cbn [record_exchange uuid_calls]. split; [lia|].
      intros Hd Hn Hids. rewrite <- Hs in Hget.
      apply (ids_drawn_exchange E n _ _ _ _ _ session); auto.
      apply (ids_drawn_frame E w); auto.
    + split; [lia|]. intros _ _ Hids. apply (ids_drawn_frame E w); auto.
  - unfold update_status.
    destruct (as_truthy (Py.get "message_id" data)) as [mid|];
      [|intros [= _ <-]; auto].
    destruct (as_truthy (Py.get "status" data)) as [status|];
      [|intros [= _ <-]; auto].
    unfold bind, update.
    pose proof (update_message_status_ids mid status (sessions w)) as Hm.
    destruct (SessionManager.update_message_status mid status (sessions w))
      as [ok s']. cbn [snd] in Hm.
    assert (Hkeep : forall f,
               ids_drawn E w ->
               ids_drawn E (set_sessions_file f (set_sessions s' w))).
    { intros f [Hnd Hb]. unfold ids_drawn. cbn [sessions uuid_calls
        set_sessions set_sessions_file]. rewrite Hm. auto. }
    assert (Hkeep' : ids_drawn E w -> ids_drawn E (set_sessions s' w)).
    { intros [Hnd Hb]. unfold ids_drawn. cbn [sessions uuid_calls
        set_sessions]. rewrite Hm. auto. }
    destruct ok; unfold save, ret.
    + destruct (sessions_file_write E);
        [intros [= _ <-]; split; [simpl; lia | auto]|].
      destruct (sessions_file_failure E); intros [= _ <-];
        (split; [simpl; lia | auto]).
    + intros [= _ <-]. split; [simpl; lia | auto].
Qed.

Lemma serve_uuid_calls (E : Env) (requests : list Request) (w : World) :
  uuid_calls w <= uuid_calls (serve E requests w).
Proof.
  revert w; induction requests as [|r rest IH]; intros w; simpl; [lia|].
  destruct (handle E r w) as [res w1] eqn:Hrun. cbn [snd].
  pose proof (proj1 (handle_ids E 0 _ _ _ _ Hrun)).
  specialize (IH w1). lia.
Qed.

Lemma id_count_message_ids (message_id : string) (s : Sessions) :
  id_count message_id s
  = length (filter (fun v => value_eqb v (VStr message_id)) (message_ids s)).
Proof.
  unfold id_count, message_ids.
  induction s as [|kv s IH]; simpl; [reflexivity|].
  rewrite filter_app, length_app, IH. f_equal.
  induction (messages (snd kv)) as [|m l IHl]; simpl; [reflexivity|].
  unfold SessionManager.has_id at 1.
  destruct (value_eqb (Py.get "id" m) (VStr message_id)); simpl;
    now rewrite IHl.
Qed.

Lemma NoDup_filter_eqb (x : value) (l : list value) :
  NoDup l -> length (filter (fun v => value_eqb v x) l) <= 1.
Proof.
  induction 1 as [|y l Hy Hl IH]; simpl; [lia|].
  destruct (value_eqb y x) eqn:Hyx; [|exact IH].
  apply value_eqb_eq in Hyx. subst y. simpl.
  assert (Hnone : filter (fun v => value_eqb v x) l = []).
  { destruct (filter (fun v => value_eqb v x) l) as [|z t] eqn:Hf;
      [reflexivity|].
    assert (Hz : In z (filter (fun v => value_eqb v x) l))
      by (rewrite Hf; now left).
    apply filter_In in Hz as [Hz Hzx]. apply value_eqb_eq in Hzx.
    subst z. contradiction. }
  rewrite Hnone. simpl. lia.
Qed.

(** X16.  Suppose that the first [n] UUIDs differ in their first eight
    hexadecimal digits, and start from a store whose message ids are
    pairwise distinct and were all drawn (the empty store is one).  Then
    after any sequence of requests that draws no more than [n] UUIDs the
    message ids of the store are still pairwise distinct and drawn: no id
    is carried by two messages. *)
Theorem message_ids_stay_distinct (E : Env) (n : nat)
    (requests : list Request) (w : World) :
  distinct_draws E n ->
  ids_drawn E w ->
  uuid_calls (serve E requests w) <= n ->
  ids_drawn E (serve E requests w)
  /\ forall message_id,
       id_count message_id (sessions (serve E requests w)) <= 1.
Proof.
  intros Hd Hids Hn.
  assert (H : ids_drawn E (serve E requests w)).
  { revert w Hids Hn. induction requests as [|r rest IH]; intros w Hids Hn;
      simpl in *; [exact Hids|].
    destruct (handle E r w) as [res w1] eqn:Hrun. cbn [snd] in *.
    apply IH; [|exact Hn].
    apply (proj2 (handle_ids E n _ _ _ _ Hrun)); auto.
    pose proof (serve_uuid_calls E rest w1). lia. }
  split; [exact H|].
  intros message_id. rewrite id_count_message_ids.
  apply NoDup_filter_eqb. exact (proj1 H).
Qed.

(** The example environment draws distinct ids; after the first request
    and a regeneration of its image, the ids of the six messages are
    distinct. *)
Lemma message_ids_stay_distinct_witness :
  NoDup
    (message_ids
       (sessions
          (serve Example.env
             [PostGenerate [("prompt", VStr "a cat")];
              PostRegenerate [("message_id", VStr "00000004")]]
             Example.empty_world)))
  /\ id_count "00000008"
       (sessions
          (serve Example.env
             [PostGenerate [("prompt", VStr "a cat")];
              PostRegenerate [("message_id", VStr "00000004")]]
             Example.empty_world)) <= 1.
Proof.
  destruct (message_ids_stay_distinct Example.env 16
              [PostGenerate [("prompt", VStr "a cat")];
               PostRegenerate [("message_id", VStr "00000004")]]
              Example.empty_world) as [[Hnd _] Hc].
  - apply distinct_strings_NoDup. vm_compute. reflexivity.
  - split; [constructor | intros v []].
  - vm_compute. repeat constructor.
  - split; [exact Hnd | apply Hc].
Defined.

(* ================================================================== *)
(** ** Restarting the process *)
(* ================================================================== *)

Lemma update_status_success (E : Env) (data : dict value) (w w' : World) :
  update_status E data w = (Ok Success, w') ->
  sessions_file_write E = true ->
  sessions_file w' = Some (sessions w').
Proof.
  unfold update_status.
  destruct (as_truthy (Py.get "message_id" data)) as [mid|]; [|discriminate].
  destruct (as_truthy (Py.get "status" data)) as [status|]; [|discriminate].
  unfold bind, update, save, ret.
  destruct (SessionManager.update_message_status mid status (sessions w))
    as [[|] s']; [|discriminate].
  intros H Hw. rewrite Hw in H. now injection H as <-.
Qed.

(** X17.  Suppose the write of the sessions file goes through and the
    store in memory is what [_load_sessions] would load.  After any
    [POST] request a restart of the process loads the store the request
    left, with one exception: a generate request without an existing
    session whose generation fails.  The session it created was never
    saved, and a restart loads the store from before the request. *)
Theorem restart_reloads_the_store (E : Env) (r : Request) (w w' : World)
    (res : Result Response) :
  sessions_file_write E = true ->
  load_sessions (sessions_file w) = sessions w ->
  handle E r w = (res, w') ->
  sessions (restart w') = sessions w'
  \/ (exists data msg,
        r = PostGenerate data
        /\ res = Ok (ErrorResponse 500 msg)
        /\ existing_session (Py.get "session_id" data) (sessions w) = None
        /\ sessions (restart w') = sessions w).
Proof.
  intros Hwrite Hload. unfold restart. cbn [sessions set_sessions].
  destruct r as [data|data|data]; simpl.
  - destruct (value_strip (get_default "prompt" (VStr "") data))
      as [p|e] eqn:Hstrip.
    + destruct (String.eqb_spec p "") as [->|Hp].
      * rewrite (generate_image_empty E data w Hstrip).
        intros [= _ <-]. auto.
      * rewrite (generate_image_run E data w p Hstrip Hp).
        destruct (generation_target E (Py.get "session_id" data) p w)
          as [[sid prompt] w1] eqn:Ht.
        pose proof (generation_target_file _ _ _ _ _ _ _ Ht) as Hf1.
        destruct (ImageGenerator.generate E prompt w1)
          as [[path|e] w2] eqn:Hgen;
          destruct (generate_frame _ _ _ _ _ Hgen) as (Hs & Hf & _);
          intros [= <- <-].
        -- left. now rewrite record_exchange_file.
        -- unfold generation_target in Ht.
           destruct (existing_session (Py.get "session_id" data) (sessions w))
             as [sid0|] eqn:Hex.
           ++ injection Ht as _ _ <-. left. congruence.
           ++ right. exists data. eexists.
              split; [reflexivity|]. split; [reflexivity|].
              split; [exact Hex|]. congruence.
    + rewrite (generate_image_no_strip E data w e Hstrip).
      intros [= _ <-]. auto.
  - intros Hrun. left.
    destruct (regenerate_outcomes _ _ _ _ _ Hrun)
      as [(c & m & _ & _ & ->)
         |[(e & _ & _ & ->)
          |[(m & p & _ & Hs & Hf & _)
           |[(sid & p & url & mid & ->)
            |(e & sid & p & path & w2 & _ & _ & _ & _ & _ & ->)]]]];
      try congruence.
    + destruct (regenerate_regenerated _ _ _ _ _ _ _ _ Hrun)
        as (mid' & path & w2 & _ & _ & _ & _ & _ & _ & ->).
      now rewrite record_exchange_file.
    + now rewrite record_exchange_file.
  - intros Hrun. left.
    destruct (update_status_outcomes _ _ _ _ _ Hrun)
      as [(c & m & _ & _ & ->)|[->|(e & _ & Hsave)]]; [exact Hload| |].
    + now rewrite (update_status_success _ _ _ _ Hrun Hwrite).
    + unfold save_raises in Hsave. rewrite Hwrite in Hsave. discriminate.
Qed.

(** A first start without a sessions file: after the first request of the
    example a restart loads the example session; after a failed one it
    loads the empty store. *)
Lemma restart_reloads_the_store_witness :
  sessions
    (restart (snd (handle Example.env (PostGenerate [("prompt", VStr "a cat")])
                     (set_sessions_file None Example.empty_world))))
  = Example.cat_sessions
  /\ sessions
       (restart
          (snd (handle Example.failing_env
                  (PostGenerate [("prompt", VStr "a cat")])
                  (set_sessions_file None Example.empty_world))))
     = [].
Proof.
  split.
  - destruct (restart_reloads_the_store Example.env
                (PostGenerate [("prompt", VStr "a cat")])
                (set_sessions_file None Example.empty_world)
                (snd (handle Example.env
                        (PostGenerate [("prompt", VStr "a cat")])
                        (set_sessions_file None Example.empty_world)))
                (Ok (Generated "00000001" "/static/generated/00000002.png"
                       "00000004"))
                eq_refl eq_refl ltac:(vm_compute; reflexivity))
      as [H|(data & msg & _ & H & _)]; [|discriminate].
    rewrite H. vm_compute. reflexivity.
  - destruct (restart_reloads_the_store Example.failing_env
                (PostGenerate [("prompt", VStr "a cat")])
                (set_sessions_file None Example.empty_world)
                (snd (handle Example.failing_env
                        (PostGenerate [("prompt", VStr "a cat")])
                        (set_sessions_file None Example.empty_world)))
                (Ok (ErrorResponse 500
                       "Image generation failed: CUDA out of memory"))
                eq_refl eq_refl ltac:(vm_compute; reflexivity))
      as [H|(data & msg & _ & _ & _ & H)].
    + vm_compute in H. discriminate.
    + exact H.
Defined.

(* ================================================================== *)
(** ** Titles, prompts and the list of sessions *)
(* ================================================================== *)

(** X18.  A title has the length of its prompt up to 30 characters and
    33 characters beyond; it is never longer than 33 characters. *)
Theorem title_length (prompt : string) :
  String.length (SessionManager.make_title prompt)
  = (if 30 <? String.length prompt then 33 else String.length prompt)%nat
  /\ String.length (SessionManager.make_title prompt) <= 33.
Proof.
  destruct (Nat.ltb_spec 30 (String.length prompt)) as [H|H].
  - rewrite make_title_long, <- take_substring, length_append by exact H.
    rewrite length_take by lia. simpl. lia.
  - rewrite make_title_short by exact H. lia.
Qed.

Lemma lstrip_empty (s : string) : lstrip s = "" <-> all_space s = true.
Proof.
  induction s as [|c s IH]; simpl; [tauto|].
  destruct (isspace c); simpl; [exact IH|].
  split; discriminate.
Qed.

Lemma lstrip_starts (s : string) :
  all_space s = false -> all_space (lstrip s) = false.
Proof.
  induction s as [|c s IH]; simpl; [discriminate|].
  destruct (isspace c) eqn:Hc; simpl; [exact IH|].
  now rewrite Hc.
Qed.

Lemma rstrip_empty (s : string) : rstrip s = "" <-> all_space s = true.
Proof.
  induction s as [|c s IH]; simpl; [tauto|].
  destruct (rstrip s) as [|x r] eqn:Hr.
  - destruct (isspace c); simpl; [tauto|]. split; discriminate.
  - split; [discriminate|]. intros H. apply andb_true_iff in H as [_ H].
    apply IH in H. discriminate.
Qed.

Lemma strip_empty (s : string) : strip s = "" <-> all_space s = true.
Proof.
  unfold strip. rewrite rstrip_empty.
  destruct (all_space s) eqn:Hs.
  - apply lstrip_empty in Hs. now rewrite Hs.
  - apply lstrip_starts in Hs. rewrite Hs. tauto.
Qed.

(** X19.  For a request whose prompt is a string (or is missing, which
    reads as the empty string), [generate_image] answers 400 "Prompt is
    empty" exactly when the prompt consists of white space only; the
    world is then as it was. *)
Theorem empty_prompt_is_refused (E : Env) (data : dict value) (w : World)
    (raw : string) :
  get_default "prompt" (VStr "") data = VStr raw ->
  (all_space raw = true ->
   generate_image E data w = (Ok (ErrorResponse 400 "Prompt is empty"), w))
  /\ (all_space raw = false ->
      forall msg,
        fst (generate_image E data w) <> Ok (ErrorResponse 400 msg)).
Proof.
  intros Hraw. split.
  - intros Hs. apply generate_image_empty. rewrite Hraw. simpl.
    now rewrite (proj2 (strip_empty raw) Hs).
  - intros Hs msg.
    assert (Hne : strip raw <> "")
      by (intros H; apply strip_empty in H; congruence).
    rewrite (generate_image_run E data w (strip raw))
      by (rewrite ?Hraw; auto).
    destruct (generation_target E (Py.get "session_id" data) (strip raw) w)
      as [[sid prompt] w1].
    destruct (ImageGenerator.generate E prompt w1) as [[path|e] w2];
      [|discriminate].
    destruct (save_raises E); discriminate.
Qed.

Lemma empty_prompt_is_refused_witness :
  generate_image Example.env [("session_id", VStr "00000001")]
    Example.cat_world
  = (Ok (ErrorResponse 400 "Prompt is empty"), Example.cat_world)
  /\ fst (generate_image Example.env [("prompt", VStr " a ")]
            Example.cat_world)
     <> Ok (ErrorResponse 400 "Prompt is empty").
Proof.
  split.
  - apply (proj1 (empty_prompt_is_refused Example.env
                    [("session_id", VStr "00000001")] Example.cat_world ""
                    eq_refl)).
    reflexivity.
  - apply (proj2 (empty_prompt_is_refused Example.env
                    [("prompt", VStr " a ")] Example.cat_world " a "
                    eq_refl)).
    reflexivity.
Defined.

Lemma store_step_keys (s s' : Sessions) :
  store_step s s' -> exists added, map fst s' = map fst s ++ added.
Proof.
  induction 1 as [s|u p s|sid uid bid cid text url cap s session Hget Ht Hc
                 |mid status s|a b c _ IH1 _ IH2].
  - exists []. now rewrite app_nil_r.
  - unfold SessionManager.create. cbn [snd].
    destruct (dict_get (hex8 u) s) as [old|] eqn:Hget.
    + exists []. rewrite app_nil_r. now apply (dict_set_keys_known _ old).
    + exists [hex8 u]. rewrite (dict_set_new _ _ _ Hget). now rewrite map_app.
  - exists []. rewrite app_nil_r, (add_messages_dict_set _ _ _ _ Hget).
    now apply (dict_set_keys_known _ session).
  - exists []. rewrite app_nil_r.
    unfold SessionManager.update_message_status.
    destruct (SessionManager.update_in_sessions mid status s) as [s'|] eqn:Hu;
      cbn [snd]; [|reflexivity].
    pose proof (update_in_sessions_same _ _ _ _ Hu) as Hsame.
    clear Hu. induction Hsame as [|kv kv' r r' (Hk & _) Hr IH]; simpl;
      [reflexivity|]. now rewrite Hk, IH.
  - destruct IH1 as [l1 H1], IH2 as [l2 H2]. exists (l1 ++ l2).
    now rewrite H2, H1, app_assoc.
Qed.

(** X20.  No request removes or reorders a session: after any sequence of
    requests the ids that [get_sessions] lists start with the ids it
    listed before, in the same order, followed by the ids of the
    sessions created since. *)
Theorem sessions_are_never_removed (E : Env) (requests : list Request)
    (w : World) :
  exists listed_before listed_after added,
    fst (get_sessions w) = Ok listed_before
    /\ fst (get_sessions (serve E requests w)) = Ok listed_after
    /\ map fst listed_after = map fst listed_before ++ added.
Proof.
  destruct (store_step_keys _ _ (serve_store_step E requests w))
    as [added H].
  exists (SessionManager.get_all (sessions w)),
    (SessionManager.get_all (sessions (serve E requests w))), added.
  split; [reflexivity|]. split; [reflexivity|].
  unfold SessionManager.get_all. rewrite !map_map.
  assert (Hfst : forall s : Sessions,
             map (fun x => fst (let '(sid, session) := x in
                                (sid, title session))) s = map fst s).
  { intros s. apply map_ext. now intros [k v]. }
  now rewrite !Hfst.
Qed.
